(** * hgdecode: trial cropping, temporal splitting and the streaming crop
      generator of [hgdecode/classes.py]

    The development embeds [EEGDataset] (temporal split, bulk cropping,
    one-hot encoding) and [EEGDataGenerator] (the keras [Sequence] that crops
    trials on demand) and proves the windowing and batching laws about them.
    It then covers [FilterBank] of the same file and, from
    [hgdecode/experiments.py], the folds of [FBCSPrLDAExperiment] and the
    data preparation and layer freezing of [DLExperiment].

    Conventions of the embedding:
    - Python integers are [Z]; container sizes are [nat].
    - A raised exception is the [Raise] branch of [result].
    - ndarrays are lists carrying the trailing entries of their [shape], so
      that an array with no row still knows its width, as numpy's does.
    - [int(ceil(a / b))] and [int(floor(a / b))] on integers are computed on
      the exact rational; the binary64 quotient has the same ceiling and floor
      as long as the operands stay below 2^53, which sample and crop counts do.
    - [validation_frac] is a binary64 number and [train_len * validation_frac]
      is the IEEE product, computed with [SpecFloat]. *)

From Stdlib Require Import ZArith QArith Qround Lia.
From Stdlib Require Import SpecFloat.
From stdpp Require Import base list sorting strings.

Close Scope Q_scope.
Open Scope Z_scope.

(** ** Exceptions *)

Inductive exn : Type :=
  | ZeroDivisionError
  | ValueError
  | IndexError
  | OverflowError
  | TypeError
  | AssertionError.

Inductive result (T : Type) : Type :=
  | Ok (v : T)
  | Raise (e : exn).

Arguments Ok {T} v.
Arguments Raise {T} e.

#[global] Instance result_ret : MRet result := λ _ v, Ok v.
#[global] Instance result_bind : MBind result :=
  λ _ _ f m, match m with Ok v => f v | Raise e => Raise e end.

Definition is_Ok {T} (r : result T) : Prop := ∃ v, r = Ok v.

(** ** Python and numpy primitives *)

Module Py.

(** [a / b] on two integers: true division. *)
Definition true_div (a b : Z) : result Q :=
  if decide (b = 0) then Raise ZeroDivisionError
  else Ok (inject_Z a / inject_Z b)%Q.

(** The bound [i] of a slice over a sequence of [len] items: a negative bound
    counts from the end, and the outcome is clamped to [0, len]. *)
Definition slice_bound (len : nat) (i : Z) : nat :=
  Z.to_nat (Z.min (Z.of_nat len) (Z.max 0 (if i <? 0 then i + Z.of_nat len else i))).

(** [l[a:b]] *)
Definition slice {T} (a b : Z) (l : list T) : list T :=
  let lo := slice_bound (length l) a in
  let hi := slice_bound (length l) b in
  take (hi - lo) (drop lo l).

(** [l[a:]] *)
Definition slice_from {T} (a : Z) (l : list T) : list T :=
  drop (slice_bound (length l) a) l.

(** [l[i]] for an integer [i]: negative indices count from the end. *)
Definition index {T} (l : list T) (i : Z) : result T :=
  let j := if i <? 0 then i + Z.of_nat (length l) else i in
  if j <? 0 then Raise IndexError
  else match l !! Z.to_nat j with
       | Some v => Ok v
       | None => Raise IndexError
       end.

(** [l[idx]] for an integer array [idx] (fancy indexing). *)
Fixpoint take_idx {T} (l : list T) (idx : list Z) : result (list T) :=
  match idx with
  | [] => Ok []
  | i :: idx' =>
      v ← index l i;
      vs ← take_idx l idx';
      Ok (v :: vs)
  end.

(** [arange(start, stop)] *)
Definition arange (start stop : Z) : list Z :=
  (λ k : nat, start + Z.of_nat k) <$> seq 0 (Z.to_nat (stop - start)).

(** [repeat(v, n)] *)
Definition repeat {T} (v : T) (n : Z) : result (list T) :=
  if n <? 0 then Raise ValueError else Ok (replicate (Z.to_nat n) v).

(** [zeros(n)] *)
Definition zeros1 (n : Z) : result (list Z) := repeat 0 n.

(** [arr[init:stop] = vals] along the first axis.  numpy broadcasts a single
    item over the slice and refuses any other length mismatch. *)
Definition set_slice {T} (init stop : Z) (vals : list T) (arr : list T)
    : result (list T) :=
  let lo := slice_bound (length arr) init in
  let hi := slice_bound (length arr) stop in
  let k := (hi - lo)%nat in
  if decide (length vals = k) then Ok (take lo arr ++ vals ++ drop (lo + k) arr)
  else match vals with
       | [v] => Ok (take lo arr ++ replicate k v ++ drop (lo + k) arr)
       | _ => Raise ValueError
       end.

(** [unique(l)]: the distinct values of [l], in increasing order. *)
Definition unique (l : list Z) : list Z := merge_sort Z.le (remove_dups l).

End Py.

(** ** keras.utils.to_categorical

    The library function both classes call.  A class count of 0 is falsy and
    is replaced by [max(y) + 1]; row [i] receives a 1 at column [y[i]], with
    numpy's wrap-around of negative columns. *)

Module Keras.

Definition one_hot_row (num_classes : Z) (c : Z) : result (list Z) :=
  let j := if c <? 0 then c + num_classes else c in
  if (j <? 0) || (num_classes <=? j) then Raise IndexError
  else Ok (<[Z.to_nat j := 1]> (replicate (Z.to_nat num_classes) 0)).

Fixpoint one_hot_rows (num_classes : Z) (y : list Z) : result (list (list Z)) :=
  match y with
  | [] => Ok []
  | c :: y' =>
      r ← one_hot_row num_classes c;
      rs ← one_hot_rows num_classes y';
      Ok (r :: rs)
  end.

Definition to_categorical (y : list Z) (num_classes : Z) : result (list (list Z)) :=
  num_classes ← (if decide (num_classes = 0)
                 then match y with
                      | [] => Raise ValueError
                      | c :: y' => Ok (foldr Z.max c y' + 1)
                      end
                 else Ok num_classes);
  if num_classes <? 0 then Raise ValueError
  else one_hot_rows num_classes y.


End Keras.

(** ** ndarrays of samples *)

Section Arrays.
Context {A : Type}.

(** A 2-D array of shape [(length m_rows, m_cols)]. *)
Record matrix : Type := Matrix { m_cols : nat; m_rows : list (list A) }.

(** A 3-D array of shape [(length t_items, t_rows, t_cols)]. *)
Record tensor : Type :=
  Tensor { t_rows : nat; t_cols : nat; t_items : list (list (list A)) }.

Definition matrix_wf (M : matrix) : Prop :=
  Forall (λ r, length r = m_cols M) (m_rows M).

Definition tensor_wf (X : tensor) : Prop :=
  Forall (λ t, length t = t_rows X ∧ Forall (λ r, length r = t_cols X) t)
         (t_items X).

(** [X[i, ...]] *)
Definition trial_at (X : tensor) (i : Z) : result matrix :=
  rows ← Py.index (t_items X) i;
  Ok (Matrix (t_cols X) rows).

(** [X[:, init:stop]] *)
Definition slice_cols (init stop : Z) (M : matrix) : matrix :=
  Matrix (Py.slice_bound (m_cols M) stop - Py.slice_bound (m_cols M) init)
         (Py.slice init stop <$> m_rows M).

(** The value stored by [new_X[i, ...] = M] in a slot of [W] columns: the
    columns must agree, or [M] has one column, which numpy broadcasts. *)
Definition broadcast_cols (W : nat) (M : matrix) : result (list (list A)) :=
  if decide (m_cols M = W) then Ok (m_rows M)
  else if decide (m_cols M = 1%nat)
       then Ok ((λ r, flat_map (replicate W) r) <$> m_rows M)
       else Raise ValueError.

(** [zeros((n, h, W))] *)
Definition zeros (zero : A) (n : Z) (h : nat) (W : Z) : result tensor :=
  if (n <? 0) || (W <? 0) then Raise ValueError
  else Ok (Tensor h (Z.to_nat W)
             (replicate (Z.to_nat n) (replicate h (replicate (Z.to_nat W) zero)))).

(** [X[:, newaxis, ...]] *)
Definition add_newaxis (items : list (list (list A))) : list (list (list (list A))) :=
  (λ t, [t]) <$> items.
End Arrays.

Arguments matrix A : clear implicits.
Arguments tensor A : clear implicits.

(** ** EEGDataset: the cropping routines *)

Module EEGDataset.
Section Cropping.
Context {A : Type} (zero : A).

(** [int(ceil((w - crop_sample_size + 1) / crop_step))], the expression
    shared by [crop_X_y] and the generator's constructor. *)
Definition n_crops_of (w crop_sample_size crop_step : Z) : result Z :=
  q ← Py.true_div (w - crop_sample_size + 1) crop_step;
  Ok (Qceiling q).

(** The body of [for i in range(n_crops)] in [crop_X]; [k] iterations are
    left and [i], [init], [stop] are the loop variables. *)
Fixpoint crop_X_fill (X : matrix A) (W : nat) (crop_step : Z) (k i : nat)
    (init stop : Z) (new_X : list (list (list A)))
    : result (list (list (list A))) :=
  match k with
  | O => Ok new_X
  | S k' =>
      win ← broadcast_cols W (slice_cols init stop X);
      crop_X_fill X W crop_step k' (S i) (init + crop_step) (stop + crop_step)
                  (<[i := win]> new_X)
  end.

Definition crop_X (X : matrix A) (n_crops crop_sample_size crop_step : Z)
    : result (tensor A) :=
  new_X ← zeros zero n_crops (length (m_rows X)) crop_sample_size;
  items ← crop_X_fill X (t_cols new_X) crop_step (Z.to_nat n_crops) 0
                      0 crop_sample_size (t_items new_X);
  Ok (Tensor (t_rows new_X) (t_cols new_X) items).

Definition crop_y (y : Z) (n_crops : Z) : result (list Z) :=
  Py.repeat y n_crops.

(** The body of [for i in range(d)] in [crop_X_y]. *)
Fixpoint crop_X_y_fill (X : tensor A) (y : list Z)
    (n_crops crop_sample_size crop_step : Z) (k i : nat) (init stop : Z)
    (new_X : list (list (list A))) (new_y : list Z)
    : result (list (list (list A)) * list Z) :=
  match k with
  | O => Ok (new_X, new_y)
  | S k' =>
      Xi ← trial_at X (Z.of_nat i);
      cX ← crop_X Xi n_crops crop_sample_size crop_step;
      new_X' ← Py.set_slice init stop (t_items cX) new_X;
      yi ← Py.index y (Z.of_nat i);
      cy ← crop_y yi n_crops;
      new_y' ← Py.set_slice init stop cy new_y;
      crop_X_y_fill X y n_crops crop_sample_size crop_step k' (S i)
                    (init + n_crops) (stop + n_crops) new_X' new_y'
  end.

Definition crop_X_y (X : tensor A) (y : list Z) (crop_sample_size crop_step : Z)
    : result (tensor A * list Z) :=
  let d := length (t_items X) in
  let h := t_rows X in
  let w := t_cols X in
  n_crops ← n_crops_of (Z.of_nat w) crop_sample_size crop_step;
  let new_d := n_crops * Z.of_nat d in
  new_X ← zeros zero new_d h crop_sample_size;
  new_y ← Py.zeros1 new_d;
  '(items, labels) ← crop_X_y_fill X y n_crops crop_sample_size crop_step d 0
                                   0 (0 + n_crops) (t_items new_X) new_y;
  Ok (Tensor (t_rows new_X) (t_cols new_X) items, labels).

(** *** Reference windows

    What the cropping laws compare the code with: the window of [W] samples
    starting at [offset], and the [n] windows of a trial taken every
    [crop_step] samples. *)
Definition window (X : matrix A) (W : nat) (offset : nat) : list (list A) :=
  (λ r, take W (drop offset r)) <$> m_rows X.

Definition windows (X : matrix A) (n : nat) (W : nat) (crop_step : Z)
    : list (list (list A)) :=
  (λ i : nat, window X W (Z.to_nat (Z.of_nat i * crop_step))) <$> seq 0 n.

(** The crops of every trial and the copies of every label, one block per
    trial. *)
Definition bulk_windows (X : tensor A) (n W : nat) (crop_step : Z)
    : list (list (list (list A))) :=
  (λ t, windows (Matrix (t_cols X) t) n W crop_step) <$> t_items X.

Definition bulk_labels (y : list Z) (n : nat) : list (list Z) :=
  (λ c, replicate n c) <$> y.
End Cropping.

(** *** Binary64 arithmetic of [floor(train_len * validation_frac)] *)

Definition b64_mul : spec_float → spec_float → spec_float := SFmul 53 1024.

(** Conversion of a Python integer to a float. *)
Definition float_of_int (z : Z) : result spec_float :=
  match binary_normalize 53 1024 z 0 false with
  | S754_infinity _ => Raise OverflowError
  | f => Ok f
  end.

(** [int(floor(f))] *)
Definition int_floor (f : spec_float) : result Z :=
  match f with
  | S754_zero _ => Ok 0
  | S754_infinity _ => Raise OverflowError
  | S754_nan => Raise ValueError
  | S754_finite s m e =>
      let v := if s then Z.neg m else Z.pos m in
      Ok (if 0 <=? e then v * 2 ^ e else v / 2 ^ (- e))
  end.

(** *** The dataset object *)

Section Dataset.
Context {A : Type} (zero : A).

(** The six attributes.  [TY] is the type of a label vector: [list Z] until
    [to_categorical] replaces it by rows of indicators. *)
Record dataset (TY : Type) : Type := Dataset {
  X_train : tensor A; y_train : TY;
  X_valid : tensor A; y_valid : TY;
  X_test : tensor A; y_test : TY
}.
Arguments Dataset {TY}.
Arguments X_train {TY}. Arguments y_train {TY}.
Arguments X_valid {TY}. Arguments y_valid {TY}.
Arguments X_test {TY}. Arguments y_test {TY}.

(** [EEGDataset.__init__] *)
Definition init (epo_train_x : tensor A) (epo_train_y : list Z)
    (epo_valid_x : tensor A) (epo_valid_y : list Z)
    (epo_test_x : tensor A) (epo_test_y : list Z) : result (dataset (list Z)) :=
  if negb (bool_decide (length (t_items epo_train_x) = length epo_train_y))
  then Raise AssertionError
  else if negb (bool_decide (length (t_items epo_valid_x) = length epo_valid_y))
  then Raise AssertionError
  else if negb (bool_decide (length (t_items epo_test_x) = length epo_test_y))
  then Raise AssertionError
  else Ok (Dataset epo_train_x epo_train_y epo_valid_x epo_valid_y
                   epo_test_x epo_test_y).

(** [X[idx, ...]] on the first axis of a 3-D array. *)
Definition take_trials (X : tensor A) (idx : list Z) : result (tensor A) :=
  items ← Py.take_idx (t_items X) idx;
  Ok (Tensor (t_rows X) (t_cols X) items).

(** [valid_len = int(floor(train_len * validation_frac))] *)
Definition valid_len_of (train_len : Z) (validation_frac : spec_float) : result Z :=
  t ← float_of_int train_len;
  int_floor (b64_mul t validation_frac).

Definition from_epo_to_dataset (epo_X : tensor A) (epo_y : list Z)
    (train_len test_len : Z) (validation_frac : spec_float)
    : result (dataset (list Z)) :=
  let tot_len := Z.of_nat (length epo_y) in
  valid_len ← valid_len_of train_len validation_frac;
  let train_len := train_len - valid_len in
  let indexes := Py.arange 0 tot_len in
  let train_indexes := Py.slice 0 train_len indexes in
  let valid_indexes := Py.slice train_len (train_len + valid_len) indexes in
  let test_indexes := Py.slice_from (- test_len) indexes in
  epo_train_x ← take_trials epo_X train_indexes;
  epo_train_y ← Py.take_idx epo_y train_indexes;
  epo_valid_x ← take_trials epo_X valid_indexes;
  epo_valid_y ← Py.take_idx epo_y valid_indexes;
  epo_test_x ← take_trials epo_X test_indexes;
  epo_test_y ← Py.take_idx epo_y test_indexes;
  init epo_train_x epo_train_y epo_valid_x epo_valid_y epo_test_x epo_test_y.

(** [make_crops]: nothing happens when [crop_sample_size] is [None]; a
    [crop_step] left at [None] cannot divide. *)
Definition make_crops (ds : dataset (list Z)) (crop_sample_size crop_step : option Z)
    : result (dataset (list Z)) :=
  match crop_sample_size with
  | None => Ok ds
  | Some W =>
      match crop_step with
      | None => Raise TypeError
      | Some step =>
          '(Xtr, ytr) ← crop_X_y zero (X_train ds) (y_train ds) W step;
          '(Xva, yva) ← crop_X_y zero (X_valid ds) (y_valid ds) W step;
          '(Xte, yte) ← crop_X_y zero (X_test ds) (y_test ds) W step;
          Ok (Dataset Xtr ytr Xva yva Xte yte)
      end
  end.

(** [add_axis] *)
Definition add_axis (ds : dataset (list Z))
    : list (list (list (list A))) * list (list (list (list A)))
      * list (list (list (list A))) :=
  (add_newaxis (t_items (X_train ds)), add_newaxis (t_items (X_valid ds)),
   add_newaxis (t_items (X_test ds))).

(** [to_categorical]: the class count defaults to the number of distinct
    train labels. *)
Definition to_categorical (ds : dataset (list Z)) (n_classes : option Z)
    : result (dataset (list (list Z))) :=
  let n_classes := match n_classes with
                   | None => Z.of_nat (length (Py.unique (y_train ds)))
                   | Some n => n
                   end in
  ytr ← Keras.to_categorical (y_train ds) n_classes;
  yva ← Keras.to_categorical (y_valid ds) n_classes;
  yte ← Keras.to_categorical (y_test ds) n_classes;
  Ok (Dataset (X_train ds) ytr (X_valid ds) yva (X_test ds) yte).

(** [__len__] *)
Definition len {T : Type} (ds : dataset (list T)) : nat :=
  (length (y_train ds) + length (y_valid ds) + length (y_test ds))%nat.

(** [shape], [n_channels] and [n_samples]: read off the train samples. *)
Definition shape {TY : Type} (ds : dataset TY) : nat * nat :=
  (t_rows (X_train ds), t_cols (X_train ds)).

Definition n_channels {TY : Type} (ds : dataset TY) : nat := (shape ds).1.

Definition n_samples {TY : Type} (ds : dataset TY) : nat := (shape ds).2.
End Dataset.

Arguments Dataset {A TY}.
Arguments X_train {A TY}. Arguments y_train {A TY}.
Arguments X_valid {A TY}. Arguments y_valid {A TY}.
Arguments X_test {A TY}. Arguments y_test {A TY}.
End EEGDataset.

(** ** EEGDataGenerator *)

Module EEGDataGenerator.
Section Generator.
Context {A : Type} (zero : A).

(** A batch as [__getitem__] returns it: 4-D samples and indicator rows. *)
Definition batch : Type := list (list (list (list A))) * list (list Z).

Record generator : Type := Generator {
  X : tensor A;
  y : list Z;
  batch_size : Z;
  n_trials : nat;
  n_channels : nat;
  n_samples : nat;
  n_classes : Z;
  crop_sample_size : Z;
  crop_step : Z;
  n_crops_for_trial : Z;
  n_crops : Z;
  shuffle : bool;
  current_batch : option Z;
  indexes : list Z;
  next_to_unpack : Z;
  crop_stack_X : option (tensor A);
  crop_stack_y : option (list Z)
}.

Definition set_order (g : generator) (idx : list Z) (next : Z) : generator :=
  Generator (X g) (y g) (batch_size g) (n_trials g) (n_channels g) (n_samples g)
    (n_classes g) (crop_sample_size g) (crop_step g) (n_crops_for_trial g)
    (n_crops g) (shuffle g) (current_batch g) idx next
    (crop_stack_X g) (crop_stack_y g).

Definition set_stack (g : generator) (next : Z) (sX : tensor A) (sy : list Z)
    : generator :=
  Generator (X g) (y g) (batch_size g) (n_trials g) (n_channels g) (n_samples g)
    (n_classes g) (crop_sample_size g) (crop_step g) (n_crops_for_trial g)
    (n_crops g) (shuffle g) (current_batch g) (indexes g) next
    (Some sX) (Some sy).

Definition set_current_batch (g : generator) (index : Z) : generator :=
  Generator (X g) (y g) (batch_size g) (n_trials g) (n_channels g) (n_samples g)
    (n_classes g) (crop_sample_size g) (crop_step g) (n_crops_for_trial g)
    (n_crops g) (shuffle g) (Some index) (indexes g) (next_to_unpack g)
    (crop_stack_X g) (crop_stack_y g).

(** [on_epoch_end].  [rnd] is the outcome of [random.shuffle] at this call:
    the rearrangement it applies to the index array. *)
Definition on_epoch_end (rnd : list Z → list Z) (g : generator) : generator :=
  let indexes := Py.arange 0 (Z.of_nat (n_trials g)) in
  set_order g (if shuffle g then rnd indexes else indexes) 0.

(** [append(a, b, axis=0)] on 3-D arrays: the trailing shapes must agree. *)
Definition append_axis0 (a b : tensor A) : result (tensor A) :=
  if bool_decide (t_rows a = t_rows b) && bool_decide (t_cols a = t_cols b)
  then Ok (Tensor (t_rows a) (t_cols a) (t_items a ++ t_items b))
  else Raise ValueError.

(** [unpack_trial]: the stack is created anew when [next_to_unpack] is 0
    and extended otherwise. *)
Definition unpack_trial (g : generator) : result generator :=
  i ← Py.index (indexes g) (next_to_unpack g);
  Xi ← trial_at (X g) i;
  cX ← EEGDataset.crop_X zero Xi (n_crops_for_trial g) (crop_sample_size g)
                         (crop_step g);
  if decide (next_to_unpack g = 0)
  then
    yi ← Py.index (y g) i;
    cy ← EEGDataset.crop_y yi (n_crops_for_trial g);
    Ok (set_stack g (next_to_unpack g + 1) cX cy)
  else
    sX' ← match crop_stack_X g with
          | Some sX => append_axis0 sX cX
          | None => Raise ValueError
          end;
    yi ← Py.index (y g) i;
    cy ← EEGDataset.crop_y yi (n_crops_for_trial g);
    match crop_stack_y g with
    | Some sy => Ok (set_stack g (next_to_unpack g + 1) sX' (sy ++ cy))
    | None => Raise TypeError
    end.

(** The [while] loop of [__data_generation].  [None] means that [fuel]
    iterations did not reach the exit. *)
Fixpoint refill (fuel : nat) (g : generator) : option (result generator) :=
  match crop_stack_y g with
  | None => Some (Raise TypeError)
  | Some sy =>
      if Z.of_nat (length sy) <? batch_size g
      then match fuel with
           | O => None
           | S fuel' =>
               match unpack_trial g with
               | Ok g' => refill fuel' g'
               | Raise e => Some (Raise e)
               end
           end
      else Some (Ok g)
  end.

(** The part of [__data_generation] after the loop. *)
Definition pop_batch (g : generator) : result (batch * generator) :=
  match crop_stack_X g, crop_stack_y g with
  | Some sX, Some sy =>
      let indexes := Py.arange 0 (batch_size g) in
      bX ← Py.take_idx (t_items sX) indexes;
      by_ ← Py.take_idx sy indexes;
      let indexes := Py.arange (batch_size g) (Z.of_nat (length sy)) in
      rX ← Py.take_idx (t_items sX) indexes;
      ry ← Py.take_idx sy indexes;
      let g' := set_stack g (next_to_unpack g)
                          (Tensor (t_rows sX) (t_cols sX) rX) ry in
      cat ← Keras.to_categorical by_ (n_classes g);
      Ok ((add_newaxis bX, cat), g')
  | _, _ => Raise TypeError
  end.

Definition data_generation_fuel (fuel : nat) (g : generator)
    : option (result (batch * generator)) :=
  match refill fuel g with
  | None => None
  | Some (Raise e) => Some (Raise e)
  | Some (Ok g') => Some (pop_batch g')
  end.

(** Every turn of the loop moves [next_to_unpack] one step towards the end
    of [indexes], where indexing raises: this many turns always suffice. *)
Definition fuel_of (g : generator) : nat :=
  S (Z.to_nat (Z.of_nat (length (indexes g)) - next_to_unpack g)).

Definition data_generation (g : generator) : option (result (batch * generator)) :=
  data_generation_fuel (fuel_of g) g.

(** [__getitem__] *)
Definition getitem (g : generator) (index : Z) : option (result (batch * generator)) :=
  data_generation (set_current_batch g index).

(** [__len__] *)
Definition len (g : generator) : result Z :=
  q ← Py.true_div (n_crops g) (batch_size g);
  Ok (Qfloor q).

(** [__init__]; [n_classes = None] counts the distinct labels of [y]. *)
Definition init (rnd : list Z → list Z) (X : tensor A) (y : list Z)
    (batch_size : Z) (n_classes : option Z) (crop_sample_size crop_step : Z)
    (shuffle : bool) : result generator :=
  let n_trials := length (t_items X) in
  let n_channels := t_rows X in
  let n_samples := t_cols X in
  let n_classes := match n_classes with
                   | None => Z.of_nat (length (Py.unique y))
                   | Some n => n
                   end in
  n_crops_for_trial ← EEGDataset.n_crops_of (Z.of_nat n_samples)
                                            crop_sample_size crop_step;
  let n_crops := n_crops_for_trial * Z.of_nat n_trials in
  let g := Generator X y batch_size n_trials n_channels n_samples n_classes
             crop_sample_size crop_step n_crops_for_trial n_crops shuffle
             None [] 0 None None in
  unpack_trial (on_epoch_end rnd g).

(** *** Vocabulary of the batching laws *)

(** Number of crops waiting in the stack. *)
Definition stack_len (g : generator) : nat :=
  match crop_stack_y g with Some sy => length sy | None => 0%nat end.

(** The crops and the labels waiting in the stack. *)
Definition stack_X_items (g : generator) : list (list (list A)) :=
  match crop_stack_X g with Some sX => t_items sX | None => [] end.

Definition stack_y_items (g : generator) : list Z :=
  match crop_stack_y g with Some sy => sy | None => [] end.

(** [g'] has the data and the settings of [g]. *)
Definition same_config (g g' : generator) : Prop :=
  X g' = X g ∧ y g' = y g ∧ batch_size g' = batch_size g
  ∧ n_trials g' = n_trials g ∧ n_classes g' = n_classes g
  ∧ crop_sample_size g' = crop_sample_size g ∧ crop_step g' = crop_step g
  ∧ n_crops_for_trial g' = n_crops_for_trial g ∧ n_crops g' = n_crops g
  ∧ shuffle g' = shuffle g.

(** The accounting that holds after the constructor and after every batch:
    the stack holds the crops of the [next_to_unpack] trials unpacked in this
    epoch, less the [k] batches already returned. *)
Definition epoch_inv (g : generator) (k : nat) : Prop :=
  is_Some (crop_stack_y g)
  ∧ Z.of_nat (stack_len g)
    = next_to_unpack g * n_crops_for_trial g - batch_size g * Z.of_nat k
  ∧ 0 ≤ n_crops_for_trial g
  ∧ 0 ≤ next_to_unpack g ≤ Z.of_nat (n_trials g)
  ∧ length (indexes g) = n_trials g
  ∧ n_crops g = n_crops_for_trial g * Z.of_nat (n_trials g).

(** A generator over sound data: a well-shaped array with one label per
    trial, a valid geometry, its crop count, and labels below the class
    count. *)
Definition config_wf (g : generator) : Prop :=
  tensor_wf (X g)
  ∧ length (t_items (X g)) = n_trials g
  ∧ length (y g) = n_trials g
  ∧ 0 < crop_sample_size g ≤ Z.of_nat (t_cols (X g))
  ∧ 0 < crop_step g
  ∧ EEGDataset.n_crops_of (Z.of_nat (t_cols (X g))) (crop_sample_size g) (crop_step g)
    = Ok (n_crops_for_trial g)
  ∧ 0 < n_classes g
  ∧ Forall (λ c, 0 ≤ c < n_classes g) (y g).

(** The stack of such a generator: crops of the shape [crop_X] gives them,
    with labels of the data. *)
Definition stack_wf (g : generator) : Prop :=
  match crop_stack_X g with
  | Some sX => t_rows sX = t_rows (X g) ∧ t_cols sX = Z.to_nat (crop_sample_size g)
  | None => False
  end
  ∧ Forall (λ c, 0 ≤ c < n_classes g) (stack_y_items g).

(** [m] calls of [unpack_trial] in a row. *)
Fixpoint unpack_trials (m : nat) (g : generator) : result generator :=
  match m with
  | O => Ok g
  | S m' => g' ← unpack_trial g; unpack_trials m' g'
  end.

(** [random.shuffle] rearranges, it neither drops nor invents an index. *)
Definition shuffle_ok (rnd : list Z → list Z) : Prop := ∀ l, rnd l ≡ₚ l.

(** The crops of the trial numbered [i], as [unpack_trial] computes them. *)
Definition trial_crops (g : generator) (i : Z) : list (list (list A)) :=
  match trial_at (X g) i ≫= (λ Xi, EEGDataset.crop_X zero Xi (n_crops_for_trial g)
                                     (crop_sample_size g) (crop_step g)) with
  | Ok cX => t_items cX
  | Raise _ => []
  end.

(** The crops produced so far in the epoch: those of the trials at the first
    [next_to_unpack] places of [indexes], in that order. *)
Definition epoch_crops (g : generator) : list (list (list A)) :=
  concat (trial_crops g <$> take (Z.to_nat (next_to_unpack g)) (indexes g)).

(** [emitted] are the crops of the [k] batches returned in the epoch. *)
Definition content_inv (g : generator) (k : nat) (emitted : list (list (list A)))
    : Prop :=
  length (stack_X_items g) = length (stack_y_items g)
  ∧ length emitted = (k * Z.to_nat (batch_size g))%nat
  ∧ emitted ++ stack_X_items g = epoch_crops g
  ∧ indexes g ≡ₚ Py.arange 0 (Z.of_nat (n_trials g)).

(** [observed g k emitted]: [g] is the generator as a trainer sees it right
    after the constructor or after a [__getitem__] that returned, [k] batches
    having been returned since the last [on_epoch_end] (since the
    constructor, in the first epoch), and [emitted] being their crops in the
    order of return.  The trainer follows the [Sequence] protocol: it calls
    [on_epoch_end] once the [__len__] batches of the epoch are out. *)
Inductive observed : generator → nat → list (list (list A)) → Prop :=
  | observed_init rnd X y batch_size n_classes crop_sample_size crop_step shuffle g :
      shuffle_ok rnd →
      init rnd X y batch_size n_classes crop_sample_size crop_step shuffle = Ok g →
      observed g 0 []
  | observed_getitem g k emitted index b g' :
      observed g k emitted →
      getitem g index = Some (Ok (b, g')) →
      observed g' (S k) (emitted ++ concat b.1)
  | observed_epoch g k emitted rnd index b g' :
      observed g k emitted →
      len g = Ok (Z.of_nat k) →
      shuffle_ok rnd →
      getitem (on_epoch_end rnd g) index = Some (Ok (b, g')) →
      observed g' 1 (concat b.1).
End Generator.

Arguments generator A : clear implicits.
End EEGDataGenerator.

(** ** FilterBank

    The frequency bands of the filter bank.  The bank is a 2-D float array of
    shape (bank_length, 2); its entries are kept as the exact rationals the
    floats hold: the integer edges, and the float written [0.1]. *)

Module FilterBank.

(** The float [0.1]. *)
Definition tenth : Q := (3602879701896397 # 36028797018963968)%Q.

(** The value of an attribute: an integer, the list the caller gave, or the
    two-item list [merge_banks] builds. *)
Inductive attr : Type :=
  | Num (z : Z)
  | Given (l : list Z)
  | Merged (a b : attr).

Record filter_bank : Type := Filter_bank {
  min_freq : attr;
  max_freq : attr;
  window : attr;
  overlap : attr;
  bank : list (Q * Q)
}.

(** [zeros((n, 2))] *)
Definition zeros2 (n : Z) : result (list (Q * Q)) :=
  Py.repeat (inject_Z 0, inject_Z 0) n.

(** The body of [for idx in range(bank_length)] in [compute_bank]; [k]
    iterations are left. *)
Fixpoint compute_bank_fill (window overlap : Z) (k idx : nat) (init stop : Z)
    (bank : list (Q * Q)) : list (Q * Q) :=
  match k with
  | O => bank
  | S k' =>
      let bank := alter (λ r, (inject_Z init, r.2)) idx bank in
      let bank := alter (λ r, (r.1, inject_Z stop)) idx bank in
      let init := stop - overlap in
      let stop := init + window in
      compute_bank_fill window overlap k' (S idx) init stop bank
  end.

Definition compute_bank (min_freq max_freq window overlap : Z)
    : result (list (Q * Q)) :=
  q ← Py.true_div (max_freq - min_freq) (window - overlap);
  let bank_length := Qfloor q - 1 in
  bank ← zeros2 bank_length;
  let init := min_freq in
  let stop := init + window in
  Ok (compute_bank_fill window overlap (Z.to_nat bank_length) 0 init stop bank).

(** [if self.bank[0, 0] == 0: self.bank[0, 0] = 0.1] *)
Definition fix_zero (b : filter_bank) : result filter_bank :=
  match bank b with
  | [] => Raise IndexError
  | (lo, hi) :: rows =>
      if Qeq_bool lo (inject_Z 0)
      then Ok (Filter_bank (min_freq b) (max_freq b) (window b) (overlap b)
                           ((tenth, hi) :: rows))
      else Ok b
  end.

(** [__init__] on four integers. *)
Definition init_scalar (min_freq max_freq window overlap : Z) : result filter_bank :=
  bank ← compute_bank min_freq max_freq window overlap;
  fix_zero (Filter_bank (Num min_freq) (Num max_freq) (Num window) (Num overlap) bank).

Definition merge_banks (bank1 bank2 : filter_bank) : filter_bank :=
  Filter_bank (Merged (min_freq bank1) (min_freq bank2))
              (Merged (max_freq bank1) (max_freq bank2))
              (Merged (window bank1) (window bank2))
              (Merged (overlap bank1) (overlap bank2))
              (bank bank1 ++ bank bank2).

(** [FilterBank(min_freq[idx], max_freq[idx], window[idx], overlap[idx])] *)
Definition init_at (min_freq max_freq window overlap : list Z) (idx : Z)
    : result filter_bank :=
  m ← Py.index min_freq idx;
  M ← Py.index max_freq idx;
  w ← Py.index window idx;
  o ← Py.index overlap idx;
  init_scalar m M w o.

(** [for idx in range(1, len(min_freq))], over the indices still to come. *)
Fixpoint merge_loop (min_freq max_freq window overlap : list Z) (idxs : list Z)
    (bank : filter_bank) : result filter_bank :=
  match idxs with
  | [] => Ok bank
  | idx :: idxs' =>
      b ← init_at min_freq max_freq window overlap idx;
      merge_loop min_freq max_freq window overlap idxs' (merge_banks bank b)
  end.

(** [__init__] on four lists. *)
Definition init_list (min_freq max_freq window overlap : list Z) : result filter_bank :=
  bank0 ← init_at min_freq max_freq window overlap 0;
  merged ← merge_loop min_freq max_freq window overlap
                      (Py.arange 1 (Z.of_nat (length min_freq))) bank0;
  let '(Filter_bank _ merged_max merged_window merged_overlap rows) := merged in
  fix_zero (Filter_bank (Given min_freq) merged_max merged_window merged_overlap rows).

(** *** Vocabulary of the bank laws *)

(** The attribute [merge_banks] leaves after merging the banks of a list of
    values, one after the other. *)
Definition merged_attr (first : Z) (others : list Z) : attr :=
  foldl (λ a z, Merged a (Num z)) (Num first) others.

(** Band number [j] of the bank that starts at [min_freq]: it begins [j]
    steps of [window - overlap] above [min_freq] and is [window] wide. *)
Definition band (min_freq window overlap : Z) (j : nat) : Q * Q :=
  (inject_Z (min_freq + Z.of_nat j * (window - overlap)),
   inject_Z (min_freq + Z.of_nat j * (window - overlap) + window)).

(** The banks the constructor on integers builds at each place of the four
    lists, or the first exception it raises. *)
Fixpoint scalar_banks (min_freq max_freq window overlap : list Z)
    : result (list filter_bank) :=
  match min_freq, max_freq, window, overlap with
  | [], _, _, _ => Ok []
  | m :: min_freq', M :: max_freq', w :: window', o :: overlap' =>
      b ← init_scalar m M w o;
      bs ← scalar_banks min_freq' max_freq' window' overlap';
      Ok (b :: bs)
  | _, _, _, _ => Raise IndexError
  end.

(** The first band as the constructor leaves it: a lower edge of 0 is 0.1. *)
Definition first_band (min_freq window overlap : Z) : Q * Q :=
  if decide (min_freq = 0) then (tenth, inject_Z window)
  else band min_freq window overlap 0.

End FilterBank.

(** ** numpy set and mask primitives used by the experiments *)

Module Numpy.

(** [setdiff1d(ar1, ar2)]: the distinct values of [ar1] that are not in
    [ar2], in increasing order. *)
Definition setdiff1d (ar1 ar2 : list Z) : list Z :=
  filter (λ x, x ∉ ar2) (Py.unique ar1).

(** The items of [l] at the places where [mask] is true. *)
Fixpoint select {T} (l : list T) (mask : list bool) : list T :=
  match l, mask with
  | v :: l', b :: mask' => if b then v :: select l' mask' else select l' mask'
  | _, _ => []
  end.

(** [l[mask]] for a boolean array [mask]: the lengths must agree. *)
Definition mask_select {T} (l : list T) (mask : list bool) : result (list T) :=
  if decide (length mask = length l) then Ok (select l mask)
  else Raise IndexError.

(** [row.argmax()]: the place of the first greatest item, [best] at
    [best_at] being the greatest seen before place [i]. *)
Fixpoint argmax_from (best : Z) (best_at i : nat) (row : list Z) : nat :=
  match row with
  | [] => best_at
  | v :: row' =>
      if best <? v then argmax_from v i (S i) row'
      else argmax_from best best_at (S i) row'
  end.

Definition argmax (row : list Z) : result Z :=
  match row with
  | [] => Raise ValueError
  | v :: row' => Ok (Z.of_nat (argmax_from v 0 1 row'))
  end.

(** [rows.argmax(axis=1)] *)
Fixpoint argmax_axis1 (rows : list (list Z)) : result (list Z) :=
  match rows with
  | [] => Ok []
  | row :: rows' =>
      i ← argmax row;
      rest ← argmax_axis1 rows';
      Ok (i :: rest)
  end.

(** [mask.astype(int).sum()] *)
Definition count_true (mask : list bool) : Z :=
  foldr Z.add 0 ((λ b : bool, if b then 1 else 0) <$> mask).

End Numpy.

(** ** FBCSPrLDAExperiment.create_folds ([hgdecode/experiments.py]) *)

Module FBCSPrLDAExperiment.

Record fold : Type := Fold { train : list Z; test : list Z }.

(** [[{'train': setdiff1d(arange(n_trials), fold), 'test': fold} for fold in
    folds]] *)
Definition train_test_folds (n_trials : Z) (folds : list (list Z)) : list fold :=
  (λ f, Fold (Numpy.setdiff1d (Py.arange 0 n_trials) f) f) <$> folds.

(** The fold of the [n_folds == 0] branch: the last 160 trials are the test
    set, and both sets keep their clean trials only. *)
Definition schirrmeister_fold (clean_trial_mask : list bool) : result fold :=
  let all_idxs := Py.arange 0 (Z.of_nat (length clean_trial_mask)) in
  let train0 := Py.slice 0 (-160) all_idxs in
  let test0 := Py.slice_from (-160) all_idxs in
  train ← Numpy.mask_select train0 (Py.slice 0 (-160) clean_trial_mask);
  test ← Numpy.mask_select test0 (Py.slice_from (-160) clean_trial_mask);
  Ok (Fold train test).

(** [create_folds].  The two things it takes from outside are arguments:
    [loaded] is the content of the fold file and [get_balanced_batches] the
    braindecode function, applied to the trial and batch counts.  The result
    is the new value of [n_folds] with the folds. *)
Definition create_folds (cross_subject_object : option (list (Z * Z)))
    (fold_file : option (list fold)) (n_folds : Z) (clean_trial_mask : list bool)
    (get_balanced_batches : Z → Z → list (list Z)) : result (Z * list fold) :=
  let n_trials := Numpy.count_true clean_trial_mask in
  match cross_subject_object with
  | Some subject_indexes =>
      let folds := (λ r : Z * Z, Py.arange r.1 r.2) <$> subject_indexes in
      Ok (Z.of_nat (length folds), train_test_folds n_trials folds)
  | None =>
      match fold_file with
      | Some loaded => Ok (n_folds, loaded)
      | None =>
          if decide (n_folds = 0)
          then f ← schirrmeister_fold clean_trial_mask; Ok (1, [f])
          else Ok (n_folds,
                   train_test_folds n_trials (get_balanced_batches n_trials n_folds))
      end
  end.

End FBCSPrLDAExperiment.

(** ** MetricsTracker: the constructor's signature *)

Module MetricsTracker.

(** The parameters of [__init__] after [self]; none has a default. *)
Definition parameters : list string :=
  ["dataset"; "epochs"; "n_classes"; "batch_size"; "plot_paths_dict"].

(** A call [MetricsTracker(k1=..., k2=..., ...)] by keywords, [epochs]
    being the value passed under that name.  Python binds the arguments
    first: a keyword that names no parameter, or a parameter left without a
    value, is a TypeError.  The body then allocates [zeros(epochs)] for each
    curve, which numpy refuses for a negative size. *)
Definition init (keywords : list string) (epochs : Z) : result () :=
  if forallb (λ k, bool_decide (k ∈ parameters)) keywords
     && forallb (λ p, bool_decide (p ∈ keywords)) parameters
  then _ ← Py.zeros1 epochs; Ok ()
  else Raise TypeError.

End MetricsTracker.

(** ** DLExperiment ([hgdecode/experiments.py]) *)

Module DLExperiment.

(** The crop geometry [__init__] keeps: without a crop size the whole trial
    is one crop. *)
Definition geometry (n_samples : Z) (crop_sample_size crop_step : option Z)
    : option Z * option Z :=
  match crop_sample_size with
  | None => (Some n_samples, Some 1)
  | Some W => (Some W, crop_step)
  end.

Section Training.
Context {A : Type} (zero : A).

(** What [model.fit] receives: [x], [y] and the pair [validation_data]. *)
Record fit_args : Type := Fit_args {
  fit_x : list (list (list (list A)));
  fit_y : list (list Z);
  fit_validation_data : list (list (list (list A))) * list (list Z)
}.

(** [train] when no generator is asked for, from the cropping to the call of
    [model.fit]: the outcome is the exception raised on the way or the
    arrays handed to [fit].  [metrics_tracker] is the attribute of that
    name, [None] unless a tracker was put there; with [None], [train] calls
    [MetricsTracker] with the keywords [dataset], [epochs], [n_classes],
    [batch_size], [h5_model_path] and [fold_stats_path].  The report file
    and the keras callbacks that [train] builds before are outside the
    embedding. *)
Definition train (ds : EEGDataset.dataset (list Z))
    (crop_sample_size crop_step : option Z) (epochs : Z)
    (metrics_tracker : option ()) : result fit_args :=
  ds ← EEGDataset.make_crops zero ds crop_sample_size crop_step;
  let X4 := EEGDataset.add_axis ds in
  ds ← EEGDataset.to_categorical ds None;
  _ ← match metrics_tracker with
      | None => MetricsTracker.init ["dataset"; "epochs"; "n_classes"; "batch_size";
                                     "h5_model_path"; "fold_stats_path"] epochs
      | Some tracker => Ok tracker
      end;
  Ok (Fit_args X4.1.1 (EEGDataset.y_train ds) (X4.1.2, EEGDataset.y_valid ds)).

(** The experiment built on [ds] with the arguments [crop_sample_size] and
    [crop_step], then trained without a generator. *)
Definition init_train (ds : EEGDataset.dataset (list Z))
    (crop_sample_size crop_step : option Z) (epochs : Z)
    (metrics_tracker : option ()) : result fit_args :=
  let '(size, step) := geometry (Z.of_nat (EEGDataset.n_samples ds))
                                crop_sample_size crop_step in
  train ds size step epochs metrics_tracker.
End Training.

(** *** freeze_layers *)

Record layer : Type := Layer { name : string; trainable : bool }.

(** [layer.name[:4] == 'conv' or layer.name[:5] == 'dense'] *)
Definition freezable (l : layer) : bool :=
  String.eqb (String.substring 0 4 (name l)) "conv"
  || String.eqb (String.substring 0 5 (name l)) "dense".

(** [layer.trainable = False] *)
Definition freeze (l : layer) : layer := Layer (name l) false.

(** The place in the list that the index [idx] names. *)
Definition position {T} (l : list T) (idx : Z) : nat :=
  Z.to_nat (if idx <? 0 then idx + Z.of_nat (length l) else idx).

(** The [while frozen < layers_to_freeze] loop.  The outcome is the list of
    layers as the loop leaves it, with the exception if one was raised;
    [None] means that [fuel] turns did not reach the exit. *)
Fixpoint freeze_loop (fuel : nat) (layers : list layer)
    (layers_to_freeze frozen idx step : Z) : option (list layer * result ()) :=
  if frozen <? layers_to_freeze
  then match fuel with
       | O => None
       | S fuel' =>
           match Py.index layers idx with
           | Raise e => Some (layers, Raise e)
           | Ok l =>
               if freezable l
               then freeze_loop fuel' (<[position layers idx := freeze l]> layers)
                                layers_to_freeze (frozen + 1) (idx + step) step
               else freeze_loop fuel' layers layers_to_freeze frozen (idx + step) step
           end
       end
  else Some (layers, Ok ()).

(** [freeze_layers] on the layers of the model, up to the end of the loop;
    what follows it, compiling the model and printing its summary, is keras'
    business.  Every turn of the loop moves [idx] one layer further, and
    indexing raises past the last one: one turn more than there are layers
    always suffices. *)
Definition freeze_layers (layers : list layer) (layers_to_freeze : Z)
    : option (list layer * result ()) :=
  if decide (layers_to_freeze = 0) then Some (layers, Ok ())
  else if 0 <? layers_to_freeze
       then freeze_loop (S (length layers)) layers layers_to_freeze 0 0 1
       else freeze_loop (S (length layers)) layers (- layers_to_freeze) 0 (-1) (-1).

(** *** Vocabulary of the freezing laws *)

(** The number of conv and dense layers among [layers]. *)
Definition n_freezable (layers : list layer) : nat :=
  length (filter (λ l, freezable l = true) layers).

(** [layers] with its first [n] conv and dense layers frozen. *)
Fixpoint freeze_first (n : nat) (layers : list layer) : list layer :=
  match n, layers with
  | O, _ => layers
  | _, [] => []
  | S n', l :: layers' =>
      if freezable l then freeze l :: freeze_first n' layers'
      else l :: freeze_first n layers'
  end.

(** A model of five layers, three of them conv or dense. *)
Definition sample_layers : list layer :=
  [Layer "input_1" true; Layer "conv2d_1" true; Layer "batch_norm" true;
   Layer "conv2d_2" true; Layer "dense_1" true].

End DLExperiment.

(** ** Sample data

    Small arrays on which the laws below are exercised. *)

Module Sample.
(** A trial of one channel and five samples. *)
Definition trial5 : matrix Z := Matrix 5 [[10; 11; 12; 13; 14]].

(** Two such trials, with labels 7 and 4. *)
Definition trials2 : tensor Z :=
  Tensor 1 5 [[[10; 11; 12; 13; 14]]; [[20; 21; 22; 23; 24]]].
Definition labels2 : list Z := [7; 4].

(** Ten trials of one channel and two samples; trial [i] is labelled [i]. *)
Definition labels10 : list Z := Py.arange 0 10.
Definition trials10 : tensor Z := Tensor 1 2 ((λ i, [[i; i + 100]]) <$> labels10).

(** The binary64 numbers written 0.1, 0.2 and 0.25 in Python. *)
Definition tenth : spec_float := S754_finite false 7205759403792794 (-56).
Definition fifth : spec_float := S754_finite false 7205759403792794 (-55).
Definition quarter : spec_float := S754_finite false 4503599627370496 (-54).

(** A dataset with two classes in train, and one whose validation partition
    has a class that train lacks. *)
Definition dataset01 : EEGDataset.dataset (list Z) :=
  EEGDataset.Dataset trials2 [1; 0] trials2 [0; 0] trials2 [1; 1].
Definition dataset_unseen : EEGDataset.dataset (list Z) :=
  EEGDataset.Dataset trials2 [0; 0] trials2 [0; 1] trials2 [0; 0].

(** A generator over the five-sample trial: windows of three samples every
    sample (three crops), batches of two, no shuffling; [gen0] is the state
    the constructor leaves, [batch1] and [gen1] are the first batch and the
    state after it. *)
Definition gen_blank : EEGDataGenerator.generator Z :=
  EEGDataGenerator.Generator (Tensor 1 5 [m_rows trial5]) [1] 2 1 1 5 2 3 1 3 3 false
    None [] 0 None None.

Definition gen0 : EEGDataGenerator.generator Z :=
  Eval vm_compute in
    match EEGDataGenerator.init 0 id (Tensor 1 5 [m_rows trial5]) [1] 2 (Some 2) 3 1 false with
    | Ok g => g
    | Raise _ => gen_blank
    end.

Definition batch1 : EEGDataGenerator.batch (A := Z) :=
  Eval vm_compute in
    match EEGDataGenerator.getitem 0 gen0 0 with
    | Some (Ok (b, _)) => b
    | _ => ([], [])
    end.

Definition gen1 : EEGDataGenerator.generator Z :=
  Eval vm_compute in
    match EEGDataGenerator.getitem 0 gen0 0 with
    | Some (Ok (_, g)) => g
    | _ => gen_blank
    end.

(** A dataset whose three partitions are the two trials above. *)
Definition dataset2 : EEGDataset.dataset (list Z) :=
  EEGDataset.Dataset trials2 labels2 trials2 labels2 trials2 labels2.
End Sample.

(** * Facts about the Python and numpy primitives *)

Section PyFacts.
Context {T : Type}.
Implicit Types (l : list T) (idx : list Z).

Lemma bind_Ok {U V} (m : result U) (f : U → result V) v :
  m ≫= f = Ok v ↔ ∃ u, m = Ok u ∧ f u = Ok v.
Proof.
  destruct m as [u|e]; simpl; split.
  - intros H. eauto.
  - intros (u' & [= <-] & H). done.
  - done.
  - intros (u' & [=] & _).
Qed.

Lemma slice_bound_in (len : nat) (i : Z) :
  0 ≤ i ≤ Z.of_nat len → Py.slice_bound len i = Z.to_nat i.
Proof.
  intros H. unfold Py.slice_bound.
  destruct (Z.ltb_spec i 0); [lia|]. f_equal. lia.
Qed.

Lemma slice_bound_nonneg (len : nat) (i : Z) :
  0 ≤ i → Py.slice_bound len i = (Z.to_nat i `min` len)%nat.
Proof.
  intros H. unfold Py.slice_bound. destruct (Z.ltb_spec i 0); lia.
Qed.

Lemma slice_bound_neg (len : nat) (i : Z) :
  i < 0 → Py.slice_bound len i = (len - Z.to_nat (- i))%nat.
Proof.
  intros H. unfold Py.slice_bound. destruct (Z.ltb_spec i 0); lia.
Qed.

Lemma slice_bound_le (len : nat) (i : Z) : (Py.slice_bound len i ≤ len)%nat.
Proof. unfold Py.slice_bound. lia. Qed.

Lemma index_nat l (i : nat) v : l !! i = Some v → Py.index l (Z.of_nat i) = Ok v.
Proof.
  intros H. unfold Py.index.
  destruct (Z.ltb_spec (Z.of_nat i) 0); [lia|].
  destruct (Z.ltb_spec (Z.of_nat i) 0); [lia|].
  by rewrite Nat2Z.id, H.
Qed.

Lemma index_Ok_nonneg l (i : Z) v :
  0 ≤ i → Py.index l i = Ok v → l !! Z.to_nat i = Some v.
Proof.
  intros Hi. unfold Py.index.
  destruct (Z.ltb_spec i 0); [lia|].
  destruct (Z.ltb_spec i 0); [lia|].
  destruct (l !! Z.to_nat i); [|done]. by intros [= ->].
Qed.

Lemma take_idx_length l idx r : Py.take_idx l idx = Ok r → length r = length idx.
Proof.
  revert r. induction idx as [|i idx IH]; intros r; simpl.
  - by intros [= <-].
  - intros (v & _ & (vs & Hvs & [= <-])%bind_Ok)%bind_Ok. simpl. f_equal. eauto.
Qed.

Lemma take_idx_Ok_nonneg l idx r :
  Forall (λ i, 0 ≤ i) idx → Py.take_idx l idx = Ok r →
  Forall2 (λ i v, l !! Z.to_nat i = Some v) idx r.
Proof.
  intros Hidx. revert r. induction Hidx as [|i idx Hi Hidx IH]; intros r; simpl.
  - intros [= <-]. constructor.
  - intros (v & Hv & (vs & Hvs & [= <-])%bind_Ok)%bind_Ok.
    constructor; [by apply index_Ok_nonneg | by apply IH].
Qed.

Lemma arange_length (a b : Z) : length (Py.arange a b) = Z.to_nat (b - a).
Proof. unfold Py.arange. by rewrite length_fmap, length_seq. Qed.

Lemma arange_lookup (a b : Z) (k : nat) :
  (k < Z.to_nat (b - a))%nat → Py.arange a b !! k = Some (a + Z.of_nat k).
Proof.
  intros Hk. unfold Py.arange. rewrite list_lookup_fmap, lookup_seq_lt by done. done.
Qed.

Lemma arange_nonneg (a b : Z) : 0 ≤ a → Forall (λ i, 0 ≤ i) (Py.arange a b).
Proof.
  intros Ha. unfold Py.arange. apply Forall_fmap, Forall_forall. intros k _. simpl. lia.
Qed.

(** Fancy indexing by a range either fails or copies the range. *)
Lemma take_idx_arange_inv l (a b : Z) r :
  0 ≤ a → Py.take_idx l (Py.arange a b) = Ok r →
  r = take (Z.to_nat (b - a)) (drop (Z.to_nat a) l)
  ∧ (Z.to_nat (b - a) = 0%nat ∨ b ≤ Z.of_nat (length l)).
Proof.
  intros Ha Hr.
  pose proof (take_idx_length _ _ _ Hr) as Hlen. rewrite arange_length in Hlen.
  pose proof (take_idx_Ok_nonneg _ _ _ (arange_nonneg a b Ha) Hr) as HF.
  assert (∀ k : nat, (k < Z.to_nat (b - a))%nat → r !! k = l !! (Z.to_nat a + k)%nat) as Hk.
  { intros k Hk. destruct (r !! k) as [v|] eqn:Hv.
    - destruct (Forall2_lookup_r _ _ _ _ _ HF Hv) as (i & Hi & Hl).
      rewrite arange_lookup in Hi by done. injection Hi as <-.
      rewrite <- Hl. f_equal. lia.
    - apply lookup_ge_None in Hv. lia. }
  split.
  - apply list_eq. intros k. destruct (decide (k < Z.to_nat (b - a))%nat) as [Hlt|Hge].
    + rewrite lookup_take_lt, lookup_drop by done. by apply Hk.
    + rewrite lookup_take_ge by lia. apply lookup_ge_None. lia.
  - destruct (decide (Z.to_nat (b - a) = 0%nat)) as [|Hne]; [by left|right].
    specialize (Hk (Z.to_nat (b - a) - 1)%nat ltac:(lia)).
    assert (is_Some (r !! (Z.to_nat (b - a) - 1)%nat)) as [v Hv]
      by (apply lookup_lt_is_Some; lia).
    rewrite Hv in Hk. symmetry in Hk. apply lookup_lt_Some in Hk. lia.
Qed.

Lemma take_idx_arange l (a b : Z) :
  0 ≤ a → b ≤ Z.of_nat (length l) →
  Py.take_idx l (Py.arange a b) = Ok (take (Z.to_nat (b - a)) (drop (Z.to_nat a) l)).
Proof.
  intros Ha Hb. unfold Py.arange.
  assert (∀ (n s : nat), (s + n ≤ length l)%nat →
    Py.take_idx l (Z.of_nat <$> seq s n) = Ok (take n (drop s l))) as Haux.
  { induction n as [|n IH]; intros s Hs; simpl; [done|].
    destruct (lookup_lt_is_Some_2 l s ltac:(lia)) as [v Hv].
    rewrite (index_nat _ _ _ Hv). simpl. rewrite IH by lia. simpl.
    rewrite (drop_S _ _ _ Hv). simpl. done. }
  destruct (decide (b ≤ a)) as [Hba|Hba].
  { replace (Z.to_nat (b - a)) with 0%nat by lia. done. }
  specialize (Haux (Z.to_nat (b - a)) (Z.to_nat a) ltac:(lia)).
  rewrite <- Haux. f_equal.
  replace (Z.to_nat a) with (Z.to_nat a + 0)%nat at 1 by lia.
  rewrite <- fmap_add_seq, <- list_fmap_compose.
  apply list_fmap_ext. intros _ k _. simpl. lia.
Qed.
End PyFacts.

Section SliceFacts.
Context {T : Type}.
Implicit Types (l arr vals : list T).

(** A slice that lies inside the sequence. *)
Lemma slice_inside l (a : Z) (n : nat) :
  0 ≤ a → a + Z.of_nat n ≤ Z.of_nat (length l) →
  Py.slice a (a + Z.of_nat n) l = take n (drop (Z.to_nat a) l).
Proof.
  intros Ha Hn. unfold Py.slice.
  rewrite !slice_bound_in by lia. f_equal. lia.
Qed.

Lemma set_slice_inside arr vals (a : Z) :
  0 ≤ a → a + Z.of_nat (length vals) ≤ Z.of_nat (length arr) →
  Py.set_slice a (a + Z.of_nat (length vals)) vals arr
  = Ok (take (Z.to_nat a) arr ++ vals ++ drop (Z.to_nat a + length vals) arr).
Proof.
  intros Ha Hn. unfold Py.set_slice.
  rewrite !slice_bound_in by lia.
  replace (Z.to_nat (a + Z.of_nat (length vals)) - Z.to_nat a)%nat
    with (length vals) by lia.
  by rewrite decide_True.
Qed.

Lemma repeat_Ok (v : T) (n : Z) r :
  Py.repeat v n = Ok r ↔ 0 ≤ n ∧ r = replicate (Z.to_nat n) v.
Proof.
  unfold Py.repeat. destruct (Z.ltb_spec n 0); split.
  - done.
  - intros [? _]. lia.
  - intros [= <-]. done.
  - intros [_ ->]. done.
Qed.
End SliceFacts.

(** * Facts about the crop count *)

Lemma Qceiling_div (a b : Z) : Qceiling (inject_Z a / inject_Z b)%Q = - ((- a) `div` b).
Proof.
  unfold Qceiling. f_equal.
  rewrite Zdiv_Qdiv. apply Qfloor_comp.
  rewrite inject_Z_opp. unfold Qdiv. ring.
Qed.

Lemma ceil_div_spec (a b n : Z) :
  0 < b → - ((- a) `div` b) = n ↔ (n - 1) * b < a ≤ n * b.
Proof.
  intros Hb. split.
  - intros <-. pose proof (Z.div_mod (- a) b ltac:(lia)).
    pose proof (Z.mod_pos_bound (- a) b Hb). nia.
  - intros H. symmetry. apply Z.opp_inj. rewrite Z.opp_involutive.
    apply (Z.div_unique_pos (- a) b (- n) (n * b - a)); lia.
Qed.

Lemma n_crops_of_Ok (w W step : Z) :
  step ≠ 0 → EEGDataset.n_crops_of w W step = Ok (- ((- (w - W + 1)) `div` step)).
Proof.
  intros Hs. unfold EEGDataset.n_crops_of, Py.true_div.
  rewrite decide_False by done. simpl. by rewrite Qceiling_div.
Qed.

Lemma n_crops_of_pos_step (w W step n : Z) :
  0 < step →
  EEGDataset.n_crops_of w W step = Ok n ↔ (n - 1) * step < w - W + 1 ≤ n * step.
Proof.
  intros Hs. rewrite n_crops_of_Ok by lia. rewrite <- ceil_div_spec by done.
  split; [by intros [= <-] | by intros ->].
Qed.

(** * Facts about [crop_X] *)

Section CropFacts.
Context {A : Type} (zero : A).
Implicit Types (X : matrix A).

Lemma broadcast_window X (W : nat) (init : Z) :
  matrix_wf X → 0 ≤ init → init + Z.of_nat W ≤ Z.of_nat (m_cols X) →
  broadcast_cols W (slice_cols init (init + Z.of_nat W) X)
  = Ok (EEGDataset.window X W (Z.to_nat init)).
Proof.
  intros Hwf Hi Hw. unfold broadcast_cols, slice_cols. simpl.
  rewrite !slice_bound_in by lia.
  rewrite decide_True by lia. f_equal.
  unfold EEGDataset.window. apply Forall_fmap_ext.
  eapply Forall_impl; [exact Hwf|]. intros r Hr. simpl in Hr.
  apply slice_inside; lia.
Qed.

Lemma window_wf X (W offset : nat) :
  matrix_wf X → (offset + W ≤ m_cols X)%nat →
  length (EEGDataset.window X W offset) = length (m_rows X)
  ∧ Forall (λ r, length r = W) (EEGDataset.window X W offset).
Proof.
  intros Hwf Hw. unfold EEGDataset.window. split; [by rewrite length_fmap|].
  apply Forall_fmap. eapply Forall_impl; [exact Hwf|]. intros r Hr. simpl in *.
  rewrite length_take, length_drop. lia.
Qed.

Lemma crop_X_fill_inside X (W : nat) (step : Z) (k : nat) :
  ∀ (i : nat) (init : Z) (new_X : list (list (list A))),
    matrix_wf X → 0 ≤ init → 0 ≤ step →
    (k = 0%nat ∨ init + (Z.of_nat k - 1) * step + Z.of_nat W ≤ Z.of_nat (m_cols X)) →
    (i + k ≤ length new_X)%nat →
    EEGDataset.crop_X_fill X W step k i init (init + Z.of_nat W) new_X
    = Ok (take i new_X
          ++ ((λ j : nat, EEGDataset.window X W (Z.to_nat (init + Z.of_nat j * step)))
                <$> seq 0 k)
          ++ drop (i + k) new_X).
Proof.
  induction k as [|k IH]; intros i init new_X Hwf Hinit Hstep Hin Hlen.
  - simpl. by rewrite Nat.add_0_r, take_drop.
  - destruct Hin as [|Hin]; [done|].
    cbn [EEGDataset.crop_X_fill].
    rewrite broadcast_window by (done || nia). cbn [mbind result_bind].
    replace (init + Z.of_nat W + step) with (init + step + Z.of_nat W) by lia.
    rewrite IH; [|done|lia|done| |rewrite length_insert; lia].
    2:{ destruct k; [by left|right]. nia. }
    f_equal.
    rewrite take_S_r with (x := EEGDataset.window X W (Z.to_nat init))
      by (apply list_lookup_insert_eq; lia).
    rewrite take_insert_ge by lia.
    rewrite drop_insert_lt by lia.
    rewrite <- app_assoc. f_equal. cbn [seq fmap list_fmap app].
    replace (init + Z.of_nat 0 * step) with init by lia.
    f_equal. replace (S i + k)%nat with (i + S k)%nat by lia. f_equal.
    rewrite <- fmap_S_seq, <- list_fmap_compose.
    apply list_fmap_ext. intros _ j _. simpl. do 2 f_equal. lia.
Qed.

(** With a count, width and step for which every window lies inside the
    trial, [crop_X] returns the reference windows. *)
Lemma crop_X_inside X (n W step : Z) :
  matrix_wf X → 0 ≤ n → 0 ≤ W → 0 ≤ step →
  (n = 0 ∨ (n - 1) * step + W ≤ Z.of_nat (m_cols X)) →
  EEGDataset.crop_X zero X n W step
  = Ok (Tensor (length (m_rows X)) (Z.to_nat W)
               (EEGDataset.windows X (Z.to_nat n) (Z.to_nat W) step)).
Proof.
  intros Hwf Hn HW Hstep Hin. unfold EEGDataset.crop_X, zeros.
  destruct (Z.ltb_spec n 0); [lia|]. destruct (Z.ltb_spec W 0); [lia|].
  cbn [orb mbind result_bind t_cols t_rows t_items].
  pose proof (crop_X_fill_inside X (Z.to_nat W) step (Z.to_nat n) 0 0
    (replicate (Z.to_nat n) (replicate (length (m_rows X)) (replicate (Z.to_nat W) zero)))
    Hwf ltac:(lia) Hstep) as Hfill.
  replace (0 + Z.of_nat (Z.to_nat W)) with W in Hfill by lia.
  rewrite Hfill; [| destruct Hin; [left|right]; lia | rewrite length_replicate; lia].
  simpl. do 2 f_equal.
  rewrite drop_ge by (rewrite length_replicate; lia). rewrite app_nil_r.
  done.
Qed.

Lemma crop_X_Ok_length X (n W step : Z) cX :
  EEGDataset.crop_X zero X n W step = Ok cX →
  0 ≤ n ∧ length (t_items cX) = Z.to_nat n
  ∧ t_rows cX = length (m_rows X) ∧ t_cols cX = Z.to_nat W.
Proof.
  unfold EEGDataset.crop_X, zeros.
  destruct (Z.ltb_spec n 0); [done|]. destruct (Z.ltb_spec W 0); [done|].
  cbn [orb mbind result_bind t_cols t_rows t_items].
  intros (items & Hitems & [= <-])%bind_Ok. simpl.
  split; [done|]. split; [|done].
  assert (∀ k i init stop new_X r,
    EEGDataset.crop_X_fill X (Z.to_nat W) step k i init stop new_X = Ok r →
    length r = length new_X) as Hlen.
  { induction k as [|k IH]; intros i init stop new_X r; simpl.
    - by intros [= <-].
    - intros (win & _ & Hr)%bind_Ok. apply IH in Hr. by rewrite length_insert in Hr. }
  apply Hlen in Hitems. by rewrite length_replicate in Hitems.
Qed.
End CropFacts.

(** * Facts about [crop_X_y] *)

Section ListBlocks.
Context {T : Type}.

Lemma splice_take (pre mid post : list T) (a n : nat) :
  length pre = a → length mid = n → take (a + n) (pre ++ mid ++ post) = pre ++ mid.
Proof.
  intros Ha Hn. rewrite app_assoc.
  rewrite take_app_le by (rewrite length_app; lia).
  apply take_ge. rewrite length_app. lia.
Qed.

Lemma splice_drop (pre mid post : list T) (a n m : nat) :
  length pre = a → length mid = n →
  drop (a + n + m) (pre ++ mid ++ post) = drop m post.
Proof.
  intros Ha Hn. rewrite app_assoc.
  rewrite drop_app_ge by (rewrite length_app; lia).
  f_equal. rewrite length_app. lia.
Qed.

(** Item [j] of block [t] in a concatenation of blocks of [n] items. *)
Lemma lookup_concat_blocks (ls : list (list T)) (n t j : nat) :
  Forall (λ b, length b = n) ls → (j < n)%nat →
  concat ls !! (t * n + j)%nat = ls !! t ≫= (λ b, b !! j).
Proof.
  intros Hls Hj. revert t. induction Hls as [|b ls Hb Hls IH]; intros t.
  - simpl. by rewrite !lookup_nil.
  - destruct t as [|t]; simpl.
    + rewrite lookup_app_l by lia. done.
    + rewrite lookup_app_r by lia.
      replace (n + t * n + j - length b)%nat with (t * n + j)%nat by lia.
      apply IH.
Qed.

Lemma length_concat_blocks (ls : list (list T)) (n : nat) :
  Forall (λ b, length b = n) ls → length (concat ls) = (length ls * n)%nat.
Proof.
  induction 1 as [|b ls Hb Hls IH]; simpl; [done|].
  rewrite length_app. lia.
Qed.
End ListBlocks.

Section BulkFacts.
Context {A : Type} (zero : A).
Implicit Types (X : tensor A) (y : list Z).

Lemma windows_length (M : matrix A) (n W : nat) (step : Z) :
  length (EEGDataset.windows M n W step) = n.
Proof. unfold EEGDataset.windows. by rewrite length_fmap, length_seq. Qed.

Lemma crop_X_y_fill_inside X y (n : nat) (W step : Z) (k : nat) :
  ∀ (i : nat) (new_X : list (list (list A))) (new_y : list Z),
    tensor_wf X → 0 ≤ W → 0 ≤ step →
    (n = 0%nat ∨ (Z.of_nat n - 1) * step + W ≤ Z.of_nat (t_cols X)) →
    length y = length (t_items X) →
    (i + k ≤ length (t_items X))%nat →
    length new_X = (length (t_items X) * n)%nat →
    length new_y = (length (t_items X) * n)%nat →
    EEGDataset.crop_X_y_fill zero X y (Z.of_nat n) W step k i
      (Z.of_nat (i * n)) (Z.of_nat (i * n) + Z.of_nat n) new_X new_y
    = Ok (take (i * n) new_X
            ++ concat (take k (drop i (EEGDataset.bulk_windows X n (Z.to_nat W) step)))
            ++ drop ((i + k) * n) new_X,
          take (i * n) new_y
            ++ concat (take k (drop i (EEGDataset.bulk_labels y n)))
            ++ drop ((i + k) * n) new_y).
Proof.
  induction k as [|k IH]; intros i new_X new_y Hwf HW Hstep Hin Hy Hik HlX Hly.
  - simpl. by rewrite Nat.add_0_r, !take_drop.
  - cbn [EEGDataset.crop_X_y_fill].
    destruct (lookup_lt_is_Some_2 (t_items X) i ltac:(lia)) as [t Ht].
    destruct (lookup_lt_is_Some_2 y i ltac:(lia)) as [c Hc].
    unfold trial_at. rewrite (index_nat _ _ _ Ht). cbn [mbind result_bind].
    assert (matrix_wf (Matrix (t_cols X) t)) as Hm.
    { unfold tensor_wf in Hwf. rewrite Forall_lookup in Hwf.
      destruct (Hwf _ _ Ht) as [_ Hrows]. exact Hrows. }
    rewrite (crop_X_inside zero) by (done || lia || (destruct Hin; [left|right]; simpl; lia)).
    cbn [mbind result_bind t_items]. rewrite Nat2Z.id.
    set (wins := EEGDataset.windows (Matrix (t_cols X) t) n (Z.to_nat W) step).
    assert (length wins = n) as Hwins by apply windows_length.
    assert (i * n + n ≤ length (t_items X) * n)%nat as Hbound by nia.
    pose proof (set_slice_inside new_X wins (Z.of_nat (i * n)) ltac:(lia) ltac:(lia))
      as HsX.
    rewrite Hwins, Nat2Z.id in HsX. rewrite HsX. clear HsX. cbn [mbind result_bind].
    rewrite (index_nat _ _ _ Hc). cbn [mbind result_bind].
    unfold EEGDataset.crop_y, Py.repeat.
    destruct (Z.ltb_spec (Z.of_nat n) 0); [lia|]. cbn [mbind result_bind].
    rewrite Nat2Z.id.
    assert (length (replicate n c) = n) as Hrep by apply length_replicate.
    pose proof (set_slice_inside new_y (replicate n c) (Z.of_nat (i * n))
                  ltac:(lia) ltac:(lia)) as Hsy.
    rewrite Hrep, Nat2Z.id in Hsy. rewrite Hsy. clear Hsy.
    cbn [mbind result_bind].
    replace (Z.of_nat (i * n) + Z.of_nat n) with (Z.of_nat (S i * n)) by lia.
    rewrite IH; [|done|done|done|done|done|lia| |].
    2:{ rewrite !length_app, length_take, length_drop. lia. }
    2:{ rewrite !length_app, length_take, length_drop. lia. }
    assert (EEGDataset.bulk_windows X n (Z.to_nat W) step !! i = Some wins) as HbX.
    { unfold EEGDataset.bulk_windows. by rewrite list_lookup_fmap, Ht. }
    assert (EEGDataset.bulk_labels y n !! i = Some (replicate n c)) as Hby.
    { unfold EEGDataset.bulk_labels. by rewrite list_lookup_fmap, Hc. }
    rewrite (drop_S _ _ _ HbX), (drop_S _ _ _ Hby). cbn [take concat].
    replace (S i * n)%nat with (i * n + n)%nat by lia.
    rewrite !splice_take by (done || (rewrite length_take; lia)).
    replace ((S i + k) * n)%nat with (i * n + n + k * n)%nat by lia.
    rewrite !splice_drop by (done || (rewrite length_take; lia)).
    rewrite !drop_drop, <- !app_assoc.
    replace (i * n + n + k * n)%nat with ((i + S k) * n)%nat by lia.
    done.
Qed.

(** Bulk cropping with every window inside the trials. *)
Lemma crop_X_y_inside X y (n : nat) (W step : Z) :
  tensor_wf X → 0 ≤ W → 0 < step →
  EEGDataset.n_crops_of (Z.of_nat (t_cols X)) W step = Ok (Z.of_nat n) →
  length y = length (t_items X) →
  EEGDataset.crop_X_y zero X y W step
  = Ok (Tensor (t_rows X) (Z.to_nat W) (concat (EEGDataset.bulk_windows X n (Z.to_nat W) step)),
        concat (EEGDataset.bulk_labels y n)).
Proof.
  intros Hwf HW Hstep Hn Hy. unfold EEGDataset.crop_X_y.
  rewrite Hn. cbn [mbind result_bind]. unfold zeros, Py.zeros1, Py.repeat.
  destruct (Z.ltb_spec (Z.of_nat n * Z.of_nat (length (t_items X))) 0); [lia|].
  destruct (Z.ltb_spec W 0); [lia|].
  cbn [orb mbind result_bind t_items t_rows t_cols].
  apply n_crops_of_pos_step in Hn; [|done].
  pose proof (crop_X_y_fill_inside X y n W step (length (t_items X)) 0) as Hfill.
  simpl in Hfill. rewrite Z.add_0_l.
  rewrite Hfill; [|done|lia|lia| |done|lia| |].
  - cbn [mbind result_bind]. rewrite !drop_0.
    rewrite !take_ge
      by (unfold EEGDataset.bulk_labels, EEGDataset.bulk_windows;
          rewrite length_fmap; lia).
    rewrite !drop_ge by (rewrite length_replicate; lia).
    by rewrite !app_nil_r.
  - destruct n; [by left|right]. lia.
  - rewrite length_replicate. lia.
  - rewrite length_replicate. lia.
Qed.
End BulkFacts.

(** * Cropping laws *)

(** C1. Cropping correctness.  For a trial of [L] samples per channel and a
    geometry with [0 < W <= L] and [0 < S], the crop count is the ceiling of
    [(L - W + 1) / S] (the integer [n] with [(n-1)*S < L-W+1 <= n*S]), and
    [crop_X] returns exactly [n] windows of shape (channels, W); window [i]
    holds, for every channel, the [W] samples from offset [i*S] up to
    [i*S + W] excluded, which all lie inside the trial. *)
Theorem crop_X_windows {A : Type} (zero : A) (X : matrix A) (W S : Z) :
  matrix_wf X → 0 < W ≤ Z.of_nat (m_cols X) → 0 < S →
  ∃ (n : Z) (cX : tensor A),
    EEGDataset.n_crops_of (Z.of_nat (m_cols X)) W S = Ok n
    ∧ (n - 1) * S < Z.of_nat (m_cols X) - W + 1 ≤ n * S
    ∧ EEGDataset.crop_X zero X n W S = Ok cX
    ∧ length (t_items cX) = Z.to_nat n
    ∧ t_rows cX = length (m_rows X) ∧ t_cols cX = Z.to_nat W ∧ tensor_wf cX
    ∧ ∀ i : nat, (i < Z.to_nat n)%nat →
        Z.of_nat i * S + W ≤ Z.of_nat (m_cols X)
        ∧ t_items cX !! i
          = Some ((λ r, take (Z.to_nat W) (drop (Z.to_nat (Z.of_nat i * S)) r))
                    <$> m_rows X).
Proof.
  intros Hwf HW HS.
  set (n := - ((- (Z.of_nat (m_cols X) - W + 1)) `div` S)).
  assert (EEGDataset.n_crops_of (Z.of_nat (m_cols X)) W S = Ok n) as Hn
    by (apply n_crops_of_Ok; lia).
  pose proof Hn as Hceil. apply n_crops_of_pos_step in Hceil; [|done].
  assert (1 ≤ n) as Hn1 by nia.
  assert (∀ i : nat, (i < Z.to_nat n)%nat →
            Z.of_nat i * S + W ≤ Z.of_nat (m_cols X)) as Hinside by (intros i Hi; nia).
  eexists n, _. split; [exact Hn|]. split; [exact Hceil|].
  split; [apply crop_X_inside; (done || lia || (right; nia))|].
  cbn [t_items t_rows t_cols].
  split; [apply windows_length|]. split; [done|]. split; [done|]. split.
  - unfold tensor_wf. cbn [t_items t_rows t_cols]. unfold EEGDataset.windows.
    apply Forall_fmap, Forall_forall. intros i Hi%elem_of_seq. simpl.
    apply window_wf; [done|]. specialize (Hinside i ltac:(lia)). lia.
  - intros i Hi. split; [by apply Hinside|].
    unfold EEGDataset.windows. rewrite list_lookup_fmap, lookup_seq_lt by done.
    done.
Qed.

Lemma crop_X_windows_witness :
  ∃ (n : Z) (cX : tensor Z),
    EEGDataset.n_crops_of 5 3 2 = Ok n
    ∧ (n - 1) * 2 < 5 - 3 + 1 ≤ n * 2
    ∧ EEGDataset.crop_X 0 Sample.trial5 n 3 2 = Ok cX
    ∧ length (t_items cX) = Z.to_nat n
    ∧ t_rows cX = 1%nat ∧ t_cols cX = 3%nat ∧ tensor_wf cX
    ∧ ∀ i : nat, (i < Z.to_nat n)%nat →
        Z.of_nat i * 2 + 3 ≤ 5
        ∧ t_items cX !! i
          = Some ((λ r, take 3 (drop (Z.to_nat (Z.of_nat i * 2)) r))
                    <$> m_rows Sample.trial5).
Proof.
  apply (crop_X_windows 0 Sample.trial5 3 2).
  - repeat constructor.
  - simpl. lia.
  - lia.
Defined.

(** C4. Label replication.  In the output of [crop_X_y], crop [j] of trial
    [t] sits at position [t*n + j], carries the label of trial [t], and is
    window [j] of that trial: trial order is kept and no label moves. *)
Theorem crop_X_y_label_replication {A : Type} (zero : A) (X : tensor A)
    (y : list Z) (W S : Z) :
  tensor_wf X → length y = length (t_items X) →
  0 < W ≤ Z.of_nat (t_cols X) → 0 < S →
  ∃ (n : nat) (new_X : tensor A) (new_y : list Z),
    EEGDataset.n_crops_of (Z.of_nat (t_cols X)) W S = Ok (Z.of_nat n)
    ∧ EEGDataset.crop_X_y zero X y W S = Ok (new_X, new_y)
    ∧ length new_y = (length y * n)%nat
    ∧ length (t_items new_X) = (length y * n)%nat
    ∧ ∀ t j : nat, (t < length y)%nat → (j < n)%nat →
        new_y !! (t * n + j)%nat = y !! t
        ∧ t_items new_X !! (t * n + j)%nat
          = (λ trial, (λ r, take (Z.to_nat W) (drop (Z.to_nat (Z.of_nat j * S)) r))
                        <$> trial) <$> t_items X !! t.
Proof.
  intros Hwf Hy HW HS.
  set (nz := - ((- (Z.of_nat (t_cols X) - W + 1)) `div` S)).
  assert (EEGDataset.n_crops_of (Z.of_nat (t_cols X)) W S = Ok nz) as Hn
    by (apply n_crops_of_Ok; lia).
  pose proof Hn as Hceil. apply n_crops_of_pos_step in Hceil; [|done].
  assert (1 ≤ nz) as Hn1 by nia.
  exists (Z.to_nat nz). eexists _, _.
  rewrite Z2Nat.id by lia. split; [exact Hn|].
  split.
  { apply (crop_X_y_inside zero X y (Z.to_nat nz)); [done|lia|done| |done].
    rewrite Z2Nat.id by lia. exact Hn. }
  cbn [t_items].
  assert (Forall (λ b, length b = Z.to_nat nz) (EEGDataset.bulk_labels y (Z.to_nat nz)))
    as Hbl.
  { unfold EEGDataset.bulk_labels. apply Forall_fmap, Forall_forall.
    intros c _. simpl. apply length_replicate. }
  assert (Forall (λ b, length b = Z.to_nat nz)
            (EEGDataset.bulk_windows X (Z.to_nat nz) (Z.to_nat W) S)) as Hbw.
  { unfold EEGDataset.bulk_windows. apply Forall_fmap, Forall_forall.
    intros c _. simpl. apply windows_length. }
  split.
  { rewrite (length_concat_blocks _ _ Hbl). unfold EEGDataset.bulk_labels.
    by rewrite length_fmap. }
  split.
  { rewrite (length_concat_blocks _ _ Hbw). unfold EEGDataset.bulk_windows.
    by rewrite length_fmap, Hy. }
  intros t j Ht Hj. split.
  - rewrite (lookup_concat_blocks _ _ _ _ Hbl Hj).
    unfold EEGDataset.bulk_labels. rewrite list_lookup_fmap.
    destruct (y !! t) as [c|]; simpl; [|done].
    by apply lookup_replicate_2.
  - rewrite (lookup_concat_blocks _ _ _ _ Hbw Hj).
    unfold EEGDataset.bulk_windows. rewrite list_lookup_fmap.
    destruct (t_items X !! t) as [trial|]; simpl; [|done].
    unfold EEGDataset.windows. rewrite list_lookup_fmap, lookup_seq_lt by done.
    done.
Qed.

Lemma crop_X_y_label_replication_witness :
  ∃ (n : nat) (new_X : tensor Z) (new_y : list Z),
    EEGDataset.n_crops_of 5 3 2 = Ok (Z.of_nat n)
    ∧ EEGDataset.crop_X_y 0 Sample.trials2 Sample.labels2 3 2 = Ok (new_X, new_y)
    ∧ length new_y = (2 * n)%nat
    ∧ length (t_items new_X) = (2 * n)%nat
    ∧ ∀ t j : nat, (t < 2)%nat → (j < n)%nat →
        new_y !! (t * n + j)%nat = Sample.labels2 !! t
        ∧ t_items new_X !! (t * n + j)%nat
          = (λ trial, (λ r, take 3 (drop (Z.to_nat (Z.of_nat j * 2)) r)) <$> trial)
              <$> t_items Sample.trials2 !! t.
Proof.
  apply (crop_X_y_label_replication 0 Sample.trials2 Sample.labels2 3 2).
  - repeat constructor.
  - reflexivity.
  - simpl. lia.
  - lia.
Defined.

Example crop_X_y_trials2 :
  EEGDataset.crop_X_y 0 Sample.trials2 Sample.labels2 3 2
  = Ok (Tensor 1 3 [[[10; 11; 12]]; [[12; 13; 14]]; [[20; 21; 22]]; [[22; 23; 24]]],
        [7; 7; 4; 4]).
Proof. vm_compute. reflexivity. Qed.

(** * Geometry is not validated *)

(** C6, as stated, fails: bulk cropping returns normally with a window of
    no sample (twelve crops of width 0), with a window one sample longer than
    the trials (empty arrays) and with a negative stride (empty arrays
    again).  Where it does fail, with a window two samples too long or a
    stride of 0, the exception is numpy's or Python's own. *)
Lemma crop_X_y_accepts_invalid_geometry :
  EEGDataset.crop_X_y 0 Sample.trials2 Sample.labels2 0 1
  = Ok (Tensor 1 0 (replicate 12 [[]]), [7; 7; 7; 7; 7; 7; 4; 4; 4; 4; 4; 4])
  ∧ EEGDataset.crop_X_y 0 Sample.trials2 Sample.labels2 6 1 = Ok (Tensor 1 6 [], [])
  ∧ EEGDataset.crop_X_y 0 Sample.trials2 Sample.labels2 6 (-1) = Ok (Tensor 1 6 [], [])
  ∧ EEGDataset.crop_X_y 0 Sample.trials2 Sample.labels2 7 1 = Raise ValueError
  ∧ EEGDataset.crop_X_y 0 Sample.trials2 Sample.labels2 3 0 = Raise ZeroDivisionError.
Proof. vm_compute. done. Qed.

(** C6, amended.  Bulk cropping checks no geometry; what it does follows
    from the arithmetic.  On at least one well-shaped trial of [L] samples,
    with one label per trial: a stride of 0 raises ZeroDivisionError; for a
    positive stride [S], a negative window and a window above [L + S] make
    numpy refuse the negative size of the arrays to allocate, ValueError;
    every window with [0 <= W <= L + S] is accepted: the call returns the
    [n] windows of every trial and the [n] copies of every label, [n] being
    the ceiling of [(L - W + 1) / S], which is 0 (empty arrays) exactly when
    the window is longer than the trial. *)
Theorem crop_X_y_geometry {A : Type} (zero : A) (X : tensor A) (y : list Z)
    (W S : Z) :
  tensor_wf X → length y = length (t_items X) → (1 ≤ length (t_items X))%nat →
  (S = 0 → EEGDataset.crop_X_y zero X y W S = Raise ZeroDivisionError)
  ∧ (0 < S → W < 0 ∨ Z.of_nat (t_cols X) + S < W →
     EEGDataset.crop_X_y zero X y W S = Raise ValueError)
  ∧ (0 < S → 0 ≤ W ≤ Z.of_nat (t_cols X) + S →
     ∃ n : nat,
       (Z.of_nat n - 1) * S < Z.of_nat (t_cols X) - W + 1 ≤ Z.of_nat n * S
       ∧ (n = 0%nat ↔ Z.of_nat (t_cols X) < W)
       ∧ EEGDataset.crop_X_y zero X y W S
         = Ok (Tensor (t_rows X) (Z.to_nat W)
                      (concat (EEGDataset.bulk_windows X n (Z.to_nat W) S)),
               concat (EEGDataset.bulk_labels y n))).
Proof.
  intros Hwf Hy Hd. split; [|split].
  - intros ->. unfold EEGDataset.crop_X_y, EEGDataset.n_crops_of, Py.true_div.
    by rewrite decide_True.
  - intros HS Hbad.
    assert (∃ n, EEGDataset.n_crops_of (Z.of_nat (t_cols X)) W S = Ok n) as [n Hn]
      by (eexists; apply n_crops_of_Ok; lia).
    pose proof Hn as Hceil. apply n_crops_of_pos_step in Hceil; [|done].
    unfold EEGDataset.crop_X_y. rewrite Hn. cbn [mbind result_bind]. unfold zeros.
    assert ((n * Z.of_nat (length (t_items X)) <? 0) || (W <? 0) = true) as ->; [|done].
    apply orb_true_iff. destruct Hbad as [HW|Hlong].
    + right. by apply Z.ltb_lt.
    + left. apply Z.ltb_lt. nia.
  - intros HS HW.
    assert (∃ n, EEGDataset.n_crops_of (Z.of_nat (t_cols X)) W S = Ok n) as [n Hn]
      by (eexists; apply n_crops_of_Ok; lia).
    pose proof Hn as Hceil. apply n_crops_of_pos_step in Hceil; [|done].
    assert (0 ≤ n) as Hn0 by nia.
    exists (Z.to_nat n). rewrite Z2Nat.id by done.
    split; [exact Hceil|]. split; [split; intros ?; nia|].
    apply crop_X_y_inside; [done|lia|done| |done]. by rewrite Z2Nat.id.
Qed.

Lemma crop_X_y_geometry_witness :
  EEGDataset.crop_X_y 0 Sample.trials2 Sample.labels2 3 0 = Raise ZeroDivisionError
  ∧ EEGDataset.crop_X_y 0 Sample.trials2 Sample.labels2 7 1 = Raise ValueError
  ∧ EEGDataset.crop_X_y 0 Sample.trials2 Sample.labels2 (-1) 1 = Raise ValueError
  ∧ ∃ n : nat,
      (Z.of_nat n - 1) * 1 < Z.of_nat (t_cols Sample.trials2) - 6 + 1 ≤ Z.of_nat n * 1
      ∧ (n = 0%nat ↔ Z.of_nat (t_cols Sample.trials2) < 6)
      ∧ EEGDataset.crop_X_y 0 Sample.trials2 Sample.labels2 6 1
        = Ok (Tensor (t_rows Sample.trials2) (Z.to_nat 6)
                     (concat (EEGDataset.bulk_windows Sample.trials2 n (Z.to_nat 6) 1)),
              concat (EEGDataset.bulk_labels Sample.labels2 n)).
Proof.
  assert (tensor_wf Sample.trials2) as Hwf by (repeat constructor).
  assert (length Sample.labels2 = length (t_items Sample.trials2)) as Hy by reflexivity.
  assert (1 ≤ length (t_items Sample.trials2))%nat as Hd by (simpl; lia).
  split; [|split; [|split]].
  - apply (crop_X_y_geometry 0 Sample.trials2 Sample.labels2 3 0 Hwf Hy Hd). reflexivity.
  - apply (crop_X_y_geometry 0 Sample.trials2 Sample.labels2 7 1 Hwf Hy Hd); simpl; lia.
  - apply (crop_X_y_geometry 0 Sample.trials2 Sample.labels2 (-1) 1 Hwf Hy Hd); simpl; lia.
  - apply (crop_X_y_geometry 0 Sample.trials2 Sample.labels2 6 1 Hwf Hy Hd); simpl; lia.
Defined.

(** The crop count alone: any stride other than 0 yields one, and for a
    positive stride it is the ceiling of [(L - W + 1) / S], at least 1
    exactly when the window fits in the trial. *)
Lemma n_crops_of_unchecked (L W S : Z) :
  S ≠ 0 →
  ∃ n : Z,
    EEGDataset.n_crops_of L W S = Ok n
    ∧ (0 < S → (n - 1) * S < L - W + 1 ≤ n * S ∧ (1 ≤ n ↔ W ≤ L)).
Proof.
  intros HS. eexists. split; [by apply n_crops_of_Ok|].
  intros HpS.
  pose proof (n_crops_of_Ok L W S HS) as Hn.
  apply n_crops_of_pos_step in Hn; [|done].
  split; [exact Hn|]. nia.
Qed.

(** The one stride that raises is 0, with Python's own division error. *)
Lemma n_crops_of_zero_step (L W : Z) :
  EEGDataset.n_crops_of L W 0 = Raise ZeroDivisionError.
Proof. reflexivity. Qed.

(** Scenario A of the specification: 100 samples, windows of 50 every 25. *)
Example n_crops_of_scenario_A : EEGDataset.n_crops_of 100 50 25 = Ok 3.
Proof. reflexivity. Qed.

(** * Facts about the temporal split *)

Section SplitFacts.
Context {T : Type}.
Implicit Types (l : list T).

Lemma take_idx_seq l (n s : nat) :
  (s + n ≤ length l)%nat →
  Py.take_idx l (Z.of_nat <$> seq s n) = Ok (take n (drop s l)).
Proof.
  revert s. induction n as [|n IH]; intros s Hs; simpl; [done|].
  destruct (lookup_lt_is_Some_2 l s ltac:(lia)) as [v Hv].
  rewrite (index_nat _ _ _ Hv). simpl. rewrite IH by lia. simpl.
  by rewrite (drop_S _ _ _ Hv).
Qed.

Lemma arange_0_seq (tot : nat) : Py.arange 0 (Z.of_nat tot) = Z.of_nat <$> seq 0 tot.
Proof.
  unfold Py.arange. rewrite Z.sub_0_r, Nat2Z.id.
  apply list_fmap_ext. intros _ k _. simpl. lia.
Qed.

(** Indexing by a slice of [arange(len(l))] is slicing [l]. *)
Lemma take_idx_slice l (a b : Z) :
  Py.take_idx l (Py.slice a b (Py.arange 0 (Z.of_nat (length l)))) = Ok (Py.slice a b l).
Proof.
  unfold Py.slice. rewrite arange_length, Z.sub_0_r, Nat2Z.id.
  set (lo := Py.slice_bound (length l) a). set (hi := Py.slice_bound (length l) b).
  pose proof (slice_bound_le (length l) a). pose proof (slice_bound_le (length l) b).
  rewrite arange_0_seq, <- fmap_drop, <- fmap_take, drop_seq, take_seq. simpl.
  rewrite take_idx_seq by lia. f_equal.
  destruct (decide (hi - lo ≤ length l - lo)%nat).
  - by rewrite Nat.min_l.
  - rewrite Nat.min_r by lia. rewrite !take_ge; [done| |]; rewrite length_drop; lia.
Qed.

Lemma take_idx_slice_from l (a : Z) :
  Py.take_idx l (Py.slice_from a (Py.arange 0 (Z.of_nat (length l))))
  = Ok (Py.slice_from a l).
Proof.
  unfold Py.slice_from. rewrite arange_length, Z.sub_0_r, Nat2Z.id.
  set (lo := Py.slice_bound (length l) a).
  pose proof (slice_bound_le (length l) a).
  rewrite arange_0_seq, <- fmap_drop, drop_seq. simpl.
  rewrite take_idx_seq by lia. f_equal.
  apply take_ge. rewrite length_drop. lia.
Qed.

Lemma slice_length l (a b : Z) :
  length (Py.slice a b l)
  = (Py.slice_bound (length l) b - Py.slice_bound (length l) a)%nat.
Proof.
  unfold Py.slice. rewrite length_take, length_drop.
  pose proof (slice_bound_le (length l) b). lia.
Qed.

Lemma slice_from_length l (a : Z) :
  length (Py.slice_from a l) = (length l - Py.slice_bound (length l) a)%nat.
Proof. unfold Py.slice_from. by rewrite length_drop. Qed.
End SplitFacts.

Section SplitDataset.
Context {A : Type}.
Implicit Types (epo_X : tensor A) (epo_y : list Z).

(** The split as slices of the raw arrays: once the number of validation
    trials is known, nothing else can fail. *)
Lemma from_epo_to_dataset_slices epo_X epo_y (train_len test_len : Z)
    (validation_frac : spec_float) (valid_len : Z) :
  length (t_items epo_X) = length epo_y →
  EEGDataset.valid_len_of train_len validation_frac = Ok valid_len →
  EEGDataset.from_epo_to_dataset epo_X epo_y train_len test_len validation_frac
  = Ok (EEGDataset.Dataset
          (Tensor (t_rows epo_X) (t_cols epo_X)
                  (Py.slice 0 (train_len - valid_len) (t_items epo_X)))
          (Py.slice 0 (train_len - valid_len) epo_y)
          (Tensor (t_rows epo_X) (t_cols epo_X)
                  (Py.slice (train_len - valid_len) (train_len - valid_len + valid_len)
                            (t_items epo_X)))
          (Py.slice (train_len - valid_len) (train_len - valid_len + valid_len) epo_y)
          (Tensor (t_rows epo_X) (t_cols epo_X) (Py.slice_from (- test_len) (t_items epo_X)))
          (Py.slice_from (- test_len) epo_y)).
Proof.
  intros Hlen Hv. unfold EEGDataset.from_epo_to_dataset, EEGDataset.take_trials.
  rewrite Hv. cbn [mbind result_bind].
  rewrite !take_idx_slice, !take_idx_slice_from.
  rewrite <- Hlen.
  rewrite !take_idx_slice, !take_idx_slice_from.
  cbn [mbind result_bind]. unfold EEGDataset.init. cbn [t_items].
  rewrite !slice_length, !slice_from_length, Hlen.
  by rewrite !bool_decide_eq_true_2.
Qed.
End SplitDataset.

(** The sample fractions are the correctly rounded quotients, as Python reads
    the literals. *)
Example sample_fractions :
  SFdiv 53 1024 (S754_finite false 1 0) (S754_finite false 10 0) = Sample.tenth
  ∧ SFdiv 53 1024 (S754_finite false 2 0) (S754_finite false 10 0) = Sample.fifth
  ∧ SFdiv 53 1024 (S754_finite false 1 0) (S754_finite false 4 0) = Sample.quarter.
Proof. vm_compute. done. Qed.

(** Scenario B of the specification: 100 trials and a fraction of 0.1 leave
    10 trials for validation and 90 for training. *)
Example valid_len_of_scenario_B :
  EEGDataset.valid_len_of 100 Sample.tenth = Ok 10 ∧ 100 - 10 = 90.
Proof. vm_compute. done. Qed.

(** What the split does away from its boundary case: with
    [0 <= valid_len <= train_len] and [0 < test_len], the first
    [train_len - valid_len] trials are the train partition, the next
    [valid_len] the validation partition and the last [test_len] the test
    partition, all in their original order. *)
Lemma from_epo_to_dataset_split {A : Type} (epo_X : tensor A) (epo_y : list Z)
    (train_len test_len : Z) (validation_frac : spec_float) (valid_len : Z) :
  length (t_items epo_X) = length epo_y →
  EEGDataset.valid_len_of train_len validation_frac = Ok valid_len →
  0 ≤ valid_len ≤ train_len → 0 < test_len →
  ∃ ds,
    EEGDataset.from_epo_to_dataset epo_X epo_y train_len test_len validation_frac = Ok ds
    ∧ EEGDataset.y_train ds = take (Z.to_nat (train_len - valid_len)) epo_y
    ∧ EEGDataset.y_valid ds
      = take (Z.to_nat valid_len) (drop (Z.to_nat (train_len - valid_len)) epo_y)
    ∧ EEGDataset.y_test ds = drop (length epo_y - Z.to_nat test_len) epo_y
    ∧ t_items (EEGDataset.X_train ds)
      = take (Z.to_nat (train_len - valid_len)) (t_items epo_X)
    ∧ t_items (EEGDataset.X_valid ds)
      = take (Z.to_nat valid_len)
             (drop (Z.to_nat (train_len - valid_len)) (t_items epo_X))
    ∧ t_items (EEGDataset.X_test ds)
      = drop (length epo_y - Z.to_nat test_len) (t_items epo_X).
Proof.
  intros Hlen Hv Hvl Htest. eexists. split.
  { by apply from_epo_to_dataset_slices. }
  cbn [EEGDataset.y_train EEGDataset.y_valid EEGDataset.y_test EEGDataset.X_train
       EEGDataset.X_valid EEGDataset.X_test t_items].
  assert (∀ (T : Type) (l : list T), length l = length epo_y →
    Py.slice 0 (train_len - valid_len) l = take (Z.to_nat (train_len - valid_len)) l
    ∧ Py.slice (train_len - valid_len) (train_len - valid_len + valid_len) l
      = take (Z.to_nat valid_len) (drop (Z.to_nat (train_len - valid_len)) l)
    ∧ Py.slice_from (- test_len) l = drop (length epo_y - Z.to_nat test_len) l) as Hs.
  { intros T l Hl. unfold Py.slice, Py.slice_from.
    rewrite !slice_bound_nonneg, slice_bound_neg by lia. rewrite Hl.
    set (tot := length epo_y). fold tot in Hl.
    set (a := Z.to_nat (train_len - valid_len)).
    replace (Z.to_nat (train_len - valid_len + valid_len))
      with (a + Z.to_nat valid_len)%nat by lia.
    replace (Z.to_nat (- - test_len)) with (Z.to_nat test_len) by lia.
    change (Z.to_nat 0) with 0%nat. rewrite Nat.min_0_l, Nat.sub_0_r, drop_0.
    split; [|split; [|done]].
    - destruct (decide (a ≤ tot)%nat).
      + by rewrite Nat.min_l.
      + rewrite Nat.min_r by lia. rewrite !take_ge; [done|lia|lia].
    - destruct (decide (a ≤ tot)%nat).
      + rewrite (Nat.min_l a) by done.
        destruct (decide (a + Z.to_nat valid_len ≤ tot)%nat).
        * rewrite Nat.min_l by done. f_equal. lia.
        * rewrite Nat.min_r by lia. rewrite !take_ge; [done| |]; rewrite length_drop; lia.
      + rewrite !drop_ge by lia. by rewrite !take_nil. }
  destruct (Hs _ epo_y eq_refl) as (-> & -> & ->).
  destruct (Hs _ (t_items epo_X) Hlen) as (-> & -> & ->).
  done.
Qed.

(** C5, at the boundary.  A request for no test trial ([test_len = 0]) makes
    [indexes[-test_len:]] the whole index array: all ten trials land in the
    test partition, next to the six of train and the two of validation. *)
Theorem from_epo_to_dataset_test_len_zero :
  ∃ ds,
    EEGDataset.from_epo_to_dataset Sample.trials10 Sample.labels10 8 0 Sample.quarter
    = Ok ds
    ∧ EEGDataset.y_train ds = [0; 1; 2; 3; 4; 5]
    ∧ EEGDataset.y_valid ds = [6; 7]
    ∧ EEGDataset.y_test ds = [0; 1; 2; 3; 4; 5; 6; 7; 8; 9].
Proof. eexists. split; [vm_compute; reflexivity|]. vm_compute. done. Qed.

(** The same for every raw array. *)
Lemma from_epo_to_dataset_no_test_trial {A : Type} (epo_X : tensor A)
    (epo_y : list Z) (train_len : Z) (validation_frac : spec_float) ds :
  length (t_items epo_X) = length epo_y →
  EEGDataset.from_epo_to_dataset epo_X epo_y train_len 0 validation_frac = Ok ds →
  EEGDataset.y_test ds = epo_y ∧ t_items (EEGDataset.X_test ds) = t_items epo_X.
Proof.
  intros Hlen Hds.
  destruct (EEGDataset.valid_len_of train_len validation_frac) as [v|e] eqn:Hv.
  - rewrite (from_epo_to_dataset_slices _ _ _ _ _ _ Hlen Hv) in Hds.
    injection Hds as <-. simpl. unfold Py.slice_from.
    rewrite !slice_bound_in by lia. done.
  - unfold EEGDataset.from_epo_to_dataset in Hds. rewrite Hv in Hds. done.
Qed.

(** * The split checks no overlap *)

(** C7, as stated, fails: ten trials, eight for train and validation
    together and five for test.  Trials 5 to 7 are in the head window and in
    the tail window, and the call returns. *)
Lemma from_epo_to_dataset_accepts_overlap :
  ∃ ds,
    EEGDataset.from_epo_to_dataset Sample.trials10 Sample.labels10 8 5 Sample.quarter
    = Ok ds
    ∧ EEGDataset.y_train ds = [0; 1; 2; 3; 4; 5]
    ∧ EEGDataset.y_valid ds = [6; 7]
    ∧ EEGDataset.y_test ds = [5; 6; 7; 8; 9].
Proof. eexists. split; [vm_compute; reflexivity|]. vm_compute. done. Qed.

(** C7, amended.  The split compares no window with another: given raw
    arrays of one length and a product [train_len * validation_frac] that
    converts to an integer, it returns, and the three partitions are the
    slices [0:train], [train:train+valid] and [-test_len:] of the raw
    arrays, whether these overlap or not. *)
Theorem from_epo_to_dataset_never_rejects {A : Type} (epo_X : tensor A)
    (epo_y : list Z) (train_len test_len : Z) (validation_frac : spec_float)
    (valid_len : Z) :
  length (t_items epo_X) = length epo_y →
  EEGDataset.valid_len_of train_len validation_frac = Ok valid_len →
  ∃ ds,
    EEGDataset.from_epo_to_dataset epo_X epo_y train_len test_len validation_frac = Ok ds
    ∧ EEGDataset.y_train ds = Py.slice 0 (train_len - valid_len) epo_y
    ∧ EEGDataset.y_valid ds = Py.slice (train_len - valid_len) train_len epo_y
    ∧ EEGDataset.y_test ds = Py.slice_from (- test_len) epo_y
    ∧ t_items (EEGDataset.X_train ds) = Py.slice 0 (train_len - valid_len) (t_items epo_X)
    ∧ t_items (EEGDataset.X_valid ds)
      = Py.slice (train_len - valid_len) train_len (t_items epo_X)
    ∧ t_items (EEGDataset.X_test ds) = Py.slice_from (- test_len) (t_items epo_X).
Proof.
  intros Hlen Hv. eexists. split; [by apply from_epo_to_dataset_slices|].
  simpl. replace (train_len - valid_len + valid_len) with train_len by lia. done.
Qed.

Lemma from_epo_to_dataset_never_rejects_witness :
  ∃ ds,
    EEGDataset.from_epo_to_dataset Sample.trials10 Sample.labels10 8 5 Sample.quarter
    = Ok ds
    ∧ EEGDataset.y_train ds = Py.slice 0 (8 - 2) Sample.labels10
    ∧ EEGDataset.y_valid ds = Py.slice (8 - 2) 8 Sample.labels10
    ∧ EEGDataset.y_test ds = Py.slice_from (- 5) Sample.labels10
    ∧ t_items (EEGDataset.X_train ds) = Py.slice 0 (8 - 2) (t_items Sample.trials10)
    ∧ t_items (EEGDataset.X_valid ds) = Py.slice (8 - 2) 8 (t_items Sample.trials10)
    ∧ t_items (EEGDataset.X_test ds) = Py.slice_from (- 5) (t_items Sample.trials10).
Proof.
  apply (from_epo_to_dataset_never_rejects Sample.trials10 Sample.labels10 8 5
           Sample.quarter 2).
  - reflexivity.
  - reflexivity.
Defined.

(** * Cropping what is already cropped *)

Section Recrop.
Context {A : Type} (zero : A).
Implicit Types (X : tensor A) (y : list Z).

Lemma bulk_windows_wf X (n W : nat) (step : Z) :
  tensor_wf X → 0 ≤ step →
  (n = 0%nat ∨ (Z.of_nat n - 1) * step + Z.of_nat W ≤ Z.of_nat (t_cols X)) →
  tensor_wf (Tensor (t_rows X) W (concat (EEGDataset.bulk_windows X n W step))).
Proof.
  intros Hwf Hstep Hin. unfold tensor_wf. cbn [t_items t_rows t_cols].
  apply Forall_concat. unfold EEGDataset.bulk_windows.
  apply Forall_fmap. eapply Forall_impl; [exact Hwf|].
  intros t [Hrows Hcols]. simpl. unfold EEGDataset.windows.
  apply Forall_fmap, Forall_forall. intros i Hi%elem_of_seq. simpl.
  destruct Hin as [->|Hin]; [lia|].
  destruct (window_wf (Matrix (t_cols X) t) W (Z.to_nat (Z.of_nat i * step)))
    as [Hl Hr]; [done|simpl; nia|]. simpl in Hl. by rewrite Hl.
Qed.

Lemma bulk_lengths X y (n W : nat) (step : Z) :
  length y = length (t_items X) →
  length (concat (EEGDataset.bulk_windows X n W step))
  = length (concat (EEGDataset.bulk_labels y n)).
Proof.
  intros Hy.
  rewrite (length_concat_blocks _ n), (length_concat_blocks _ n).
  - unfold EEGDataset.bulk_windows, EEGDataset.bulk_labels.
    by rewrite !length_fmap, Hy.
  - unfold EEGDataset.bulk_labels. apply Forall_fmap, Forall_forall.
    intros c _. simpl. apply length_replicate.
  - unfold EEGDataset.bulk_windows. apply Forall_fmap, Forall_forall.
    intros c _. simpl. apply windows_length.
Qed.

(** Trials of exactly [W] samples have one window, themselves. *)
Lemma crop_X_y_same_width X y (W step : Z) :
  tensor_wf X → t_cols X = Z.to_nat W → 0 < W → 0 < step →
  length y = length (t_items X) →
  EEGDataset.crop_X_y zero X y W step = Ok (X, y).
Proof.
  intros Hwf Hcols HW Hstep Hy.
  rewrite (crop_X_y_inside zero X y 1 W step); [|done|lia|done| |done].
  2:{ apply n_crops_of_pos_step; [done|]. lia. }
  f_equal. f_equal.
  - destruct X as [rows cols items]. simpl in *. subst cols. f_equal.
    unfold EEGDataset.bulk_windows. simpl.
    unfold tensor_wf in Hwf. simpl in Hwf. clear Hy.
    induction Hwf as [|t items [_ Ht] _ IH]; [done|]. simpl. f_equal; [|exact IH].
    unfold EEGDataset.window. simpl.
    transitivity (id <$> t); [|apply list_fmap_id].
    apply Forall_fmap_ext. eapply Forall_impl; [exact Ht|].
    intros r Hr. simpl in *. rewrite drop_0. apply take_ge. lia.
  - unfold EEGDataset.bulk_labels. clear. induction y as [|c y IH]; [done|].
    simpl. f_equal. exact IH.
Qed.
End Recrop.

(** C8, as stated, fails: the second call on a dataset returns, and returns
    the dataset the first call left. *)
Lemma make_crops_twice_returns :
  ∃ ds',
    EEGDataset.make_crops 0 Sample.dataset2 (Some 3) (Some 2) = Ok ds'
    ∧ EEGDataset.make_crops 0 ds' (Some 3) (Some 2) = Ok ds'
    ∧ EEGDataset.y_train ds' = [7; 7; 4; 4].
Proof. eexists. split; [vm_compute; reflexivity|]. vm_compute. done. Qed.

(** C8, amended.  [make_crops] keeps no record of having run.  The first
    call replaces the samples and labels of each partition by the windows and
    the replicated labels; a second call with the same geometry crops again:
    every trial then has exactly [W] samples and is its own single window, so
    the call returns the dataset unchanged. *)
Theorem make_crops_twice {A : Type} (zero : A) (ds : EEGDataset.dataset (list Z))
    (W S : Z) :
  tensor_wf (EEGDataset.X_train ds) → tensor_wf (EEGDataset.X_valid ds) →
  tensor_wf (EEGDataset.X_test ds) →
  length (EEGDataset.y_train ds) = length (t_items (EEGDataset.X_train ds)) →
  length (EEGDataset.y_valid ds) = length (t_items (EEGDataset.X_valid ds)) →
  length (EEGDataset.y_test ds) = length (t_items (EEGDataset.X_test ds)) →
  0 < W → W ≤ Z.of_nat (t_cols (EEGDataset.X_train ds)) →
  W ≤ Z.of_nat (t_cols (EEGDataset.X_valid ds)) →
  W ≤ Z.of_nat (t_cols (EEGDataset.X_test ds)) → 0 < S →
  ∃ ds',
    EEGDataset.make_crops zero ds (Some W) (Some S) = Ok ds'
    ∧ EEGDataset.crop_X_y zero (EEGDataset.X_train ds) (EEGDataset.y_train ds) W S
      = Ok (EEGDataset.X_train ds', EEGDataset.y_train ds')
    ∧ EEGDataset.crop_X_y zero (EEGDataset.X_valid ds) (EEGDataset.y_valid ds) W S
      = Ok (EEGDataset.X_valid ds', EEGDataset.y_valid ds')
    ∧ EEGDataset.crop_X_y zero (EEGDataset.X_test ds) (EEGDataset.y_test ds) W S
      = Ok (EEGDataset.X_test ds', EEGDataset.y_test ds')
    ∧ EEGDataset.make_crops zero ds' (Some W) (Some S) = Ok ds'.
Proof.
  intros Hwf1 Hwf2 Hwf3 Hl1 Hl2 Hl3 HW HW1 HW2 HW3 HS.
  assert (∀ X y, tensor_wf X → length y = length (t_items X) →
            W ≤ Z.of_nat (t_cols X) →
            ∃ X' y', EEGDataset.crop_X_y zero X y W S = Ok (X', y')
                     ∧ EEGDataset.crop_X_y zero X' y' W S = Ok (X', y')) as Hpart.
  { intros X y Hwf Hl HWX.
    set (nz := - ((- (Z.of_nat (t_cols X) - W + 1)) `div` S)).
    assert (EEGDataset.n_crops_of (Z.of_nat (t_cols X)) W S = Ok nz) as Hn
      by (apply n_crops_of_Ok; lia).
    pose proof Hn as Hceil. apply n_crops_of_pos_step in Hceil; [|done].
    assert (1 ≤ nz) as Hn1 by nia.
    eexists _, _. split.
    { apply (crop_X_y_inside zero X y (Z.to_nat nz)); [done|lia|done| |done].
      by rewrite Z2Nat.id by lia. }
    apply crop_X_y_same_width; [|done|done|done|].
    - apply bulk_windows_wf; [done|lia|]. right. lia.
    - cbn [t_items]. symmetry. by apply bulk_lengths. }
  destruct (Hpart _ _ Hwf1 Hl1 HW1) as (X1 & y1 & H1 & H1').
  destruct (Hpart _ _ Hwf2 Hl2 HW2) as (X2 & y2 & H2 & H2').
  destruct (Hpart _ _ Hwf3 Hl3 HW3) as (X3 & y3 & H3 & H3').
  exists (EEGDataset.Dataset X1 y1 X2 y2 X3 y3).
  unfold EEGDataset.make_crops.
  cbn [EEGDataset.X_train EEGDataset.y_train EEGDataset.X_valid EEGDataset.y_valid
       EEGDataset.X_test EEGDataset.y_test].
  rewrite H1, H2, H3, H1', H2', H3'. done.
Qed.

Lemma make_crops_twice_witness :
  ∃ ds',
    EEGDataset.make_crops 0 Sample.dataset2 (Some 3) (Some 2) = Ok ds'
    ∧ EEGDataset.crop_X_y 0 Sample.trials2 Sample.labels2 3 2
      = Ok (EEGDataset.X_train ds', EEGDataset.y_train ds')
    ∧ EEGDataset.crop_X_y 0 Sample.trials2 Sample.labels2 3 2
      = Ok (EEGDataset.X_valid ds', EEGDataset.y_valid ds')
    ∧ EEGDataset.crop_X_y 0 Sample.trials2 Sample.labels2 3 2
      = Ok (EEGDataset.X_test ds', EEGDataset.y_test ds')
    ∧ EEGDataset.make_crops 0 ds' (Some 3) (Some 2) = Ok ds'.
Proof.
  apply (make_crops_twice 0 Sample.dataset2 3 2);
    try (repeat constructor); try reflexivity; simpl; lia.
Defined.

(** * One-hot encoding *)




Lemma one_hot_rows_total (k : Z) (y : list Z) :
  Forall (λ c, 0 ≤ c < k) y → ∃ rows, Keras.one_hot_rows k y = Ok rows.
Proof.
  induction 1 as [|c y Hc _ [rows IH]]; simpl; [by eexists|].
  unfold Keras.one_hot_row.
  destruct (Z.ltb_spec c 0); [lia|]. destruct (Z.ltb_spec c 0); [lia|].
  destruct (Z.leb_spec k c); [lia|]. simpl. rewrite IH. simpl. by eexists.
Qed.


Lemma to_categorical_total (k : Z) (y : list Z) :
  0 < k → Forall (λ c, 0 ≤ c < k) y → ∃ rows, Keras.to_categorical y k = Ok rows.
Proof.
  intros Hk Hy. unfold Keras.to_categorical. rewrite decide_False by lia. simpl.
  destruct (Z.ltb_spec k 0); [lia|]. by apply one_hot_rows_total.
Qed.



Example to_categorical_dataset01 :
  ∃ ds', EEGDataset.to_categorical Sample.dataset01 None = Ok ds'
         ∧ EEGDataset.y_train ds' = [[0; 1]; [1; 0]]
         ∧ EEGDataset.y_valid ds' = [[1; 0]; [1; 0]]
         ∧ EEGDataset.y_test ds' = [[0; 1]; [0; 1]].
Proof. eexists. split; [vm_compute; reflexivity|]. vm_compute. done. Qed.

(** The asymmetry at work: a class that only the validation partition has
    does not count, and encoding a trial of that class fails. *)
Example to_categorical_unseen_class :
  EEGDataset.to_categorical Sample.dataset_unseen None = Raise IndexError.
Proof. vm_compute. reflexivity. Qed.

(** * Facts about the generator *)

Section GeneratorFacts.
Context {A : Type} (zero : A).
Import EEGDataGenerator.
Implicit Types (g h : generator A).

Lemma same_config_refl g : same_config g g.
Proof. by repeat split. Qed.

Lemma same_config_trans g g' g'' :
  same_config g g' → same_config g' g'' → same_config g g''.
Proof.
  unfold same_config. intros (?&?&?&?&?&?&?&?&?&?) (?&?&?&?&?&?&?&?&?&?).
  repeat split; congruence.
Qed.

(** One call of [unpack_trial]: the trial at [indexes[next_to_unpack]] is
    cropped; its crops and labels become the stack when [next_to_unpack] is 0
    and are appended to it otherwise; [next_to_unpack] moves by one. *)
Lemma unpack_trial_Ok g g' :
  unpack_trial zero g = Ok g' →
  ∃ (i : Z) (Xi : matrix A) (cX : tensor A) (yi : Z),
    Py.index (indexes g) (next_to_unpack g) = Ok i
    ∧ trial_at (X g) i = Ok Xi
    ∧ EEGDataset.crop_X zero Xi (n_crops_for_trial g) (crop_sample_size g) (crop_step g)
      = Ok cX
    ∧ Py.index (y g) i = Ok yi
    ∧ 0 ≤ n_crops_for_trial g
    ∧ length (t_items cX) = Z.to_nat (n_crops_for_trial g)
    ∧ next_to_unpack g' = next_to_unpack g + 1
    ∧ indexes g' = indexes g
    ∧ same_config g g'
    ∧ is_Some (crop_stack_X g')
    ∧ stack_X_items g'
      = (if decide (next_to_unpack g = 0) then [] else stack_X_items g) ++ t_items cX
    ∧ crop_stack_y g'
      = Some ((if decide (next_to_unpack g = 0) then [] else stack_y_items g)
                ++ replicate (Z.to_nat (n_crops_for_trial g)) yi).
Proof.
  unfold unpack_trial.
  intros (i & Hi & (Xi & HXi & (cX & HcX & Hrest)%bind_Ok)%bind_Ok)%bind_Ok.
  exists i, Xi, cX.
  destruct (crop_X_Ok_length _ _ _ _ _ _ HcX) as (Hn & Hlen & _).
  destruct (decide (next_to_unpack g = 0)) as [Hc|Hc].
  - apply bind_Ok in Hrest as (yi & Hyi & (cy & Hcy & [= <-])%bind_Ok).
    apply repeat_Ok in Hcy as [_ ->].
    exists yi. unfold stack_X_items. simpl. repeat split; eauto.
  - apply bind_Ok in Hrest as (sX' & HsX' & (yi & Hyi & (cy & Hcy & Hrest)%bind_Ok)%bind_Ok).
    apply repeat_Ok in Hcy as [_ ->].
    destruct (crop_stack_X g) as [sX|] eqn:HsX; [|done].
    destruct (crop_stack_y g) as [sy|] eqn:Hsy; [|done].
    injection Hrest as <-. unfold append_axis0 in HsX'.
    destruct (_ && _); [|done]. injection HsX' as <-.
    exists yi. unfold stack_X_items, stack_y_items. rewrite HsX, Hsy. simpl.
    repeat split; eauto.
Qed.

Lemma unpack_trial_in_range g g' :
  unpack_trial zero g = Ok g' → next_to_unpack g < Z.of_nat (length (indexes g)).
Proof.
  intros (i & _ & _ & _ & Hi & _)%unpack_trial_Ok.
  destruct (decide (0 ≤ next_to_unpack g)) as [Hc|Hc]; [|lia].
  apply index_Ok_nonneg in Hi; [|done]. apply lookup_lt_Some in Hi. lia.
Qed.

Lemma unpack_trial_stack_len g g' :
  unpack_trial zero g = Ok g' →
  Z.of_nat (stack_len g')
  = (if decide (next_to_unpack g = 0) then 0 else Z.of_nat (stack_len g))
    + n_crops_for_trial g.
Proof.
  intros (i & Xi & cX & yi & _ & _ & _ & _ & Hn & _ & _ & _ & _ & _ & _ & Hy)%unpack_trial_Ok.
  unfold stack_len. rewrite Hy, length_app, length_replicate.
  unfold stack_y_items. destruct (decide _); simpl; [lia|].
  destruct (crop_stack_y g); simpl; lia.
Qed.

(** The loop cannot run out of the fuel [fuel_of] grants. *)
Lemma refill_enough_fuel (fuel : nat) g :
  (Z.to_nat (Z.of_nat (length (indexes g)) - next_to_unpack g) < fuel)%nat →
  refill zero fuel g ≠ None.
Proof.
  revert g. induction fuel as [|fuel IH]; intros g Hfuel; [lia|].
  simpl. destruct (crop_stack_y g) as [sy|]; [|done].
  destruct (Z.ltb_spec (Z.of_nat (length sy)) (batch_size g)); [|done].
  destruct (unpack_trial zero g) as [g'|e] eqn:Hg'; [|done].
  pose proof (unpack_trial_in_range _ _ Hg') as Hrange.
  apply unpack_trial_Ok in Hg' as (_ & _ & _ & _ & _ & _ & _ & _ & _ & _ & Hc & Hidx & _).
  apply IH. rewrite Hc, Hidx. lia.
Qed.

Lemma unpack_trials_S (m : nat) g g1 :
  unpack_trials zero (S m) g = Ok g1 ↔
  ∃ g', unpack_trials zero m g = Ok g' ∧ unpack_trial zero g' = Ok g1.
Proof.
  revert g. induction m as [|m IH]; intros g.
  - simpl. split.
    + intros (g' & Hg' & [= <-])%bind_Ok. eauto.
    + intros (g' & [= <-] & ->). done.
  - change (unpack_trials zero (S (S m)) g)
      with (unpack_trial zero g ≫= unpack_trials zero (S m)).
    rewrite bind_Ok. split.
    + intros (g0 & Hg0 & (g' & Hg' & Hg1)%IH). exists g'. split; [|done].
      simpl. by rewrite Hg0.
    + intros (g' & Hg' & Hg1). simpl in Hg'.
      apply bind_Ok in Hg' as (g0 & Hg0 & Hg'). exists g0. split; [done|].
      apply IH. eauto.
Qed.

Lemma unpack_trials_Ok (m : nat) g g1 :
  unpack_trials zero m g = Ok g1 →
  next_to_unpack g1 = next_to_unpack g + Z.of_nat m
  ∧ indexes g1 = indexes g ∧ same_config g g1.
Proof.
  revert g. induction m as [|m IH]; intros g; simpl.
  - intros [= <-]. split; [lia|]. split; [done|]. apply same_config_refl.
  - intros (g' & Hg' & Hg1)%bind_Ok. apply IH in Hg1 as (Hc & Hidx & Hcfg).
    apply unpack_trial_Ok in Hg'
      as (_ & _ & _ & _ & _ & _ & _ & _ & _ & _ & Hc' & Hidx' & Hcfg' & _).
    split; [lia|]. split; [congruence|]. by eapply same_config_trans.
Qed.

(** What the loop has done when it exits: some number [m] of trials was
    unpacked, each because the stack was still short, and the stack now
    holds a batch. *)
Lemma refill_Ok (fuel : nat) g g1 :
  refill zero fuel g = Some (Ok g1) →
  ∃ m : nat,
    unpack_trials zero m g = Ok g1
    ∧ (∀ (j : nat) gj, (j < m)%nat → unpack_trials zero j g = Ok gj →
         Z.of_nat (stack_len gj) < batch_size g)
    ∧ is_Some (crop_stack_y g1)
    ∧ batch_size g ≤ Z.of_nat (stack_len g1).
Proof.
  revert g. induction fuel as [|fuel IH]; intros g; simpl.
  - destruct (crop_stack_y g) as [sy|] eqn:Hsy; [|done].
    destruct (Z.ltb_spec (Z.of_nat (length sy)) (batch_size g)); [done|].
    intros [= <-]. exists 0%nat. unfold stack_len. rewrite Hsy.
    split; [done|]. split; [intros; lia|]. split; [by eexists|done].
  - destruct (crop_stack_y g) as [sy|] eqn:Hsy; [|done].
    destruct (Z.ltb_spec (Z.of_nat (length sy)) (batch_size g)) as [Hlt|Hge].
    + destruct (unpack_trial zero g) as [g'|e] eqn:Hg'; [|done].
      intros (m & Hm & Hshort & Hsome & Hfull)%IH.
      pose proof (unpack_trial_Ok _ _ Hg')
        as (_ & _ & _ & _ & _ & _ & _ & _ & _ & _ & _ & _ & Hcfg & _).
      destruct Hcfg as (_ & _ & HB & _). rewrite HB in *.
      exists (S m). split; [simpl; by rewrite Hg'|].
      split; [|done]. intros j gj Hj Hgj. destruct j as [|j].
      * injection Hgj as <-. unfold stack_len. by rewrite Hsy.
      * simpl in Hgj. rewrite Hg' in Hgj. simpl in Hgj.
        eapply Hshort; [|done]. lia.
    + intros [= <-]. exists 0%nat. unfold stack_len. rewrite Hsy.
      split; [done|]. split; [intros; lia|]. split; [by eexists|done].
Qed.
End GeneratorFacts.

Section BatchFacts.
Context {A : Type} (zero : A).
Import EEGDataGenerator.
Implicit Types (g h : generator A).

Lemma one_hot_rows_length (k : Z) (y : list Z) (rows : list (list Z)) :
  Keras.one_hot_rows k y = Ok rows → length rows = length y.
Proof.
  revert rows. induction y as [|c y IH]; intros rows; simpl.
  - by intros [= <-].
  - intros (r & _ & (rs & Hrs & [= <-])%bind_Ok)%bind_Ok. simpl. f_equal. eauto.
Qed.

Lemma to_categorical_length (k : Z) (y : list Z) (rows : list (list Z)) :
  Keras.to_categorical y k = Ok rows → length rows = length y.
Proof.
  unfold Keras.to_categorical. intros (k' & _ & Hrows)%bind_Ok.
  destruct (k' <? 0); [done|]. by eapply one_hot_rows_length.
Qed.

(** The part after the loop: the first [batch_size] crops and labels leave
    the stack in their order, the others stay. *)
Lemma pop_batch_Ok g (b : batch (A := A)) g' :
  0 ≤ batch_size g →
  pop_batch g = Ok (b, g') →
  ∃ (sX : tensor A) (sy : list Z),
    crop_stack_X g = Some sX ∧ crop_stack_y g = Some sy
    ∧ (Z.to_nat (batch_size g) ≤ length (t_items sX))%nat
    ∧ (Z.to_nat (batch_size g) ≤ length sy)%nat
    ∧ b.1 = add_newaxis (take (Z.to_nat (batch_size g)) (t_items sX))
    ∧ Keras.to_categorical (take (Z.to_nat (batch_size g)) sy) (n_classes g) = Ok b.2
    ∧ crop_stack_X g'
      = Some (Tensor (t_rows sX) (t_cols sX)
                (take (length sy - Z.to_nat (batch_size g))
                      (drop (Z.to_nat (batch_size g)) (t_items sX))))
    ∧ crop_stack_y g' = Some (drop (Z.to_nat (batch_size g)) sy)
    ∧ next_to_unpack g' = next_to_unpack g
    ∧ indexes g' = indexes g
    ∧ same_config g g'.
Proof.
  intros HB. unfold pop_batch.
  destruct (crop_stack_X g) as [sX|]; [|by destruct (crop_stack_y g)].
  destruct (crop_stack_y g) as [sy|]; [|done].
  intros (bX & HbX & (by_ & Hby & (rX & HrX & (ry & Hry & Hcat)%bind_Ok)%bind_Ok)%bind_Ok)%bind_Ok.
  apply bind_Ok in Hcat as (cat & Hcat & [= <- <-]).
  pose proof (take_idx_length _ _ _ HbX) as HlX.
  pose proof (take_idx_length _ _ _ Hby) as Hly.
  rewrite arange_length in HlX, Hly.
  apply take_idx_arange_inv in HbX as [-> _]; [|done].
  apply take_idx_arange_inv in Hby as [-> _]; [|done].
  apply take_idx_arange_inv in HrX as [-> _]; [|done].
  apply take_idx_arange_inv in Hry as [-> _]; [|done].
  rewrite Z.sub_0_r in *. change (Z.to_nat 0) with 0%nat in *.
  rewrite !drop_0 in *. rewrite length_take in HlX. rewrite length_take in Hly.
  exists sX, sy. simpl.
  replace (Z.to_nat (Z.of_nat (length sy) - batch_size g))
    with (length sy - Z.to_nat (batch_size g))%nat by lia.
  rewrite (take_ge (drop _ sy)) by (rewrite length_drop; lia).
  repeat split; (done || lia).
Qed.

Lemma fuel_of_enough g :
  (Z.to_nat (Z.of_nat (length (indexes g)) - next_to_unpack g) < fuel_of g)%nat.
Proof. unfold fuel_of. lia. Qed.

(** [__getitem__] always comes to an end: it returns a batch or raises. *)
Lemma getitem_defined g (index : Z) : getitem zero g index ≠ None.
Proof.
  unfold getitem, data_generation, data_generation_fuel.
  pose proof (refill_enough_fuel zero _ _ (fuel_of_enough (set_current_batch g index))).
  destruct (refill zero _ _) as [[g1|e]|]; done.
Qed.

(** A returned batch, step by step. *)
Lemma getitem_Ok g (index : Z) (b : batch (A := A)) g' :
  getitem zero g index = Some (Ok (b, g')) →
  ∃ (m : nat) g1,
    unpack_trials zero m (set_current_batch g index) = Ok g1
    ∧ (∀ (j : nat) gj, (j < m)%nat →
         unpack_trials zero j (set_current_batch g index) = Ok gj →
         Z.of_nat (stack_len gj) < batch_size g)
    ∧ batch_size g ≤ Z.of_nat (stack_len g1)
    ∧ pop_batch g1 = Ok (b, g').
Proof.
  unfold getitem, data_generation, data_generation_fuel.
  destruct (refill zero _ _) as [[g1|e]|] eqn:Hrefill; [|done..].
  intros [= Hpop]. apply refill_Ok in Hrefill as (m & Hm & Hshort & _ & Hfull).
  exists m, g1. done.
Qed.

(** A returned batch is full. *)
Lemma getitem_batch_length g (index : Z) (b : batch (A := A)) g' :
  0 ≤ batch_size g →
  getitem zero g index = Some (Ok (b, g')) →
  length b.1 = Z.to_nat (batch_size g) ∧ length b.2 = Z.to_nat (batch_size g).
Proof.
  intros HB (m & g1 & Hm & _ & _ & Hpop)%getitem_Ok.
  pose proof (unpack_trials_Ok _ _ _ _ Hm) as (_ & _ & Hcfg).
  destruct Hcfg as (_ & _ & HB1 & _). simpl in HB1.
  apply pop_batch_Ok in Hpop as (sX & sy & _ & _ & HlX & Hly & Hb1 & Hb2 & _); [|lia].
  rewrite HB1 in *. split.
  - rewrite Hb1. unfold add_newaxis. rewrite length_fmap, length_take. lia.
  - rewrite (to_categorical_length _ _ _ Hb2), length_take. lia.
Qed.
End BatchFacts.

(** * Batching laws *)

(** C2, as stated, fails when a new epoch begins.  One trial of three crops
    and batches of two: after the first batch one crop waits in the stack.
    After [on_epoch_end] the next request does not append to that crop; it
    drops it, and the batch is made of the first two crops of the trial
    again. *)
Lemma unpack_trial_drops_waiting_crop :
  ∃ g0 b1 g1 b2 g2,
    EEGDataGenerator.init 0 id (Tensor 1 5 [m_rows Sample.trial5]) [1] 2 (Some 2) 3 1 false
    = Ok g0
    ∧ EEGDataGenerator.getitem 0 g0 0 = Some (Ok (b1, g1))
    ∧ EEGDataGenerator.stack_X_items g1 = [[[12; 13; 14]]]
    ∧ EEGDataGenerator.getitem 0 (EEGDataGenerator.on_epoch_end id g1) 0
      = Some (Ok (b2, g2))
    ∧ b2.1 = [[[[10; 11; 12]]]; [[[11; 12; 13]]]]
    ∧ b2.1 ≠ add_newaxis (take 2 ([[[12; 13; 14]]] ++
                                  [[[10; 11; 12]]; [[11; 12; 13]]; [[12; 13; 14]]]))
    ∧ EEGDataGenerator.stack_X_items g2 = [[[12; 13; 14]]].
Proof.
  eexists _, _, _, _, _.
  split; [vm_compute; reflexivity|].
  split; [vm_compute; reflexivity|].
  split; [vm_compute; reflexivity|].
  split; [vm_compute; reflexivity|].
  split; [vm_compute; reflexivity|].
  split; [vm_compute; discriminate|].
  vm_compute; reflexivity.
Qed.

(** C2, amended.  A request that returns has unpacked some number [m] of
    trials, one after the other, each while the stack held fewer than
    [batch_size] crops.  Unpacking crops the trial at
    [indexes[next_to_unpack]], replicates its label, moves [next_to_unpack]
    by one, and appends crops and labels to the stack, except that at
    [next_to_unpack = 0] they replace the stack.  The batch is then the first
    [batch_size] crops, each under a new singleton axis, with the indicator
    rows of the first [batch_size] labels against [n_classes]; the rest of the
    stack stays, in order. *)
Theorem getitem_semantics {A : Type} (zero : A) (g : EEGDataGenerator.generator A)
    (index : Z) (b : EEGDataGenerator.batch (A := A))
    (g' : EEGDataGenerator.generator A) :
  0 < EEGDataGenerator.batch_size g →
  EEGDataGenerator.getitem zero g index = Some (Ok (b, g')) →
  let B := Z.to_nat (EEGDataGenerator.batch_size g) in
  ∃ (m : nat) (g1 : EEGDataGenerator.generator A),
    EEGDataGenerator.unpack_trials zero m (EEGDataGenerator.set_current_batch g index)
    = Ok g1
    ∧ (∀ (j : nat) gj, (j < m)%nat →
         EEGDataGenerator.unpack_trials zero j (EEGDataGenerator.set_current_batch g index)
         = Ok gj →
         (EEGDataGenerator.stack_len gj < B)%nat)
    ∧ (∀ h h', EEGDataGenerator.unpack_trial zero h = Ok h' →
         ∃ (i : Z) (Xi : matrix A) (cX : tensor A) (yi : Z),
           Py.index (EEGDataGenerator.indexes h) (EEGDataGenerator.next_to_unpack h) = Ok i
           ∧ trial_at (EEGDataGenerator.X h) i = Ok Xi
           ∧ EEGDataset.crop_X zero Xi (EEGDataGenerator.n_crops_for_trial h)
               (EEGDataGenerator.crop_sample_size h) (EEGDataGenerator.crop_step h) = Ok cX
           ∧ Py.index (EEGDataGenerator.y h) i = Ok yi
           ∧ EEGDataGenerator.next_to_unpack h' = EEGDataGenerator.next_to_unpack h + 1
           ∧ EEGDataGenerator.stack_X_items h'
             = (if decide (EEGDataGenerator.next_to_unpack h = 0) then []
                else EEGDataGenerator.stack_X_items h) ++ t_items cX
           ∧ EEGDataGenerator.stack_y_items h'
             = (if decide (EEGDataGenerator.next_to_unpack h = 0) then []
                else EEGDataGenerator.stack_y_items h)
               ++ replicate (Z.to_nat (EEGDataGenerator.n_crops_for_trial h)) yi)
    ∧ EEGDataGenerator.next_to_unpack g' = EEGDataGenerator.next_to_unpack g + Z.of_nat m
    ∧ (B ≤ length (EEGDataGenerator.stack_y_items g1))%nat
    ∧ b.1 = add_newaxis (take B (EEGDataGenerator.stack_X_items g1))
    ∧ Keras.to_categorical (take B (EEGDataGenerator.stack_y_items g1))
                           (EEGDataGenerator.n_classes g) = Ok b.2
    ∧ length b.1 = B ∧ length b.2 = B
    ∧ EEGDataGenerator.stack_y_items g' = drop B (EEGDataGenerator.stack_y_items g1)
    ∧ EEGDataGenerator.stack_X_items g'
      = take (length (EEGDataGenerator.stack_y_items g1) - B)
             (drop B (EEGDataGenerator.stack_X_items g1))
    ∧ (length (EEGDataGenerator.stack_X_items g1)
       = length (EEGDataGenerator.stack_y_items g1) →
       EEGDataGenerator.stack_X_items g' = drop B (EEGDataGenerator.stack_X_items g1)).
Proof.
  intros HB Hget B.
  apply getitem_Ok in Hget as (m & g1 & Hm & Hshort & Hfull & Hpop).
  pose proof (unpack_trials_Ok _ _ _ _ Hm) as (Hc & _ & Hcfg).
  destruct Hcfg as (_ & _ & HB1 & _ & Hnc & _). simpl in Hc, HB1, Hnc.
  apply pop_batch_Ok in Hpop as (sX & sy & HsX & Hsy & HlX & Hly & Hb1 & Hb2 & HsX' & Hsy'
                                 & Hc' & _); [|lia].
  rewrite HB1, Hnc in *. fold B in HlX, Hly, Hb1, Hb2, HsX', Hsy'.
  exists m, g1. split; [done|]. split.
  { intros j gj Hj Hgj. specialize (Hshort j gj Hj Hgj). lia. }
  split.
  { intros h h' (i & Xi & cX & yi & H1 & H2 & H3 & H4 & _ & _ & H5 & _ & _ & _ & H6 & H7)
             %(unpack_trial_Ok zero).
    exists i, Xi, cX, yi. unfold EEGDataGenerator.stack_y_items at 1. rewrite H7.
    done. }
  unfold EEGDataGenerator.stack_X_items, EEGDataGenerator.stack_y_items.
  rewrite HsX, Hsy, HsX', Hsy'. cbn [t_items].
  split; [lia|]. split; [done|]. split; [done|]. split; [done|].
  split; [rewrite Hb1; unfold add_newaxis; rewrite length_fmap, length_take; lia|].
  split; [rewrite (to_categorical_length _ _ _ Hb2), length_take; lia|].
  split; [done|]. split; [done|].
  intros Hal. apply take_ge. rewrite length_drop. lia.
Qed.

Example sample_generator :
  EEGDataGenerator.init 0 id (Tensor 1 5 [m_rows Sample.trial5]) [1] 2 (Some 2) 3 1 false
  = Ok Sample.gen0
  ∧ EEGDataGenerator.getitem 0 Sample.gen0 0 = Some (Ok (Sample.batch1, Sample.gen1))
  ∧ Sample.batch1 = ([[[[10; 11; 12]]]; [[[11; 12; 13]]]], [[0; 1]; [0; 1]])
  ∧ EEGDataGenerator.stack_X_items Sample.gen1 = [[[12; 13; 14]]].
Proof. vm_compute. done. Qed.

Lemma getitem_semantics_witness :
  0 < EEGDataGenerator.batch_size Sample.gen0
  ∧ EEGDataGenerator.getitem 0 Sample.gen0 0 = Some (Ok (Sample.batch1, Sample.gen1))
  ∧ ∃ (m : nat) (g1 : EEGDataGenerator.generator Z),
      EEGDataGenerator.unpack_trials 0 m (EEGDataGenerator.set_current_batch Sample.gen0 0)
      = Ok g1
      ∧ Sample.batch1.1 = add_newaxis (take 2 (EEGDataGenerator.stack_X_items g1))
      ∧ Keras.to_categorical (take 2 (EEGDataGenerator.stack_y_items g1)) 2
        = Ok Sample.batch1.2
      ∧ EEGDataGenerator.stack_y_items Sample.gen1
        = drop 2 (EEGDataGenerator.stack_y_items g1).
Proof.
  assert (0 < EEGDataGenerator.batch_size Sample.gen0) as HB by (simpl; lia).
  assert (EEGDataGenerator.getitem 0 Sample.gen0 0
          = Some (Ok (Sample.batch1, Sample.gen1))) as Hget by reflexivity.
  split; [exact HB|]. split; [exact Hget|].
  destruct (getitem_semantics 0 Sample.gen0 0 Sample.batch1 Sample.gen1 HB Hget)
    as (m & g1 & Hm & _ & _ & _ & _ & Hb1 & Hb2 & _ & _ & Hy & _).
  exists m, g1. split; [exact Hm|]. split; [exact Hb1|]. split; [exact Hb2|]. exact Hy.
Defined.

(** C3. Batch-count law.  For a generator built with [batch_size > 0], the
    number of crops is the crop count of one trial times the number of
    trials, [__len__] is the floor of the number of crops over [batch_size],
    so [len * batch_size <= n_crops < (len + 1) * batch_size], and every
    batch that [__getitem__] returns, from any state of a generator with
    that batch size, has exactly [batch_size] crops and [batch_size] label
    rows: no shorter batch ever comes out. *)
Theorem batch_count_law {A : Type} (zero : A) (rnd : list Z → list Z) (X : tensor A)
    (y : list Z) (batch_size : Z) (n_classes : option Z) (crop_sample_size crop_step : Z)
    (shuffle : bool) (g : EEGDataGenerator.generator A) :
  0 < batch_size →
  EEGDataGenerator.init zero rnd X y batch_size n_classes crop_sample_size crop_step shuffle
  = Ok g →
  ∃ n_per l : Z,
    EEGDataset.n_crops_of (Z.of_nat (t_cols X)) crop_sample_size crop_step = Ok n_per
    ∧ EEGDataGenerator.n_crops g = n_per * Z.of_nat (length (t_items X))
    ∧ EEGDataGenerator.len g = Ok l
    ∧ l = EEGDataGenerator.n_crops g `div` batch_size
    ∧ l * batch_size ≤ EEGDataGenerator.n_crops g < (l + 1) * batch_size
    ∧ ∀ (h : EEGDataGenerator.generator A) (index : Z) b h',
        EEGDataGenerator.batch_size h = batch_size →
        EEGDataGenerator.getitem zero h index = Some (Ok (b, h')) →
        length b.1 = Z.to_nat batch_size ∧ length b.2 = Z.to_nat batch_size.
Proof.
  intros HB Hinit. unfold EEGDataGenerator.init in Hinit.
  apply bind_Ok in Hinit as (n_per & Hn & Hg).
  apply unpack_trial_Ok in Hg as (_ & _ & _ & _ & _ & _ & _ & _ & _ & _ & _ & _ & Hcfg & _).
  destruct Hcfg as (_ & _ & HBg & _ & _ & _ & _ & _ & Hcrops & _).
  simpl in HBg, Hcrops.
  exists n_per, (EEGDataGenerator.n_crops g `div` batch_size).
  split; [done|]. split; [done|]. split.
  { unfold EEGDataGenerator.len, Py.true_div. rewrite HBg.
    rewrite decide_False by lia. cbn [mbind result_bind]. by rewrite <- Zdiv_Qdiv. }
  split; [done|]. split.
  { pose proof (Z.div_mod (EEGDataGenerator.n_crops g) batch_size ltac:(lia)).
    pose proof (Z.mod_pos_bound (EEGDataGenerator.n_crops g) batch_size HB). nia. }
  intros h index b h' Hh Hget.
  rewrite <- Hh. apply (getitem_batch_length zero h index b h'); [lia|done].
Qed.

Lemma batch_count_law_witness :
  0 < 2
  ∧ EEGDataGenerator.init 0 id (Tensor 1 5 [m_rows Sample.trial5]) [1] 2 (Some 2) 3 1 false
    = Ok Sample.gen0
  ∧ ∃ n_per l : Z,
      EEGDataset.n_crops_of 5 3 1 = Ok n_per
      ∧ EEGDataGenerator.n_crops Sample.gen0 = n_per * 1
      ∧ EEGDataGenerator.len Sample.gen0 = Ok l
      ∧ l * 2 ≤ EEGDataGenerator.n_crops Sample.gen0 < (l + 1) * 2.
Proof.
  assert (0 < 2) as HB by lia.
  assert (EEGDataGenerator.init 0 id (Tensor 1 5 [m_rows Sample.trial5]) [1] 2 (Some 2)
            3 1 false = Ok Sample.gen0) as Hinit by reflexivity.
  split; [exact HB|]. split; [exact Hinit|].
  destruct (batch_count_law 0 id _ _ _ _ _ _ _ _ HB Hinit)
    as (n_per & l & Hn & Hcrops & Hlen & _ & Hbounds & _).
  exists n_per, l. split; [exact Hn|]. split; [exact Hcrops|]. split; [exact Hlen|].
  exact Hbounds.
Defined.

(** Scenario A of the specification: four trials of 100 samples, windows of
    50 every 25, batches of five: three crops a trial, twelve crops, two
    batches, two crops left over. *)
Example len_scenario_A :
  ∃ g, EEGDataGenerator.init 0 id (Tensor 1 100 (replicate 4 [replicate 100 0]))
         [0; 1; 0; 1] 5 (Some 2) 50 25 false = Ok g
       ∧ EEGDataGenerator.n_crops_for_trial g = 3
       ∧ EEGDataGenerator.n_crops g = 12
       ∧ EEGDataGenerator.len g = Ok 2.
Proof. eexists. split; [vm_compute; reflexivity|]. vm_compute. done. Qed.

(** * Epoch conservation *)

Section EpochFacts.
Context {A : Type} (zero : A).
Import EEGDataGenerator.
Implicit Types (g h : generator A).

Lemma epoch_inv_current_batch g (index : Z) (k : nat) :
  epoch_inv (set_current_batch g index) k ↔ epoch_inv g k.
Proof. done. Qed.

Lemma unpack_trial_inv g g' (k : nat) :
  0 < batch_size g → unpack_trial zero g = Ok g' → epoch_inv g k → epoch_inv g' k.
Proof.
  intros HB Hg' (Hsome & Hlen & Hn & Hc & Hidx & Hcrops).
  pose proof (unpack_trial_in_range _ _ _ Hg') as Hrange.
  pose proof (unpack_trial_stack_len _ _ _ Hg') as Hlen'.
  apply unpack_trial_Ok in Hg'
    as (? & ? & ? & ? & _ & _ & _ & _ & _ & _ & Hc' & Hidx' & Hcfg & _ & _ & Hy').
  destruct Hcfg as (_ & _ & HB' & HN' & _ & _ & _ & Hn' & Hcrops' & _).
  unfold epoch_inv. rewrite Hc', Hidx', HB', HN', Hn', Hcrops', Hlen'.
  split; [by rewrite Hy'|].
  split; [|repeat split; (done || lia)].
  destruct (decide (next_to_unpack g = 0)) as [Hc0|Hc0]; [|lia].
  rewrite Hc0 in *. nia.
Qed.

(** The first unpacking of an epoch starts from an empty account, whatever
    the stack held. *)
Lemma unpack_trial_first g g' :
  unpack_trial zero g = Ok g' → next_to_unpack g = 0 →
  length (indexes g) = n_trials g →
  n_crops g = n_crops_for_trial g * Z.of_nat (n_trials g) →
  epoch_inv g' 0.
Proof.
  intros Hg' Hc Hidx Hcrops.
  pose proof (unpack_trial_in_range _ _ _ Hg') as Hrange.
  pose proof (unpack_trial_stack_len _ _ _ Hg') as Hlen'.
  apply unpack_trial_Ok in Hg'
    as (? & ? & ? & ? & _ & _ & _ & _ & Hn & _ & Hc' & Hidx' & Hcfg & _ & _ & Hy').
  destruct Hcfg as (_ & _ & HB' & HN' & _ & _ & _ & Hn' & Hcrops' & _).
  unfold epoch_inv. rewrite Hc', Hidx', HB', HN', Hn', Hcrops', Hlen'.
  rewrite decide_True by done.
  split; [by rewrite Hy'|]. repeat split; (done || lia).
Qed.

Lemma unpack_trials_inv (m : nat) g g1 (k : nat) :
  0 < batch_size g → unpack_trials zero m g = Ok g1 → epoch_inv g k → epoch_inv g1 k.
Proof.
  revert g. induction m as [|m IH]; intros g HB; simpl.
  - by intros [= <-].
  - intros (g' & Hg' & Hg1)%bind_Ok Hinv.
    apply (IH g'); [|done|by eapply unpack_trial_inv].
    apply unpack_trial_Ok in Hg'
      as (_ & _ & _ & _ & _ & _ & _ & _ & _ & _ & _ & _ & (_ & _ & -> & _) & _).
    done.
Qed.

Lemma pop_batch_inv g (b : batch (A := A)) g' (k : nat) :
  0 < batch_size g → pop_batch g = Ok (b, g') → epoch_inv g k → epoch_inv g' (S k).
Proof.
  intros HB Hpop (Hsome & Hlen & Hn & Hc & Hidx & Hcrops).
  apply pop_batch_Ok in Hpop
    as (sX & sy & _ & Hsy & _ & Hly & _ & _ & _ & Hsy' & Hc' & Hidx' & Hcfg); [|lia].
  destruct Hcfg as (_ & _ & HB' & HN' & _ & _ & _ & Hn' & Hcrops' & _).
  unfold epoch_inv, stack_len in *.
  rewrite Hc', Hidx', HB', HN', Hn', Hcrops', Hsy'. rewrite Hsy in Hlen.
  split; [by eexists|]. rewrite length_drop.
  repeat split; (done || lia).
Qed.

Lemma pop_batch_same_config g (b : batch (A := A)) g' :
  pop_batch g = Ok (b, g') → same_config g g'.
Proof.
  unfold pop_batch.
  destruct (crop_stack_X g) as [sX|]; [|by destruct (crop_stack_y g)].
  destruct (crop_stack_y g) as [sy|]; [|done].
  intros (bX & _ & (by_ & _ & (rX & _ & (ry & _ & Hcat)%bind_Ok)%bind_Ok)%bind_Ok)%bind_Ok.
  apply bind_Ok in Hcat as (cat & _ & [= _ <-]). by repeat split.
Qed.

Lemma getitem_same_config g (index : Z) (b : batch (A := A)) g' :
  getitem zero g index = Some (Ok (b, g')) → same_config g g'.
Proof.
  intros (m & g1 & Hm & _ & _ & Hpop)%getitem_Ok.
  apply unpack_trials_Ok in Hm as (_ & _ & Hcfg).
  apply pop_batch_same_config in Hpop.
  apply (same_config_trans _ (set_current_batch g index)); [by repeat split|].
  by eapply same_config_trans.
Qed.

Lemma getitem_inv g (index : Z) (b : batch (A := A)) g' (k : nat) :
  0 < batch_size g → getitem zero g index = Some (Ok (b, g')) →
  epoch_inv g k → epoch_inv g' (S k).
Proof.
  intros HB (m & g1 & Hm & _ & _ & Hpop)%getitem_Ok Hinv.
  pose proof (unpack_trials_Ok _ _ _ _ Hm) as (_ & _ & (_ & _ & HB1 & _)).
  simpl in HB1.
  apply (pop_batch_inv g1 b g' k); [lia|done|].
  apply (unpack_trials_inv m (set_current_batch g index) g1 k);
    [done|done|by apply epoch_inv_current_batch].
Qed.

(** After the [__len__] batches of an epoch the stack is short of a batch. *)
Lemma epoch_end_short g (k : nat) :
  0 < batch_size g → epoch_inv g k → len g = Ok (Z.of_nat k) →
  Z.of_nat (stack_len g) < batch_size g.
Proof.
  intros HB (_ & Hlen & Hn & Hc & _ & Hcrops). unfold len, Py.true_div.
  rewrite decide_False by lia. cbn [mbind result_bind]. rewrite <- Zdiv_Qdiv.
  intros [= Hk].
  pose proof (Z.div_mod (n_crops g) (batch_size g) ltac:(lia)).
  pose proof (Z.mod_pos_bound (n_crops g) (batch_size g) HB). nia.
Qed.

Lemma on_epoch_end_length (rnd : list Z → list Z) g :
  shuffle_ok rnd → length (indexes (on_epoch_end rnd g)) = n_trials g.
Proof.
  intros Hrnd. unfold on_epoch_end. simpl.
  destruct (shuffle g); [rewrite (Permutation_length (Hrnd _))|];
    rewrite arange_length; lia.
Qed.

(** The first batch of a new epoch. *)
Lemma getitem_after_epoch (rnd : list Z → list Z) g (index : Z)
    (b : batch (A := A)) g' (k : nat) :
  0 < batch_size g → shuffle_ok rnd → epoch_inv g k → len g = Ok (Z.of_nat k) →
  getitem zero (on_epoch_end rnd g) index = Some (Ok (b, g')) →
  epoch_inv g' 1.
Proof.
  intros HB Hrnd Hinv Hlen (m & g1 & Hm & _ & Hfull & Hpop)%getitem_Ok.
  pose proof (epoch_end_short _ _ HB Hinv Hlen) as Hshort.
  destruct Hinv as (_ & _ & _ & _ & _ & Hcrops).
  destruct m as [|m].
  { injection Hm as <-. simpl in Hfull. unfold stack_len in *. simpl in Hfull. lia. }
  simpl in Hm. apply bind_Ok in Hm as (g0 & Hg0 & Hm).
  pose proof (unpack_trial_first _ _ Hg0 eq_refl (on_epoch_end_length rnd g Hrnd) Hcrops)
    as Hinv0.
  pose proof (unpack_trial_Ok _ _ _ Hg0)
    as (_ & _ & _ & _ & _ & _ & _ & _ & _ & _ & _ & _ & (_ & _ & HB0 & _) & _).
  simpl in HB0.
  pose proof (unpack_trials_Ok _ _ _ _ Hm) as (_ & _ & (_ & _ & HB1 & _)).
  apply (pop_batch_inv g1 b g' 0); [lia|done|].
  apply (unpack_trials_inv m g0 g1 0); [lia|done|done].
Qed.

Lemma init_inv (rnd : list Z → list Z) (X : tensor A) (y : list Z) (batch_size : Z)
    (n_classes : option Z) (crop_sample_size crop_step : Z) (shuffle : bool) g :
  shuffle_ok rnd →
  init zero rnd X y batch_size n_classes crop_sample_size crop_step shuffle = Ok g →
  epoch_inv g 0.
Proof.
  intros Hrnd Hinit. unfold init in Hinit.
  apply bind_Ok in Hinit as (n_per & Hn & Hg).
  eapply unpack_trial_first; [done|done| |done].
  by rewrite on_epoch_end_length.
Qed.

Lemma observed_inv g (k : nat) emitted :
  observed zero g k emitted → 0 < batch_size g → epoch_inv g k.
Proof.
  induction 1 as [rnd X y B nc W S sh g Hrnd Hinit
                 |g k emitted index b g' Hobs IH Hget
                 |g k emitted rnd index b g' Hobs IH Hlen Hrnd Hget]; intros HB.
  - by eapply init_inv.
  - destruct (getitem_same_config _ _ _ _ Hget) as (_ & _ & HBg & _).
    apply (getitem_inv g index b g' k); [lia|done|]. apply IH. lia.
  - destruct (getitem_same_config _ _ _ _ Hget) as (_ & _ & HBg & _). simpl in HBg.
    apply (getitem_after_epoch rnd g index b g' k); [lia|done| |done|done].
    apply IH. lia.
Qed.
End EpochFacts.

Section ContentFacts.
Context {A : Type} (zero : A).
Import EEGDataGenerator.
Implicit Types (g h : generator A) (emitted : list (list (list A))).

Lemma concat_add_newaxis (items : list (list (list A))) :
  concat (add_newaxis items) = items.
Proof. induction items as [|t items IH]; [done|]. simpl. by f_equal. Qed.

Lemma trial_crops_config g g' (i : Z) :
  same_config g g' → trial_crops zero g' i = trial_crops zero g i.
Proof.
  intros (HX & _ & _ & _ & _ & HW & HS & Hn & _). unfold trial_crops.
  by rewrite HX, HW, HS, Hn.
Qed.

Lemma epoch_crops_config g g' :
  same_config g g' → next_to_unpack g' = next_to_unpack g → indexes g' = indexes g →
  epoch_crops zero g' = epoch_crops zero g.
Proof.
  intros Hcfg Hc Hidx. unfold epoch_crops. rewrite Hc, Hidx. f_equal.
  apply list_fmap_ext. intros _ i _. by apply trial_crops_config.
Qed.

(** Unpacking adds the crops of one more place of [indexes]. *)
Lemma unpack_trial_epoch_crops g g' :
  unpack_trial zero g = Ok g' → 0 ≤ next_to_unpack g →
  ∃ crops,
    epoch_crops zero g' = epoch_crops zero g ++ crops
    ∧ stack_X_items g'
      = (if decide (next_to_unpack g = 0) then [] else stack_X_items g) ++ crops
    ∧ length (stack_y_items g')
      = (length (if decide (next_to_unpack g = 0%Z) then [] else stack_y_items g)
         + length crops)%nat.
Proof.
  intros Hg' Hc.
  apply unpack_trial_Ok in Hg'
    as (i & Xi & cX & yi & Hi & HXi & HcX & _ & _ & Hlen & Hc' & Hidx' & Hcfg & _ & HsX & Hsy).
  exists (t_items cX). split; [|split; [done|]].
  - unfold epoch_crops. rewrite Hc', Hidx'.
    apply index_Ok_nonneg in Hi; [|done].
    replace (Z.to_nat (next_to_unpack g + 1)) with (S (Z.to_nat (next_to_unpack g)))
      by lia.
    rewrite (take_S_r _ _ _ Hi), fmap_app, concat_app. simpl. rewrite app_nil_r.
    f_equal.
    + f_equal. apply list_fmap_ext. intros _ j _. by apply trial_crops_config.
    + rewrite (trial_crops_config g g') by done.
      unfold trial_crops. rewrite HXi. simpl. by rewrite HcX.
  - unfold stack_y_items at 1. rewrite Hsy, length_app, length_replicate. lia.
Qed.

Lemma unpack_trial_content g g' (k : nat) emitted :
  0 < batch_size g → unpack_trial zero g = Ok g' →
  epoch_inv g k → content_inv zero g k emitted → content_inv zero g' k emitted.
Proof.
  intros HB Hg' (_ & Hlen & _ & Hc & _) (Hal & HE & Hcont & Hperm).
  destruct (unpack_trial_epoch_crops _ _ Hg' ltac:(lia)) as (crops & Hec & HsX & Hsy).
  apply unpack_trial_Ok in Hg'
    as (? & ? & ? & ? & _ & _ & _ & _ & _ & _ & _ & Hidx' & Hcfg & _).
  destruct Hcfg as (_ & _ & HB' & HN' & _).
  unfold content_inv. rewrite HB', HN', Hidx', Hec, HsX, Hsy.
  destruct (decide (next_to_unpack g = 0)) as [Hc0|Hc0].
  - assert (k = 0%nat) as -> by (rewrite Hc0 in Hlen; nia).
    destruct emitted; [|done]. simpl in *.
    assert (epoch_crops zero g = []) as ->
      by (unfold epoch_crops; by rewrite Hc0).
    done.
  - rewrite length_app, Hal, app_assoc, Hcont. done.
Qed.

Lemma unpack_trial_first_content g g' :
  unpack_trial zero g = Ok g' → next_to_unpack g = 0 →
  indexes g ≡ₚ Py.arange 0 (Z.of_nat (n_trials g)) →
  content_inv zero g' 0 [].
Proof.
  intros Hg' Hc0 Hperm.
  destruct (unpack_trial_epoch_crops _ _ Hg' ltac:(lia)) as (crops & Hec & HsX & Hsy).
  apply unpack_trial_Ok in Hg'
    as (? & ? & ? & ? & _ & _ & _ & _ & _ & _ & _ & Hidx' & Hcfg & _).
  destruct Hcfg as (_ & _ & HB' & HN' & _).
  unfold content_inv. rewrite HN', Hidx', Hec, HsX, Hsy.
  rewrite !decide_True by done.
  assert (epoch_crops zero g = []) as -> by (unfold epoch_crops; by rewrite Hc0).
  done.
Qed.

Lemma unpack_trials_content (m : nat) g g1 (k : nat) emitted :
  0 < batch_size g → unpack_trials zero m g = Ok g1 →
  epoch_inv g k → content_inv zero g k emitted → content_inv zero g1 k emitted.
Proof.
  revert g. induction m as [|m IH]; intros g HB; simpl.
  - by intros [= <-].
  - intros (g' & Hg' & Hg1)%bind_Ok Hinv Hcont.
    apply (IH g'); [|done|by eapply unpack_trial_inv|by eapply unpack_trial_content].
    apply unpack_trial_Ok in Hg'
      as (? & ? & ? & ? & _ & _ & _ & _ & _ & _ & _ & _ & (_ & _ & -> & _) & _).
    done.
Qed.

Lemma pop_batch_content g (b : batch (A := A)) g' (k : nat) emitted :
  0 < batch_size g → pop_batch g = Ok (b, g') →
  content_inv zero g k emitted → content_inv zero g' (S k) (emitted ++ concat b.1).
Proof.
  intros HB Hpop (Hal & HE & Hcont & Hperm).
  pose proof (pop_batch_same_config _ _ _ Hpop) as Hcfg.
  apply pop_batch_Ok in Hpop
    as (sX & sy & HsX & Hsy & HlX & Hly & Hb1 & _ & HsX' & Hsy' & Hc' & Hidx' & _); [|lia].
  destruct b as [bX bcat]. cbn [fst] in *. subst bX.
  unfold content_inv, stack_X_items, stack_y_items in *.
  rewrite HsX, Hsy in *. rewrite HsX', Hsy'. cbn [t_items fst].
  rewrite (epoch_crops_config g g') by done.
  destruct Hcfg as (_ & _ & -> & -> & _).
  rewrite concat_add_newaxis.
  rewrite (take_ge (drop _ (t_items sX))) by (rewrite length_drop; lia).
  split; [by rewrite !length_drop, Hal|].
  split; [rewrite length_app, length_take; lia|].
  split; [|by rewrite Hidx']. by rewrite <- app_assoc, take_drop.
Qed.

Lemma getitem_content g (index : Z) (b : batch (A := A)) g' (k : nat) emitted :
  0 < batch_size g → getitem zero g index = Some (Ok (b, g')) →
  epoch_inv g k → content_inv zero g k emitted →
  content_inv zero g' (S k) (emitted ++ concat b.1).
Proof.
  intros HB (m & g1 & Hm & _ & _ & Hpop)%getitem_Ok Hinv Hcont.
  pose proof (unpack_trials_Ok _ _ _ _ Hm) as (_ & _ & (_ & _ & HB1 & _)).
  simpl in HB1.
  apply (pop_batch_content g1 b g' k); [lia|done|].
  by apply (unpack_trials_content m (set_current_batch g index) g1 k).
Qed.

Lemma on_epoch_end_perm (rnd : list Z → list Z) g :
  shuffle_ok rnd → indexes (on_epoch_end rnd g) ≡ₚ Py.arange 0 (Z.of_nat (n_trials g)).
Proof.
  intros Hrnd. unfold on_epoch_end. simpl. destruct (shuffle g); [apply Hrnd|done].
Qed.

Lemma getitem_after_epoch_content (rnd : list Z → list Z) g (index : Z)
    (b : batch (A := A)) g' (k : nat) :
  0 < batch_size g → shuffle_ok rnd → epoch_inv g k → len g = Ok (Z.of_nat k) →
  getitem zero (on_epoch_end rnd g) index = Some (Ok (b, g')) →
  content_inv zero g' 1 (concat b.1).
Proof.
  intros HB Hrnd Hinv Hlen (m & g1 & Hm & _ & Hfull & Hpop)%getitem_Ok.
  pose proof (epoch_end_short _ _ HB Hinv Hlen) as Hshort.
  destruct Hinv as (_ & _ & _ & _ & _ & Hcrops).
  destruct m as [|m].
  { injection Hm as <-. simpl in Hfull. unfold stack_len in *. simpl in Hfull. lia. }
  simpl in Hm. apply bind_Ok in Hm as (g0 & Hg0 & Hm).
  pose proof (unpack_trial_first zero _ _ Hg0 eq_refl (on_epoch_end_length rnd g Hrnd) Hcrops)
    as Hinv0.
  pose proof (unpack_trial_first_content _ _ Hg0 eq_refl (on_epoch_end_perm rnd g Hrnd))
    as Hcont0.
  pose proof (unpack_trial_Ok _ _ _ Hg0)
    as (? & ? & ? & ? & _ & _ & _ & _ & _ & _ & _ & _ & (_ & _ & HB0 & _) & _).
  simpl in HB0.
  pose proof (unpack_trials_Ok _ _ _ _ Hm) as (_ & _ & (_ & _ & HB1 & _)).
  apply (pop_batch_content g1 b g' 0 []); [lia|done|].
  apply (unpack_trials_content m g0 g1 0); [lia|done|done|done].
Qed.

Lemma init_content (rnd : list Z → list Z) (X : tensor A) (y : list Z) (batch_size : Z)
    (n_classes : option Z) (crop_sample_size crop_step : Z) (shuffle : bool) g :
  shuffle_ok rnd →
  init zero rnd X y batch_size n_classes crop_sample_size crop_step shuffle = Ok g →
  content_inv zero g 0 [].
Proof.
  intros Hrnd Hinit. unfold init in Hinit.
  apply bind_Ok in Hinit as (n_per & Hn & Hg).
  apply (unpack_trial_first_content _ _ Hg eq_refl).
  exact (on_epoch_end_perm rnd _ Hrnd).
Qed.

Lemma observed_content g (k : nat) emitted :
  observed zero g k emitted → 0 < batch_size g → content_inv zero g k emitted.
Proof.
  induction 1 as [rnd X y B nc W S sh g Hrnd Hinit
                 |g k emitted index b g' Hobs IH Hget
                 |g k emitted rnd index b g' Hobs IH Hlen Hrnd Hget]; intros HB.
  - by eapply init_content.
  - destruct (getitem_same_config _ _ _ _ _ Hget) as (_ & _ & HBg & _).
    apply (getitem_content g index b g' k); [lia|done| |apply IH; lia].
    apply (observed_inv zero g k emitted); [done|lia].
  - destruct (getitem_same_config _ _ _ _ _ Hget) as (_ & _ & HBg & _). simpl in HBg.
    apply (getitem_after_epoch_content rnd g index b g' k); [lia|done| |done|done].
    apply (observed_inv zero g k emitted); [done|lia].
Qed.
End ContentFacts.

Lemma arange_NoDup (a b : Z) : NoDup (Py.arange a b).
Proof.
  unfold Py.arange. apply NoDup_fmap_2; [|apply NoDup_seq].
  intros i j Hij. lia.
Qed.

(** C10, amended.  Epoch conservation holds under the [Sequence] protocol,
    where [on_epoch_end] is called only once the [__len__] batches of the
    epoch are out.  After the constructor and after every batch returned, in
    every epoch of a generator driven this way, the stack holds [next_to_unpack * n_crops_for_trial] crops less
    [batch_size] for each of the [k] batches returned in the epoch, and this
    number is not negative.  More precisely the crops returned in the epoch,
    followed by the crops in the stack, are the crops of the trials at the
    first [next_to_unpack] places of [indexes], in order, and these places
    name distinct trials: no crop is returned twice, none is invented. *)
Theorem epoch_conservation {A : Type} (zero : A) (g : EEGDataGenerator.generator A)
    (k : nat) (emitted : list (list (list A))) :
  EEGDataGenerator.observed zero g k emitted →
  0 < EEGDataGenerator.batch_size g →
  Z.of_nat (EEGDataGenerator.stack_len g)
  = EEGDataGenerator.next_to_unpack g * EEGDataGenerator.n_crops_for_trial g
    - EEGDataGenerator.batch_size g * Z.of_nat k
  ∧ 0 ≤ EEGDataGenerator.next_to_unpack g * EEGDataGenerator.n_crops_for_trial g
        - EEGDataGenerator.batch_size g * Z.of_nat k
  ∧ length (EEGDataGenerator.stack_X_items g) = EEGDataGenerator.stack_len g
  ∧ length emitted = (k * Z.to_nat (EEGDataGenerator.batch_size g))%nat
  ∧ emitted ++ EEGDataGenerator.stack_X_items g = EEGDataGenerator.epoch_crops zero g
  ∧ 0 ≤ EEGDataGenerator.next_to_unpack g ≤ Z.of_nat (EEGDataGenerator.n_trials g)
  ∧ NoDup (take (Z.to_nat (EEGDataGenerator.next_to_unpack g))
                (EEGDataGenerator.indexes g)).
Proof.
  intros Hobs HB.
  destruct (observed_inv zero g k emitted Hobs HB) as ([sy Hsy] & Hlen & _ & Hc & _).
  destruct (observed_content zero g k emitted Hobs HB) as (Hal & HE & Hcont & Hperm).
  split; [done|]. split; [lia|]. split.
  { rewrite Hal. unfold EEGDataGenerator.stack_y_items, EEGDataGenerator.stack_len.
    by rewrite Hsy. }
  split; [done|]. split; [done|]. split; [done|].
  apply (sublist_NoDup _ (EEGDataGenerator.indexes g)); [|apply sublist_take].
  rewrite Hperm. apply arange_NoDup.
Qed.

Lemma epoch_conservation_witness :
  EEGDataGenerator.observed 0 Sample.gen1 1 ([] ++ concat Sample.batch1.1)
  ∧ 0 < EEGDataGenerator.batch_size Sample.gen1
  ∧ Z.of_nat (EEGDataGenerator.stack_len Sample.gen1)
    = EEGDataGenerator.next_to_unpack Sample.gen1
      * EEGDataGenerator.n_crops_for_trial Sample.gen1
      - EEGDataGenerator.batch_size Sample.gen1 * Z.of_nat 1
  ∧ ([] ++ concat Sample.batch1.1) ++ EEGDataGenerator.stack_X_items Sample.gen1
    = EEGDataGenerator.epoch_crops 0 Sample.gen1.
Proof.
  assert (EEGDataGenerator.observed 0 Sample.gen1 1 ([] ++ concat Sample.batch1.1))
    as Hobs.
  { apply (EEGDataGenerator.observed_getitem 0 Sample.gen0 0 [] 0 Sample.batch1 Sample.gen1).
    - apply (EEGDataGenerator.observed_init 0 id (Tensor 1 5 [m_rows Sample.trial5]) [1]
               2 (Some 2) 3 1 false Sample.gen0).
      + intros l. reflexivity.
      + reflexivity.
    - reflexivity. }
  assert (0 < EEGDataGenerator.batch_size Sample.gen1) as HB by (simpl; lia).
  split; [exact Hobs|]. split; [exact HB|].
  destruct (epoch_conservation 0 Sample.gen1 1 _ Hobs HB)
    as (Hlen & _ & _ & _ & Hcont & _).
  split; [exact Hlen|exact Hcont].
Defined.

(** C10, as stated, fails: the claim lets the reset fall anywhere.  Two
    trials of three crops each, batches of one, and [on_epoch_end] called
    right after the constructor, while three crops wait.  The reset puts
    [next_to_unpack] back to 0 but leaves the stack: after the first batch
    of the epoch two crops wait where the account says -1; the fourth
    request finds the stack empty, unpacks the first trial again, and
    returns the crop that the first request returned. *)
Lemma on_epoch_end_mid_epoch :
  ∃ g0 b1 g1 b2 g2 b3 g3 b4 g4,
    EEGDataGenerator.init 0 id Sample.trials2 [1; 0] 1 (Some 2) 3 1 false = Ok g0
    ∧ EEGDataGenerator.len g0 = Ok 6
    ∧ EEGDataGenerator.getitem 0 (EEGDataGenerator.on_epoch_end id g0) 0
      = Some (Ok (b1, g1))
    ∧ EEGDataGenerator.stack_len g1 = 2%nat
    ∧ EEGDataGenerator.next_to_unpack g1 * EEGDataGenerator.n_crops_for_trial g1
      - EEGDataGenerator.batch_size g1 * 1 = -1
    ∧ EEGDataGenerator.getitem 0 g1 1 = Some (Ok (b2, g2))
    ∧ EEGDataGenerator.getitem 0 g2 2 = Some (Ok (b3, g3))
    ∧ EEGDataGenerator.getitem 0 g3 3 = Some (Ok (b4, g4))
    ∧ b1.1 = [[[[10; 11; 12]]]]
    ∧ b4.1 = [[[[10; 11; 12]]]].
Proof.
  eexists _, _, _, _, _, _, _, _, _.
  split; [vm_compute; reflexivity|].
  split; [vm_compute; reflexivity|].
  split; [vm_compute; reflexivity|].
  split; [vm_compute; reflexivity|].
  split; [vm_compute; reflexivity|].
  split; [vm_compute; reflexivity|].
  split; [vm_compute; reflexivity|].
  split; [vm_compute; reflexivity|].
  vm_compute. done.
Qed.

(** * No trial is missing

    On sound data a request made before the [__len__] batches of the epoch
    are out finds the trials it needs: indexing past [indexes] does not
    happen and the request returns a batch. *)

Section ProgressFacts.
Context {A : Type} (zero : A).
Import EEGDataGenerator.
Implicit Types (g h : generator A).

Lemma config_wf_same g g' : same_config g g' → config_wf g → config_wf g'.
Proof.
  intros (HX & Hy & _ & HN & Hnc & HW & HS & Hn & _).
  unfold config_wf. by rewrite HX, Hy, HN, Hnc, HW, HS, Hn.
Qed.

Lemma unpack_trial_total g :
  config_wf g → 0 ≤ next_to_unpack g < Z.of_nat (n_trials g) →
  indexes g ≡ₚ Py.arange 0 (Z.of_nat (n_trials g)) →
  (next_to_unpack g ≠ 0 → stack_wf g ∧ is_Some (crop_stack_y g)) →
  ∃ g', unpack_trial zero g = Ok g' ∧ stack_wf g'.
Proof.
  intros (HwfX & HlX & Hly & HW & HS & Hn & Hnc & Hlab) Hc Hperm Hstack.
  pose proof (Permutation_length Hperm) as Hidx. rewrite arange_length in Hidx.
  destruct (lookup_lt_is_Some_2 (indexes g) (Z.to_nat (next_to_unpack g)) ltac:(lia))
    as [i Hi].
  assert (i ∈ Py.arange 0 (Z.of_nat (n_trials g))) as Hin.
  { rewrite <- Hperm. by eapply list_elem_of_lookup_2. }
  unfold Py.arange in Hin. apply list_elem_of_fmap in Hin as (j & -> & Hj%elem_of_seq).
  simpl in Hi. replace (0 + Z.of_nat j) with (Z.of_nat j) in Hi by lia.
  destruct (lookup_lt_is_Some_2 (t_items (X g)) j ltac:(lia)) as [t Ht].
  destruct (lookup_lt_is_Some_2 (y g) j ltac:(lia)) as [c Hyc].
  assert (matrix_wf (Matrix (t_cols (X g)) t) ∧ length t = t_rows (X g)) as [Hm Hrows].
  { unfold tensor_wf in HwfX. rewrite Forall_lookup in HwfX.
    destruct (HwfX _ _ Ht) as [? ?]. done. }
  pose proof Hn as Hceil. apply n_crops_of_pos_step in Hceil; [|done].
  assert (1 ≤ n_crops_for_trial g) as Hn1 by nia.
  assert (Py.index (indexes g) (next_to_unpack g) = Ok (Z.of_nat j)) as Hi'.
  { rewrite <- (index_nat _ _ _ Hi). f_equal. lia. }
  unfold unpack_trial. rewrite Hi'. cbn [mbind result_bind].
  unfold trial_at. rewrite (index_nat _ _ _ Ht). cbn [mbind result_bind].
  rewrite (crop_X_inside zero) by (done || lia || (right; simpl; lia)).
  cbn [mbind result_bind m_rows]. rewrite (index_nat _ _ _ Hyc).
  unfold EEGDataset.crop_y, Py.repeat.
  destruct (Z.ltb_spec (n_crops_for_trial g) 0); [lia|].
  assert (0 ≤ c < n_classes g) as Hc_ok.
  { rewrite Forall_lookup in Hlab. by eapply Hlab. }
  destruct (decide (next_to_unpack g = 0)) as [Hc0|Hc0].
  - cbn [mbind result_bind]. eexists. split; [done|].
    unfold stack_wf, stack_y_items. simpl. split; [done|].
    by apply Forall_replicate.
  - destruct (Hstack Hc0) as [[HsX Hsy] [sy Hsy']].
    unfold stack_y_items in Hsy. rewrite Hsy' in Hsy |- *.
    destruct (crop_stack_X g) as [sX|]; [|done]. destruct HsX as [Hr Hcol].
    unfold append_axis0. simpl.
    rewrite !bool_decide_eq_true_2 by congruence.
    cbn [andb mbind result_bind]. eexists. split; [done|].
    unfold stack_wf, stack_y_items. simpl. split; [done|].
    apply Forall_app. split; [done|]. by apply Forall_replicate.
Qed.

(** Refilling while the epoch still owes a batch. *)
Lemma refill_total (fuel : nat) g (k : nat) emitted :
  0 < batch_size g → config_wf g → epoch_inv g k → content_inv zero g k emitted →
  (next_to_unpack g ≠ 0 → stack_wf g) →
  batch_size g * (Z.of_nat k + 1) ≤ n_crops g →
  (Z.to_nat (Z.of_nat (n_trials g) - next_to_unpack g) < fuel)%nat →
  ∃ g1, refill zero fuel g = Some (Ok g1) ∧ stack_wf g1.
Proof.
  revert g. induction fuel as [|fuel IH]; intros g HB Hcfg Hinv Hcont Hstack Howes Hfuel;
    [lia|].
  pose proof Hinv as ([sy Hsy] & Hlen & Hn & Hc & Hidx & Hcrops).
  simpl. rewrite Hsy.
  destruct (Z.ltb_spec (Z.of_nat (length sy)) (batch_size g)) as [Hshort|Hfull].
  - unfold stack_len in Hlen. rewrite Hsy in Hlen.
    assert (next_to_unpack g < Z.of_nat (n_trials g)) as Hlt by nia.
    destruct Hcont as (Hal & HE & Hcont & Hperm).
    destruct (unpack_trial_total g Hcfg ltac:(lia) Hperm) as (g' & Hg' & Hstack').
    { intros Hc0. split; [by apply Hstack|by eexists]. }
    assert (content_inv zero g k emitted) as Hcont_g by done.
    rewrite Hg'.
    pose proof (unpack_trial_inv zero _ _ k HB Hg' Hinv) as Hinv'.
    pose proof (unpack_trial_content zero _ _ k emitted HB Hg' Hinv Hcont_g) as Hcont'.
    pose proof (unpack_trial_Ok _ _ _ Hg')
      as (? & ? & ? & ? & _ & _ & _ & _ & _ & _ & Hc' & _ & Hcfg' & _).
    pose proof Hcfg' as (_ & _ & HB' & HN' & _ & _ & _ & _ & Hcrops' & _).
    apply (IH g'); [lia|by eapply config_wf_same|done|done|done|by rewrite HB', Hcrops'|].
    rewrite HN', Hc'. lia.
  - eexists. split; [done|]. apply Hstack. intros Hc0.
    unfold stack_len in Hlen. rewrite Hsy, Hc0 in Hlen. nia.
Qed.

Lemma pop_batch_total g :
  0 < batch_size g → 0 < n_classes g → stack_wf g →
  length (stack_X_items g) = length (stack_y_items g) →
  batch_size g ≤ Z.of_nat (stack_len g) →
  ∃ b g', pop_batch g = Ok (b, g') ∧ stack_wf g'.
Proof.
  intros HB Hnc [HsX Hlab] Hal Hfull. unfold pop_batch.
  unfold stack_X_items, stack_y_items, stack_len in *.
  destruct (crop_stack_X g) as [sX|]; [|done].
  destruct (crop_stack_y g) as [sy|]; [|simpl in Hfull; lia].
  rewrite !take_idx_arange by lia. cbn [mbind result_bind].
  rewrite Z.sub_0_r. change (Z.to_nat 0) with 0%nat. rewrite !drop_0.
  destruct (to_categorical_total (n_classes g) (take (Z.to_nat (batch_size g)) sy) Hnc)
    as [cat Hcat]; [by apply Forall_take|].
  rewrite Hcat. cbn [mbind result_bind]. eexists _, _. split; [done|].
  unfold stack_wf, stack_y_items. simpl. split; [done|].
  by apply Forall_take, Forall_drop.
Qed.

(** A request before the epoch is over returns. *)
Lemma getitem_total g (index : Z) (k : nat) emitted :
  0 < batch_size g → config_wf g → epoch_inv g k → content_inv zero g k emitted →
  stack_wf g →
  batch_size g * (Z.of_nat k + 1) ≤ n_crops g →
  ∃ b g', getitem zero g index = Some (Ok (b, g')) ∧ stack_wf g'.
Proof.
  intros HB Hcfg Hinv Hcont Hstack Howes.
  destruct (refill_total (fuel_of (set_current_batch g index))
              (set_current_batch g index) k emitted)
    as (g1 & Hg1 & Hstack1); try done.
  { pose proof Hinv as (_ & _ & _ & _ & Hidx & _). unfold fuel_of. simpl.
    rewrite Hidx. lia. }
  pose proof (refill_Ok _ _ _ _ Hg1) as (m & Hm & _ & _ & Hfull). simpl in Hfull.
  pose proof (unpack_trials_Ok _ _ _ _ Hm) as (_ & _ & Hcfg1).
  pose proof Hcfg1 as (_ & _ & HB1 & _ & Hnc1 & _). simpl in HB1, Hnc1.
  pose proof (unpack_trials_content zero m (set_current_batch g index) g1 k emitted
                HB Hm Hinv Hcont) as (Hal & _).
  destruct Hcfg as (_ & _ & _ & _ & _ & _ & Hnc & _).
  destruct (pop_batch_total g1) as (b & g' & Hpop & Hstack');
    [lia|lia|exact Hstack1|exact Hal|lia|].
  exists b, g'. split; [|done].
  unfold getitem, data_generation, data_generation_fuel. by rewrite Hg1, Hpop.
Qed.
End ProgressFacts.

Section ProtocolFacts.
Context {A : Type} (zero : A).
Import EEGDataGenerator.
Implicit Types (g h : generator A).

Lemma same_config_sym g g' : same_config g g' → same_config g' g.
Proof. unfold same_config. intros (?&?&?&?&?&?&?&?&?&?). by repeat split. Qed.

Lemma index_Ok_elem {T} (l : list T) (i : Z) v : Py.index l i = Ok v → v ∈ l.
Proof.
  unfold Py.index. destruct (_ <? 0); [done|].
  destruct (l !! _) eqn:Hl; [|done]. intros [= <-]. by eapply list_elem_of_lookup_2.
Qed.

Lemma unpack_trial_stack_wf g g' :
  config_wf g → unpack_trial zero g = Ok g' →
  (next_to_unpack g ≠ 0 → stack_wf g) → stack_wf g'.
Proof.
  intros (HwfX & _ & _ & _ & _ & _ & _ & Hlab) Hg' Hstack. unfold unpack_trial in Hg'.
  apply bind_Ok in Hg' as (i & Hi & (Xi & HXi & (cX & HcX & Hrest)%bind_Ok)%bind_Ok).
  destruct (crop_X_Ok_length _ _ _ _ _ _ HcX) as (_ & _ & Hrows & Hcols).
  unfold trial_at in HXi. apply bind_Ok in HXi as (t & Ht%index_Ok_elem & [= <-]).
  simpl in Hrows.
  assert (length t = t_rows (X g)) as Hlt.
  { unfold tensor_wf in HwfX. rewrite Forall_forall in HwfX. by apply HwfX. }
  rewrite Forall_forall in Hlab.
  destruct (decide (next_to_unpack g = 0)) as [Hc0|Hc0].
  - apply bind_Ok in Hrest as (yi & Hyi%index_Ok_elem & (cy & Hcy & [= <-])%bind_Ok).
    apply repeat_Ok in Hcy as [_ ->].
    unfold stack_wf, stack_y_items. simpl. split; [split; congruence|].
    apply Forall_replicate. by apply Hlab.
  - destruct (Hstack Hc0) as [HsX Hsy].
    apply bind_Ok in Hrest as (sX' & HsX' & (yi & Hyi%index_Ok_elem & (cy & Hcy & Hrest)%bind_Ok)%bind_Ok).
    apply repeat_Ok in Hcy as [_ ->].
    destruct (crop_stack_X g) as [sX|] eqn:HsXg; [|done].
    unfold stack_y_items in Hsy.
    destruct (crop_stack_y g) as [sy|] eqn:Hsyg; [|done].
    injection Hrest as <-. unfold append_axis0 in HsX'.
    destruct (_ && _); [|done]. injection HsX' as <-.
    unfold stack_wf, stack_y_items. simpl. split; [done|].
    apply Forall_app. split; [done|]. apply Forall_replicate. by apply Hlab.
Qed.

Lemma unpack_trials_stack_wf (m : nat) g g1 :
  config_wf g → unpack_trials zero m g = Ok g1 → stack_wf g → stack_wf g1.
Proof.
  revert g. induction m as [|m IH]; intros g Hcfg; simpl.
  - by intros [= <-].
  - intros (g' & Hg' & Hg1)%bind_Ok Hstack.
    apply (IH g'); [|done|by eapply unpack_trial_stack_wf].
    apply unpack_trial_Ok in Hg'
      as (? & ? & ? & ? & _ & _ & _ & _ & _ & _ & _ & _ & Hcfg' & _).
    by eapply config_wf_same.
Qed.

Lemma pop_batch_stack_wf g (b : batch (A := A)) g' :
  0 ≤ batch_size g → pop_batch g = Ok (b, g') → stack_wf g → stack_wf g'.
Proof.
  intros HB Hpop [HsX Hlab].
  pose proof (pop_batch_same_config _ _ _ Hpop) as (HX & _ & _ & _ & Hnc & HW & _).
  apply pop_batch_Ok in Hpop
    as (sX & sy & HsXg & Hsyg & _ & _ & _ & _ & HsX' & Hsy' & _); [|done].
  unfold stack_wf, stack_y_items in *.
  rewrite HsXg in HsX. rewrite Hsyg in Hlab. rewrite HsX', Hsy', HX, Hnc, HW. simpl.
  split; [done|]. by apply Forall_drop.
Qed.

Lemma getitem_stack_wf g (index : Z) (b : batch (A := A)) g' :
  0 ≤ batch_size g → config_wf g → getitem zero g index = Some (Ok (b, g')) →
  stack_wf g → stack_wf g'.
Proof.
  intros HB Hcfg (m & g1 & Hm & _ & _ & Hpop)%getitem_Ok Hstack.
  pose proof (unpack_trials_Ok _ _ _ _ Hm) as (_ & _ & (_ & _ & HB1 & _)).
  simpl in HB1.
  apply (pop_batch_stack_wf g1 b g'); [lia|done|].
  by apply (unpack_trials_stack_wf m (set_current_batch g index) g1).
Qed.

(** Every observed generator over sound data has a sound stack. *)
Lemma observed_stack_wf g (k : nat) emitted :
  observed zero g k emitted → 0 < batch_size g → config_wf g → stack_wf g.
Proof.
  induction 1 as [rnd X y B nc W S sh g Hrnd Hinit
                 |g k emitted index b g' Hobs IH Hget
                 |g k emitted rnd index b g' Hobs IH Hlen Hrnd Hget]; intros HB Hcfg.
  - unfold init in Hinit. apply bind_Ok in Hinit as (n_per & Hn & Hg).
    pose proof (unpack_trial_Ok _ _ _ Hg)
      as (? & ? & ? & ? & _ & _ & _ & _ & _ & _ & _ & _ & Hcfg' & _).
    refine (unpack_trial_stack_wf _ g _ Hg _); [|done].
    exact (config_wf_same g _ (same_config_sym _ _ Hcfg') Hcfg).
  - pose proof (getitem_same_config _ _ _ _ _ Hget) as Hcfg'.
    pose proof Hcfg' as (_ & _ & HBg & _).
    assert (config_wf g) as Hcfg_g
      by exact (config_wf_same g' _ (same_config_sym _ _ Hcfg') Hcfg).
    apply (getitem_stack_wf g index b g'); [lia|done|done|]. apply IH; [lia|done].
  - pose proof (getitem_same_config _ _ _ _ _ Hget) as Hcfg'.
    pose proof Hcfg' as (_ & _ & HBg & _). simpl in HBg.
    assert (config_wf (on_epoch_end rnd g)) as Hcfg_g
      by exact (config_wf_same g' _ (same_config_sym _ _ Hcfg') Hcfg).
    apply (getitem_stack_wf (on_epoch_end rnd g) index b g'); [simpl; lia|done|done|].
    assert (stack_wf g) as Hst by (apply IH; [lia|exact Hcfg_g]).
    exact Hst.
Qed.

(** X1. ExhaustedTrials cannot happen.  On sound data (a well-shaped
    array with one label per trial, a window that fits the trials, a positive
    step, labels below the class count), while fewer than [__len__] batches
    of the epoch are out, the next request returns a batch, whatever its
    index: the trials it needs are there. *)
Lemma observed_getitem_returns g (k : nat) emitted (index l : Z) :
  observed zero g k emitted → 0 < batch_size g → config_wf g →
  len g = Ok l → Z.of_nat k < l →
  ∃ b g', getitem zero g index = Some (Ok (b, g')).
Proof.
  intros Hobs HB Hcfg Hlen Hk.
  destruct (getitem_total zero g index k emitted) as (b & g' & Hget & _); try done.
  - by apply (observed_inv zero g k emitted).
  - by apply (observed_content zero g k emitted).
  - by apply (observed_stack_wf g k emitted).
  - unfold len, Py.true_div in Hlen. rewrite decide_False in Hlen by lia.
    cbn [mbind result_bind] in Hlen. rewrite <- Zdiv_Qdiv in Hlen.
    injection Hlen as <-.
    pose proof (Z.div_mod (n_crops g) (batch_size g) ltac:(lia)).
    pose proof (Z.mod_pos_bound (n_crops g) (batch_size g) HB). nia.
  - by exists b, g'.
Qed.

(** X2. The next epoch starts.  On sound data, once the [__len__] batches
    of an epoch are out and [on_epoch_end] has run, the first request of the
    next epoch returns a batch, provided an epoch has any batch at all. *)
Lemma observed_next_epoch_returns (rnd : list Z → list Z) g (k : nat) emitted
    (index : Z) :
  observed zero g k emitted → 0 < batch_size g → config_wf g →
  len g = Ok (Z.of_nat k) → (1 ≤ k)%nat → shuffle_ok rnd →
  ∃ b g', getitem zero (on_epoch_end rnd g) index = Some (Ok (b, g')).
Proof.
  intros Hobs HB Hcfg Hlen Hk Hrnd.
  pose proof (observed_inv zero g k emitted Hobs HB) as Hinv.
  pose proof (epoch_end_short g k HB Hinv Hlen) as Hshort.
  pose proof Hinv as ([sy Hsy] & _ & Hn & Hc & _ & Hcrops).
  set (ge := set_current_batch (on_epoch_end rnd g) index).
  assert (n_crops g = batch_size g * Z.of_nat k + n_crops g `mod` batch_size g
          ∧ 0 ≤ n_crops g `mod` batch_size g) as [Hdiv Hmod].
  { unfold len, Py.true_div in Hlen. rewrite decide_False in Hlen by lia.
    cbn [mbind result_bind] in Hlen. rewrite <- Zdiv_Qdiv in Hlen.
    injection Hlen as Hlen. rewrite <- Hlen.
    pose proof (Z.div_mod (n_crops g) (batch_size g) ltac:(lia)).
    pose proof (Z.mod_pos_bound (n_crops g) (batch_size g) HB). lia. }
  assert (0 < Z.of_nat (n_trials g)) as HN by nia.
  destruct (unpack_trial_total zero ge) as (g0 & Hg0 & Hstack0).
  { exact Hcfg. }
  { simpl. lia. }
  { exact (on_epoch_end_perm rnd g Hrnd). }
  { simpl. done. }
  pose proof (unpack_trial_first zero ge g0 Hg0 eq_refl
                (on_epoch_end_length rnd g Hrnd) Hcrops) as Hinv0.
  pose proof (unpack_trial_first_content zero ge g0 Hg0 eq_refl
                (on_epoch_end_perm rnd g Hrnd)) as Hcont0.
  pose proof (unpack_trial_Ok _ _ _ Hg0)
    as (? & ? & ? & ? & _ & _ & _ & _ & _ & _ & Hc0 & Hidx0 & Hcfg0 & _).
  pose proof Hcfg0 as (_ & _ & HB0 & HN0 & Hnc0 & _ & _ & _ & Hcrops0 & _).
  simpl in HB0, HN0, Hnc0, Hcrops0, Hc0, Hidx0.
  destruct (refill_total zero (fuel_of g0) g0 0 []) as (g1 & Hg1 & Hstack1);
    [lia|exact (config_wf_same ge _ Hcfg0 Hcfg)|done|done|done|nia| |].
  { unfold fuel_of. destruct Hinv0 as (_ & _ & _ & _ & -> & _). lia. }
  pose proof (refill_Ok _ _ _ _ Hg1) as (m & Hm & _ & _ & Hfull).
  pose proof (unpack_trials_Ok _ _ _ _ Hm) as (_ & _ & Hcfg1).
  pose proof Hcfg1 as (_ & _ & HB1 & _ & Hnc1 & _).
  pose proof (unpack_trials_content zero m g0 g1 0 [] ltac:(lia) Hm Hinv0 Hcont0)
    as (Hal & _).
  destruct Hcfg as (_ & _ & _ & _ & _ & _ & Hnc & _).
  destruct (pop_batch_total g1) as (b & g' & Hpop & _);
    [lia|lia|exact Hstack1|exact Hal|lia|].
  exists b, g'.
  assert (refill zero (fuel_of ge) ge = Some (Ok g1)) as Hrefill.
  { unfold fuel_of. simpl. rewrite Hsy.
    destruct (Z.ltb_spec (Z.of_nat (length sy)) (batch_size g)) as [_|Hge].
    2:{ unfold stack_len in Hshort. rewrite Hsy in Hshort. lia. }
    fold ge. rewrite Hg0, <- Hidx0.
    replace (Z.to_nat (Z.of_nat (length (indexes g0)) - 0)) with (fuel_of g0);
      [exact Hg1|].
    unfold fuel_of. rewrite Hc0. destruct Hinv0 as (_ & _ & _ & _ & -> & _). lia. }
  unfold getitem, data_generation, data_generation_fuel. fold ge.
  by rewrite Hrefill, Hpop.
Qed.
End ProtocolFacts.



Lemma observed_getitem_returns_witness :
  ∃ b g', EEGDataGenerator.getitem 0 Sample.gen0 0 = Some (Ok (b, g')).
Proof.
  apply (observed_getitem_returns 0 Sample.gen0 0 [] 0 1).
  - apply (EEGDataGenerator.observed_init 0 id (Tensor 1 5 [m_rows Sample.trial5]) [1]
             2 (Some 2) 3 1 false Sample.gen0); [by intros l|reflexivity].
  - simpl. lia.
  - unfold EEGDataGenerator.config_wf. simpl.
    repeat split; try lia; repeat constructor; lia.
  - reflexivity.
  - lia.
Defined.

Lemma observed_next_epoch_returns_witness :
  ∃ b g',
    EEGDataGenerator.getitem 0 (EEGDataGenerator.on_epoch_end id Sample.gen1) 0
    = Some (Ok (b, g')).
Proof.
  apply (observed_next_epoch_returns 0 id Sample.gen1 1 ([] ++ concat Sample.batch1.1) 0).
  - apply (EEGDataGenerator.observed_getitem 0 Sample.gen0 0 [] 0 Sample.batch1 Sample.gen1).
    + apply (EEGDataGenerator.observed_init 0 id (Tensor 1 5 [m_rows Sample.trial5]) [1]
               2 (Some 2) 3 1 false Sample.gen0); [by intros l|reflexivity].
    + reflexivity.
  - simpl. lia.
  - unfold EEGDataGenerator.config_wf. simpl.
    repeat split; try lia; repeat constructor; lia.
  - reflexivity.
  - lia.
  - by intros l.
Defined.

(** The sample generator in its second epoch: the crop that waited at the
    end of the first is gone, the trial is unpacked anew. *)
Example observed_second_epoch :
  ∃ b2 g2,
    EEGDataGenerator.len Sample.gen1 = Ok 1
    ∧ EEGDataGenerator.getitem 0 (EEGDataGenerator.on_epoch_end id Sample.gen1) 0
      = Some (Ok (b2, g2))
    ∧ EEGDataGenerator.observed 0 g2 1 (concat b2.1)
    ∧ concat b2.1 = [[[10; 11; 12]]; [[11; 12; 13]]]
    ∧ EEGDataGenerator.next_to_unpack g2 = 1
    ∧ EEGDataGenerator.stack_X_items g2 = [[[12; 13; 14]]].
Proof.
  eexists _, _.
  split; [vm_compute; reflexivity|].
  split; [vm_compute; reflexivity|].
  split.
  { apply (EEGDataGenerator.observed_epoch 0 Sample.gen1 1 ([] ++ concat Sample.batch1.1)
             id 0).
    - apply (EEGDataGenerator.observed_getitem 0 Sample.gen0 0 [] 0 Sample.batch1).
      + apply (EEGDataGenerator.observed_init 0 id (Tensor 1 5 [m_rows Sample.trial5]) [1]
                 2 (Some 2) 3 1 false Sample.gen0); [by intros l|reflexivity].
      + reflexivity.
    - vm_compute. reflexivity.
    - by intros l.
    - vm_compute. reflexivity. }
  vm_compute. done.
Qed.

(** * The filter bank *)

Section FilterBankFacts.
Import FilterBank.

Lemma compute_bank_fill_spec (w o : Z) (k : nat) :
  ∀ (idx : nat) (init : Z) (pre post : list (Q * Q)) (z : Q * Q),
    length pre = idx →
    compute_bank_fill w o k idx init (init + w) (pre ++ replicate k z ++ post)
    = pre ++ (band init w o <$> seq 0 k) ++ post.
Proof.
  induction k as [|k IH]; intros idx init pre post z Hpre; [done|].
  cbn [compute_bank_fill replicate]. rewrite <- Hpre.
  rewrite <- (Nat.add_0_r (length pre)), !alter_app_r.
  unfold alter. rewrite <- app_comm_cons. cbn [list_alter fst snd].
  rewrite Nat.add_0_r, cons_middle, app_assoc.
  rewrite (IH (S (length pre)) (init + w - o) _ post z)
    by (rewrite length_app; simpl; lia).
  rewrite <- app_assoc. f_equal. cbn [app seq fmap list_fmap]. f_equal.
  - unfold band. f_equal; f_equal; lia.
  - f_equal. rewrite <- fmap_S_seq, <- list_fmap_compose.
    apply list_fmap_ext. intros _ j _. unfold band. simpl. f_equal; f_equal; lia.
Qed.

Lemma bank_length_eq (m M w o : Z) :
  w ≠ o →
  Py.true_div (M - m) (w - o) ≫= (λ q, Ok (Qfloor q - 1))
  = Ok ((M - m) `div` (w - o) - 1).
Proof.
  intros Hwo. unfold Py.true_div. rewrite decide_False by lia.
  cbn [mbind result_bind]. by rewrite <- Zdiv_Qdiv.
Qed.

Lemma compute_bank_Ok (m M w o : Z) :
  w ≠ o → 1 ≤ (M - m) `div` (w - o) →
  compute_bank m M w o
  = Ok (band m w o <$> seq 0 (Z.to_nat ((M - m) `div` (w - o) - 1))).
Proof.
  intros Hwo Hq. unfold compute_bank, Py.true_div. rewrite decide_False by lia.
  cbn [mbind result_bind]. rewrite <- Zdiv_Qdiv.
  unfold zeros2, Py.repeat.
  destruct (Z.ltb_spec ((M - m) `div` (w - o) - 1) 0); [lia|].
  cbn [mbind result_bind]. f_equal.
  pose proof (compute_bank_fill_spec w o (Z.to_nat ((M - m) `div` (w - o) - 1))
                0 m [] [] (inject_Z 0, inject_Z 0) eq_refl) as Hfill.
  rewrite !app_nil_r in Hfill. exact Hfill.
Qed.

Lemma inject_Z_eq_bool (a b : Z) : Qeq_bool (inject_Z a) (inject_Z b) = bool_decide (a = b).
Proof.
  destruct (decide (a = b)) as [->|Hne].
  - by rewrite Qeq_bool_refl, bool_decide_eq_true_2.
  - rewrite bool_decide_eq_false_2 by done.
    destruct (Qeq_bool _ _) eqn:E; [|done].
    apply Qeq_bool_eq in E. unfold Qeq in E. simpl in E. lia.
Qed.

Lemma tenth_pos : (0 < tenth)%Q.
Proof. by vm_compute. Qed.

Lemma tenth_lt (w : Z) : 0 < w → (tenth < inject_Z w)%Q.
Proof. intros Hw. unfold Qlt, tenth. simpl. lia. Qed.

(** The constructor on integers, case by case. *)
Lemma init_scalar_cases (m M w o : Z) :
  init_scalar m M w o
  = if decide (w = o) then Raise ZeroDivisionError
    else if decide ((M - m) `div` (w - o) < 1) then Raise ValueError
    else if decide ((M - m) `div` (w - o) = 1) then Raise IndexError
    else Ok (Filter_bank (Num m) (Num M) (Num w) (Num o)
               (first_band m w o
                :: (band m w o <$> seq 1 (Z.to_nat ((M - m) `div` (w - o) - 2))))).
Proof.
  unfold init_scalar. destruct (decide (w = o)) as [->|Hwo].
  { unfold compute_bank, Py.true_div. by rewrite decide_True by lia. }
  destruct (decide (_ < 1)) as [Hlt|Hge].
  { unfold compute_bank, Py.true_div. rewrite decide_False by lia.
    cbn [mbind result_bind]. rewrite <- Zdiv_Qdiv. unfold zeros2, Py.repeat.
    by destruct (Z.ltb_spec ((M - m) `div` (w - o) - 1) 0); [|lia]. }
  rewrite compute_bank_Ok by (done || lia). cbn [mbind result_bind].
  destruct (decide (_ = 1)) as [->|Hne]; [done|].
  replace (Z.to_nat ((M - m) `div` (w - o) - 1))
    with (S (Z.to_nat ((M - m) `div` (w - o) - 2))) by lia.
  cbn [seq fmap list_fmap]. unfold fix_zero. cbn [bank band fst].
  replace (m + Z.of_nat 0 * (w - o)) with m by lia.
  rewrite inject_Z_eq_bool. unfold first_band.
  destruct (decide (m = 0)) as [->|Hm].
  - by rewrite bool_decide_eq_true_2.
  - rewrite bool_decide_eq_false_2 by done. unfold band.
    by replace (m + Z.of_nat 0 * (w - o)) with m by lia.
Qed.
End FilterBankFacts.

(** X4. [compute_bank] lays the bands out evenly.  When the quotient
    [(max_freq - min_freq) / (window - overlap)], rounded down, is at least
    1, the bank has one band less than this quotient; band [j] starts [j]
    steps of [window - overlap] above [min_freq] and ends [window] higher. *)
Theorem compute_bank_layout (min_freq max_freq window overlap : Z) :
  window ≠ overlap →
  1 ≤ (max_freq - min_freq) `div` (window - overlap) →
  ∃ rows,
    FilterBank.compute_bank min_freq max_freq window overlap = Ok rows
    ∧ Z.of_nat (length rows) = (max_freq - min_freq) `div` (window - overlap) - 1
    ∧ ∀ (j : nat) r, rows !! j = Some r →
        r = (inject_Z (min_freq + Z.of_nat j * (window - overlap)),
             inject_Z (min_freq + Z.of_nat j * (window - overlap) + window)).
Proof.
  intros Hwo Hq. eexists. split; [by apply compute_bank_Ok|].
  split; [rewrite length_fmap, length_seq; lia|].
  intros j r Hr. rewrite list_lookup_fmap in Hr.
  destruct (seq _ _ !! j) as [i|] eqn:Hi; [|done].
  apply lookup_seq in Hi as [-> _]. by injection Hr as <-.
Qed.

Lemma compute_bank_layout_witness :
  ∃ rows,
    FilterBank.compute_bank 0 12 6 3 = Ok rows
    ∧ Z.of_nat (length rows) = (12 - 0) `div` (6 - 3) - 1
    ∧ ∀ (j : nat) r, rows !! j = Some r →
        r = (inject_Z (0 + Z.of_nat j * (6 - 3)),
             inject_Z (0 + Z.of_nat j * (6 - 3) + 6)).
Proof. apply (compute_bank_layout 0 12 6 3); [lia|by vm_compute]. Defined.

(** X5. What the constructor does with four integers.  With
    [q = floor((max_freq - min_freq) / (window - overlap))]: equal window and
    overlap raise ZeroDivisionError; [q < 1] asks numpy for an array of
    negative length, ValueError; [q = 1] gives an empty bank and reading its
    first edge raises IndexError; from [q = 2] on the constructor returns,
    with the arguments as attributes and [q - 1] bands, the first one
    starting at 0.1 when [min_freq] is 0. *)
Theorem init_scalar_outcome (min_freq max_freq window overlap : Z) :
  let q := (max_freq - min_freq) `div` (window - overlap) in
  (window = overlap
   → FilterBank.init_scalar min_freq max_freq window overlap = Raise ZeroDivisionError)
  ∧ (window ≠ overlap → q < 1
     → FilterBank.init_scalar min_freq max_freq window overlap = Raise ValueError)
  ∧ (window ≠ overlap → q = 1
     → FilterBank.init_scalar min_freq max_freq window overlap = Raise IndexError)
  ∧ (window ≠ overlap → 2 ≤ q
     → FilterBank.init_scalar min_freq max_freq window overlap
       = Ok (FilterBank.Filter_bank
               (FilterBank.Num min_freq) (FilterBank.Num max_freq)
               (FilterBank.Num window) (FilterBank.Num overlap)
               (FilterBank.first_band min_freq window overlap
                :: (FilterBank.band min_freq window overlap
                      <$> seq 1 (Z.to_nat (q - 2)))))).
Proof.
  intros q. rewrite init_scalar_cases. fold q. repeat split.
  - intros ->. by rewrite decide_True.
  - intros Hwo Hq. by rewrite decide_False, decide_True.
  - intros Hwo Hq. by rewrite decide_False, decide_False, decide_True by lia.
  - intros Hwo Hq. by rewrite !decide_False by lia.
Qed.

Lemma init_scalar_outcome_witness :
  FilterBank.init_scalar 0 12 6 6 = Raise ZeroDivisionError
  ∧ FilterBank.init_scalar 0 2 6 3 = Raise ValueError
  ∧ FilterBank.init_scalar 0 5 6 3 = Raise IndexError
  ∧ FilterBank.init_scalar 0 12 6 3
    = Ok (FilterBank.Filter_bank
            (FilterBank.Num 0) (FilterBank.Num 12) (FilterBank.Num 6) (FilterBank.Num 3)
            [(FilterBank.tenth, inject_Z 6); (inject_Z 3, inject_Z 9);
             (inject_Z 6, inject_Z 12)]).
Proof.
  split; [|split; [|split]].
  - apply (init_scalar_outcome 0 12 6 6). lia.
  - apply (init_scalar_outcome 0 2 6 3); [lia|by vm_compute].
  - apply (init_scalar_outcome 0 5 6 3); [lia|by vm_compute].
  - apply (init_scalar_outcome 0 12 6 3); [lia|by vm_compute].
Defined.

Section FilterBankBands.
Import FilterBank.

(** The bank of a constructor that returned. *)
Lemma init_scalar_Ok_bank (m M w o : Z) (b : filter_bank) :
  init_scalar m M w o = Ok b →
  w ≠ o ∧ 2 ≤ (M - m) `div` (w - o)
  ∧ min_freq b = Num m ∧ max_freq b = Num M ∧ window b = Num w ∧ overlap b = Num o
  ∧ bank b = first_band m w o
             :: (band m w o <$> seq 1 (Z.to_nat ((M - m) `div` (w - o) - 2))).
Proof.
  rewrite init_scalar_cases. repeat case_decide; try done.
  intros [= <-]. simpl. repeat split; (done || lia).
Qed.

Lemma first_band_bounds (m w o : Z) :
  ((if decide (m = 0)%Z then tenth else inject_Z m) == (first_band m w o).1)%Q
  ∧ (first_band m w o).2 = inject_Z (m + w).
Proof.
  unfold first_band, band. case_decide; simpl.
  - subst. split; [reflexivity|]. f_equal.
  - split; [|f_equal; lia].
    replace (m + Z.of_nat 0 * (w - o)) with m by lia. reflexivity.
Qed.
End FilterBankBands.

(** X6. The constructor leaves no edge at 0.  For a bank that starts at a
    frequency that is not negative, with a positive window and a positive
    step [window - overlap], every band of the bank the constructor returns
    has [0 < low < high], which is what a band-pass design needs. *)
Theorem init_scalar_bands_positive (min_freq max_freq window overlap : Z)
    (b : FilterBank.filter_bank) :
  0 ≤ min_freq → 0 < window → overlap < window →
  FilterBank.init_scalar min_freq max_freq window overlap = Ok b →
  Forall (λ r : Q * Q, (0 < r.1)%Q ∧ (r.1 < r.2)%Q) (FilterBank.bank b).
Proof.
  intros Hm Hw Ho Hb.
  apply init_scalar_Ok_bank in Hb as (_ & _ & _ & _ & _ & _ & ->).
  constructor.
  - unfold FilterBank.first_band. case_decide; simpl.
    + split; [apply tenth_pos|by apply tenth_lt].
    + split; unfold Qlt; simpl; lia.
  - apply Forall_fmap, Forall_forall. intros j [Hj _]%elem_of_seq.
    unfold FilterBank.band. split; unfold Qlt; simpl; nia.
Qed.

Lemma init_scalar_bands_positive_witness :
  ∃ b,
    FilterBank.init_scalar 0 12 6 3 = Ok b
    ∧ Forall (λ r : Q * Q, (0 < r.1)%Q ∧ (r.1 < r.2)%Q) (FilterBank.bank b).
Proof.
  eexists. split; [reflexivity|].
  apply (init_scalar_bands_positive 0 12 6 3); [lia|lia|lia|reflexivity].
Defined.

(** X7. With an overlap of at most half the window, the bank stays inside
    the range asked for: for a positive step [window - overlap] and
    [2 * overlap <= window], no band of the bank the constructor returns
    starts below [min_freq] or ends above [max_freq]. *)
Theorem init_scalar_bands_in_range (min_freq max_freq window overlap : Z)
    (b : FilterBank.filter_bank) :
  overlap < window → 2 * overlap ≤ window →
  FilterBank.init_scalar min_freq max_freq window overlap = Ok b →
  Forall (λ r : Q * Q, (inject_Z min_freq <= r.1)%Q ∧ (r.2 <= inject_Z max_freq)%Q)
         (FilterBank.bank b).
Proof.
  intros Ho Hhalf Hb.
  apply init_scalar_Ok_bank in Hb as (_ & Hq & _ & _ & _ & _ & ->).
  pose proof (Z.div_mod (max_freq - min_freq) (window - overlap) ltac:(lia)) as Hdm.
  pose proof (Z.mod_pos_bound (max_freq - min_freq) (window - overlap) ltac:(lia)) as Hmod.
  set (q := (max_freq - min_freq) `div` (window - overlap)) in *.
  constructor.
  - destruct (first_band_bounds min_freq window overlap) as [Hlo ->].
    split.
    + rewrite <- Hlo. case_decide.
      * subst. apply Qlt_le_weak, tenth_pos.
      * apply Qle_refl.
    + rewrite <- Zle_Qle. nia.
  - apply Forall_fmap, Forall_forall. intros j [Hj Hj']%elem_of_seq.
    unfold FilterBank.band. simpl. split; rewrite <- Zle_Qle; nia.
Qed.

Lemma init_scalar_bands_in_range_witness :
  ∃ b,
    FilterBank.init_scalar 0 12 6 3 = Ok b
    ∧ Forall (λ r : Q * Q, (inject_Z 0 <= r.1)%Q ∧ (r.2 <= inject_Z 12)%Q)
             (FilterBank.bank b).
Proof.
  eexists. split; [reflexivity|].
  apply (init_scalar_bands_in_range 0 12 6 3); [lia|lia|reflexivity].
Defined.

(** The bound on the overlap is needed: with a window of 6 and an overlap of
    4 the last band asked for between 0 and 12 ends at 14. *)
Example init_scalar_beyond_max_freq :
  ∃ b,
    FilterBank.init_scalar 0 12 6 4 = Ok b
    ∧ last (FilterBank.bank b) = Some (inject_Z 8, inject_Z 14).
Proof. eexists. split; [reflexivity|]. reflexivity. Qed.

Section FilterBankLists.
Import FilterBank.

Lemma arange_cons (a b : Z) : a < b → Py.arange a b = a :: Py.arange (a + 1) b.
Proof.
  intros Hab. unfold Py.arange.
  replace (Z.to_nat (b - a)) with (S (Z.to_nat (b - (a + 1)))) by lia.
  cbn [seq fmap list_fmap]. f_equal; [lia|].
  rewrite <- fmap_S_seq, <- list_fmap_compose.
  apply list_fmap_ext. intros _ k _. simpl. lia.
Qed.

Lemma index_middle {T} (pre suf : list T) (x : T) :
  Py.index (pre ++ x :: suf) (Z.of_nat (length pre)) = Ok x.
Proof. apply index_nat. by rewrite list_lookup_middle. Qed.

Lemma merge_loop_spec (suf_m : list Z) :
  ∀ (suf_M suf_w suf_o pre_m pre_M pre_w pre_o : list Z) (acc : filter_bank),
    length pre_M = length pre_m → length pre_w = length pre_m →
    length pre_o = length pre_m →
    length suf_M = length suf_m → length suf_w = length suf_m →
    length suf_o = length suf_m →
    merge_loop (pre_m ++ suf_m) (pre_M ++ suf_M) (pre_w ++ suf_w) (pre_o ++ suf_o)
      (Py.arange (Z.of_nat (length pre_m)) (Z.of_nat (length pre_m + length suf_m))) acc
    = bs ← scalar_banks suf_m suf_M suf_w suf_o; Ok (foldl merge_banks acc bs).
Proof.
  induction suf_m as [|m suf_m IH];
    intros suf_M suf_w suf_o pre_m pre_M pre_w pre_o acc HM Hw Ho HsM Hsw Hso.
  - rewrite Nat.add_0_r. unfold Py.arange. rewrite Z.sub_diag. done.
  - destruct suf_M as [|M suf_M]; [done|]. destruct suf_w as [|w suf_w]; [done|].
    destruct suf_o as [|o suf_o]; [done|]. simpl in HsM, Hsw, Hso.
    rewrite arange_cons by (simpl; lia). cbn [merge_loop scalar_banks].
    unfold init_at. rewrite index_middle, <- HM, index_middle.
    rewrite HM, <- Hw, index_middle, Hw, <- Ho, index_middle, Ho.
    cbn [mbind result_bind].
    destruct (init_scalar m M w o) as [b|e]; [|done]. cbn [mbind result_bind].
    rewrite (cons_middle m), (cons_middle M), (cons_middle w), (cons_middle o),
      !app_assoc.
    replace (Z.of_nat (length pre_m) + 1) with (Z.of_nat (length (pre_m ++ [m])))
      by (rewrite length_app; simpl; lia).
    replace (length pre_m + length (m :: suf_m))%nat
      with (length (pre_m ++ [m]) + length suf_m)%nat
      by (rewrite length_app; simpl; lia).
    rewrite IH by (rewrite ?length_app; simpl; lia).
    by destruct (scalar_banks suf_m suf_M suf_w suf_o).
Qed.

Lemma foldl_merge_banks (bs : list filter_bank) :
  ∀ acc,
    foldl merge_banks acc bs
    = Filter_bank (foldl (λ a b, Merged a (min_freq b)) (min_freq acc) bs)
                  (foldl (λ a b, Merged a (max_freq b)) (max_freq acc) bs)
                  (foldl (λ a b, Merged a (window b)) (window acc) bs)
                  (foldl (λ a b, Merged a (overlap b)) (overlap acc) bs)
                  (bank acc ++ concat (bank <$> bs)).
Proof.
  induction bs as [|b bs IH]; intros acc.
  - simpl. rewrite app_nil_r. by destruct acc.
  - cbn [foldl]. rewrite IH. unfold merge_banks at 1 2 3 4 5. simpl.
    by rewrite <- app_assoc.
Qed.

Lemma scalar_banks_attrs (ms : list Z) :
  ∀ (Ms ws os : list Z) (bs : list filter_bank) (a1 a2 a3 : attr),
    length Ms = length ms → length ws = length ms → length os = length ms →
    scalar_banks ms Ms ws os = Ok bs →
    foldl (λ a b, Merged a (max_freq b)) a1 bs = foldl (λ a z, Merged a (Num z)) a1 Ms
    ∧ foldl (λ a b, Merged a (window b)) a2 bs = foldl (λ a z, Merged a (Num z)) a2 ws
    ∧ foldl (λ a b, Merged a (overlap b)) a3 bs = foldl (λ a z, Merged a (Num z)) a3 os.
Proof.
  induction ms as [|m ms IH]; intros Ms ws os bs a1 a2 a3 HM Hw Ho Hbs.
  - destruct Ms; [|done]. destruct ws; [|done]. destruct os; [|done].
    simpl in Hbs. by injection Hbs as <-.
  - destruct Ms as [|M Ms]; [done|]. destruct ws as [|w ws]; [done|].
    destruct os as [|o os]; [done|]. simpl in HM, Hw, Ho.
    cbn [scalar_banks] in Hbs.
    apply bind_Ok in Hbs as (b & Hb & (bs' & Hbs' & [= <-])%bind_Ok).
    cbn [foldl].
    apply init_scalar_Ok_bank in Hb as (_ & _ & _ & -> & -> & -> & _).
    apply (IH Ms ws os bs'); (done || lia).
Qed.

Lemma first_band_nonzero (m w o : Z) :
  Qeq_bool (first_band m w o).1 (inject_Z 0) = false.
Proof.
  unfold first_band. case_decide; [done|]. unfold band. cbn [fst].
  rewrite inject_Z_eq_bool. apply bool_decide_eq_false_2. lia.
Qed.
End FilterBankLists.

(** X8. The constructor on four lists of the same length.  It builds one
    bank per place with the constructor on integers, each with its own fix
    of a lower edge at 0, and fails with the first exception among them;
    the bank is their concatenation in the order of the lists; [min_freq]
    keeps the list given whereas [max_freq], [window] and [overlap] become
    the pairs nested to the left that [merge_banks] builds. *)
Theorem init_list_concat (m M w o : Z) (mins maxs windows overlaps : list Z) :
  length maxs = length mins → length windows = length mins →
  length overlaps = length mins →
  FilterBank.init_list (m :: mins) (M :: maxs) (w :: windows) (o :: overlaps)
  = bs ← FilterBank.scalar_banks (m :: mins) (M :: maxs) (w :: windows) (o :: overlaps);
    Ok (FilterBank.Filter_bank
          (FilterBank.Given (m :: mins))
          (FilterBank.merged_attr M maxs)
          (FilterBank.merged_attr w windows)
          (FilterBank.merged_attr o overlaps)
          (concat (FilterBank.bank <$> bs))).
Proof.
  intros HM Hw Ho. unfold FilterBank.init_list.
  cbn [FilterBank.scalar_banks]. unfold FilterBank.init_at.
  change (Py.index (m :: mins) 0) with (Ok m : result Z).
  change (Py.index (M :: maxs) 0) with (Ok M : result Z).
  change (Py.index (w :: windows) 0) with (Ok w : result Z).
  change (Py.index (o :: overlaps) 0) with (Ok o : result Z).
  cbn [mbind result_bind].
  destruct (FilterBank.init_scalar m M w o) as [b|e] eqn:Hb; [|done].
  cbn [mbind result_bind length].
  pose proof (merge_loop_spec mins maxs windows overlaps [m] [M] [w] [o] b
                eq_refl eq_refl eq_refl HM Hw Ho) as Hloop.
  cbn [app length] in Hloop.
  replace (Z.of_nat (S (length mins))) with (Z.of_nat (1 + length mins)) by lia.
  change (Z.of_nat 1) with 1 in Hloop. rewrite Hloop. clear Hloop.
  destruct (FilterBank.scalar_banks mins maxs windows overlaps) as [bs|e] eqn:Hbs;
    [|done].
  cbn [mbind result_bind]. rewrite foldl_merge_banks.
  destruct (scalar_banks_attrs mins maxs windows overlaps bs
              (FilterBank.max_freq b) (FilterBank.window b) (FilterBank.overlap b)
              HM Hw Ho Hbs) as (-> & -> & ->).
  apply init_scalar_Ok_bank in Hb as (_ & _ & _ & -> & -> & -> & Hrows).
  unfold FilterBank.fix_zero. cbn [FilterBank.bank].
  rewrite Hrows. cbn [app].
  destruct (FilterBank.first_band m w o) as [lo hi] eqn:Hfirst.
  pose proof (first_band_nonzero m w o) as Hnz. rewrite Hfirst in Hnz.
  cbn [fst] in Hnz. rewrite Hnz. cbn [fmap list_fmap concat].
  rewrite Hrows. done.
Qed.

Lemma init_list_concat_witness :
  FilterBank.init_list [0; 12] [12; 30] [6; 6] [3; 0]
  = bs ← FilterBank.scalar_banks [0; 12] [12; 30] [6; 6] [3; 0];
    Ok (FilterBank.Filter_bank
          (FilterBank.Given [0; 12])
          (FilterBank.merged_attr 12 [30])
          (FilterBank.merged_attr 6 [6])
          (FilterBank.merged_attr 3 [0])
          (concat (FilterBank.bank <$> bs))).
Proof. apply (init_list_concat 0 12 6 3 [12] [30] [6] [0]); reflexivity. Defined.

(** * The dataset as a whole *)

(** X9. A split that uses every trial.  When the two counts add up to the
    number of trials, with [0 <= valid_len <= train_len] and a positive
    [test_len], the three partitions put end to end are the trials and the
    labels given, in their order: every trial is in exactly one partition,
    and [len] of the dataset is the number of trials. *)
Theorem from_epo_to_dataset_partition {A : Type} (epo_X : tensor A) (epo_y : list Z)
    (train_len test_len : Z) (validation_frac : spec_float) (valid_len : Z) :
  length (t_items epo_X) = length epo_y →
  EEGDataset.valid_len_of train_len validation_frac = Ok valid_len →
  0 ≤ valid_len ≤ train_len → 0 < test_len →
  train_len + test_len = Z.of_nat (length epo_y) →
  ∃ ds,
    EEGDataset.from_epo_to_dataset epo_X epo_y train_len test_len validation_frac = Ok ds
    ∧ EEGDataset.y_train ds ++ EEGDataset.y_valid ds ++ EEGDataset.y_test ds = epo_y
    ∧ t_items (EEGDataset.X_train ds) ++ t_items (EEGDataset.X_valid ds)
        ++ t_items (EEGDataset.X_test ds) = t_items epo_X
    ∧ Z.of_nat (length (EEGDataset.y_train ds)) = train_len - valid_len
    ∧ Z.of_nat (length (EEGDataset.y_valid ds)) = valid_len
    ∧ Z.of_nat (length (EEGDataset.y_test ds)) = test_len
    ∧ EEGDataset.len ds = length epo_y.
Proof.
  intros Hlen Hv Hvalid Htest Htot.
  destruct (from_epo_to_dataset_split epo_X epo_y train_len test_len validation_frac
              valid_len Hlen Hv Hvalid Htest)
    as (ds & Hds & Hytr & Hyva & Hyte & HXtr & HXva & HXte).
  exists ds. split; [exact Hds|].
  assert (length epo_y - Z.to_nat test_len = Z.to_nat (train_len - valid_len)
                                              + Z.to_nat valid_len)%nat as Hcut by lia.
  assert (∀ {T} (l : list T), length l = length epo_y →
            take (Z.to_nat (train_len - valid_len)) l
            ++ take (Z.to_nat valid_len) (drop (Z.to_nat (train_len - valid_len)) l)
            ++ drop (length epo_y - Z.to_nat test_len) l = l) as Hjoin.
  { intros T l Hl. rewrite Hcut, <- drop_drop, take_drop. apply take_drop. }
  split; [by rewrite Hytr, Hyva, Hyte, Hjoin|].
  split; [by rewrite HXtr, HXva, HXte, Hjoin|].
  assert (Z.of_nat (length (EEGDataset.y_train ds)) = train_len - valid_len) as H1
    by (rewrite Hytr, length_take; lia).
  assert (Z.of_nat (length (EEGDataset.y_valid ds)) = valid_len) as H2
    by (rewrite Hyva, length_take, length_drop; lia).
  assert (Z.of_nat (length (EEGDataset.y_test ds)) = test_len) as H3
    by (rewrite Hyte, length_drop; lia).
  repeat split; [done|done|done|]. unfold EEGDataset.len. lia.
Qed.

Lemma from_epo_to_dataset_partition_witness :
  ∃ ds,
    EEGDataset.from_epo_to_dataset Sample.trials10 Sample.labels10 8 2 Sample.quarter
    = Ok ds
    ∧ EEGDataset.y_train ds ++ EEGDataset.y_valid ds ++ EEGDataset.y_test ds
      = Sample.labels10
    ∧ t_items (EEGDataset.X_train ds) ++ t_items (EEGDataset.X_valid ds)
        ++ t_items (EEGDataset.X_test ds) = t_items Sample.trials10
    ∧ Z.of_nat (length (EEGDataset.y_train ds)) = 8 - 2
    ∧ Z.of_nat (length (EEGDataset.y_valid ds)) = 2
    ∧ Z.of_nat (length (EEGDataset.y_test ds)) = 2
    ∧ EEGDataset.len ds = length Sample.labels10.
Proof.
  apply (from_epo_to_dataset_partition Sample.trials10 Sample.labels10 8 2
           Sample.quarter 2); [reflexivity|reflexivity|lia|lia|reflexivity].
Defined.

Section CropShapes.
Context {A : Type} (zero : A).
Implicit Types (X : tensor A) (y : list Z).

(** Assigning to a slice never changes the length of the array. *)
Lemma set_slice_length {T} (a b : Z) (vals arr arr' : list T) :
  Py.set_slice a b vals arr = Ok arr' → length arr' = length arr.
Proof.
  unfold Py.set_slice.
  pose proof (slice_bound_le (length arr) a). pose proof (slice_bound_le (length arr) b).
  set (lo := Py.slice_bound (length arr) a) in *.
  set (hi := Py.slice_bound (length arr) b) in *.
  case_decide as Hk.
  - intros [= <-]. rewrite !length_app, length_take, length_drop. lia.
  - destruct vals as [|v [|]]; try done.
    intros [= <-]. rewrite !length_app, length_take, length_drop, length_replicate. lia.
Qed.

Lemma crop_X_y_fill_length X y (n W step : Z) (k : nat) :
  ∀ (i : nat) (init stop : Z) (new_X : list (list (list A))) (new_y : list Z) r,
    EEGDataset.crop_X_y_fill zero X y n W step k i init stop new_X new_y = Ok r →
    length r.1 = length new_X ∧ length r.2 = length new_y.
Proof.
  induction k as [|k IH]; intros i init stop new_X new_y r Hr.
  - simpl in Hr. by injection Hr as <-.
  - cbn [EEGDataset.crop_X_y_fill] in Hr.
    apply bind_Ok in Hr as (Xi & _ & (cX & _ & (new_X' & HX' & Hr)%bind_Ok)%bind_Ok).
    apply bind_Ok in Hr as (yi & _ & (cy & _ & (new_y' & Hy' & Hr)%bind_Ok)%bind_Ok).
    apply IH in Hr as [-> ->].
    by rewrite (set_slice_length _ _ _ _ _ HX'), (set_slice_length _ _ _ _ _ Hy').
Qed.

(** The shape of what [crop_X_y] returns, whatever the geometry. *)
Lemma crop_X_y_shape X y (W step : Z) X' y' :
  EEGDataset.crop_X_y zero X y W step = Ok (X', y') →
  ∃ n,
    EEGDataset.n_crops_of (Z.of_nat (t_cols X)) W step = Ok n
    ∧ 0 ≤ n * Z.of_nat (length (t_items X)) ∧ 0 ≤ W
    ∧ Z.of_nat (length (t_items X')) = n * Z.of_nat (length (t_items X))
    ∧ Z.of_nat (length y') = n * Z.of_nat (length (t_items X))
    ∧ t_rows X' = t_rows X ∧ t_cols X' = Z.to_nat W.
Proof.
  unfold EEGDataset.crop_X_y. intros (n & Hn & H)%bind_Ok. exists n. split; [done|].
  unfold zeros, Py.zeros1, Py.repeat in H.
  destruct (Z.ltb_spec (n * Z.of_nat (length (t_items X))) 0); [done|].
  destruct (Z.ltb_spec W 0); [done|].
  cbn [orb mbind result_bind t_items t_rows t_cols] in H.
  apply bind_Ok in H as ([items labels] & Hfill & [= <- <-]).
  apply crop_X_y_fill_length in Hfill as [HlX Hly]. cbn [fst snd] in HlX, Hly.
  rewrite length_replicate in HlX. rewrite length_replicate in Hly.
  cbn [t_items t_rows t_cols].
  repeat split; (done || lia).
Qed.
End CropShapes.

(** X10. [make_crops] keeps the dataset consistent.  Whenever a call with a
    crop size returns, whatever the geometry, every partition has again one
    label per sample array, as the constructor demands; the channels are
    those of the dataset before and [n_samples] is the crop size. *)
Theorem make_crops_keeps_lengths {A : Type} (zero : A)
    (ds ds' : EEGDataset.dataset (list Z)) (crop_sample_size : Z)
    (crop_step : option Z) :
  EEGDataset.make_crops zero ds (Some crop_sample_size) crop_step = Ok ds' →
  length (t_items (EEGDataset.X_train ds')) = length (EEGDataset.y_train ds')
  ∧ length (t_items (EEGDataset.X_valid ds')) = length (EEGDataset.y_valid ds')
  ∧ length (t_items (EEGDataset.X_test ds')) = length (EEGDataset.y_test ds')
  ∧ EEGDataset.n_channels ds' = EEGDataset.n_channels ds
  ∧ Z.of_nat (EEGDataset.n_samples ds') = crop_sample_size.
Proof.
  unfold EEGDataset.make_crops. destruct crop_step as [step|]; [|done].
  intros ([Xtr ytr] & Htr & H)%bind_Ok.
  apply bind_Ok in H as ([Xva yva] & Hva & ([Xte yte] & Hte & [= <-])%bind_Ok).
  apply crop_X_y_shape in Htr as (n1 & _ & _ & HW & HX1 & Hy1 & Hr1 & Hc1).
  apply crop_X_y_shape in Hva as (n2 & _ & _ & _ & HX2 & Hy2 & _).
  apply crop_X_y_shape in Hte as (n3 & _ & _ & _ & HX3 & Hy3 & _).
  unfold EEGDataset.n_channels, EEGDataset.n_samples, EEGDataset.shape. simpl.
  repeat split; (done || lia).
Qed.

Lemma make_crops_keeps_lengths_witness :
  ∃ ds',
    EEGDataset.make_crops 0 Sample.dataset2 (Some 3) (Some 2) = Ok ds'
    ∧ length (t_items (EEGDataset.X_train ds')) = length (EEGDataset.y_train ds')
    ∧ length (t_items (EEGDataset.X_valid ds')) = length (EEGDataset.y_valid ds')
    ∧ length (t_items (EEGDataset.X_test ds')) = length (EEGDataset.y_test ds')
    ∧ EEGDataset.n_channels ds' = EEGDataset.n_channels Sample.dataset2
    ∧ Z.of_nat (EEGDataset.n_samples ds') = 3.
Proof.
  eexists. split; [reflexivity|].
  apply (make_crops_keeps_lengths 0 Sample.dataset2 _ 3 (Some 2)). reflexivity.
Defined.

(** * The experiment's use of the dataset *)

(** X11. Training without a crop size, and without a generator.  The
    constructor then takes the whole trial as the crop, with a step of 1
    whatever step was given, and on a dataset whose three partitions have
    trials of the same positive number of samples the cropping of [train]
    changes nothing.  [train] encodes the labels, which may fail; then, with
    no tracker in [metrics_tracker], it raises TypeError: it calls
    [MetricsTracker] with keywords that the constructor does not have.  Only
    with a tracker put there does it reach [model.fit], which receives the
    train and validation trials as they were, with their new axis, and the
    indicator rows of their labels. *)
Theorem init_train_without_crop_size {A : Type} (zero : A)
    (ds : EEGDataset.dataset (list Z)) (crop_step : option Z) (epochs : Z)
    (metrics_tracker : option ()) :
  tensor_wf (EEGDataset.X_train ds) → tensor_wf (EEGDataset.X_valid ds) →
  tensor_wf (EEGDataset.X_test ds) →
  length (EEGDataset.y_train ds) = length (t_items (EEGDataset.X_train ds)) →
  length (EEGDataset.y_valid ds) = length (t_items (EEGDataset.X_valid ds)) →
  length (EEGDataset.y_test ds) = length (t_items (EEGDataset.X_test ds)) →
  (0 < EEGDataset.n_samples ds)%nat →
  t_cols (EEGDataset.X_valid ds) = EEGDataset.n_samples ds →
  t_cols (EEGDataset.X_test ds) = EEGDataset.n_samples ds →
  DLExperiment.init_train zero ds None crop_step epochs metrics_tracker
  = match EEGDataset.to_categorical ds None with
    | Raise e => Raise e
    | Ok ds' =>
        match metrics_tracker with
        | None => Raise TypeError
        | Some _ =>
            Ok (DLExperiment.Fit_args
                  (add_newaxis (t_items (EEGDataset.X_train ds)))
                  (EEGDataset.y_train ds')
                  (add_newaxis (t_items (EEGDataset.X_valid ds)),
                   EEGDataset.y_valid ds'))
        end
    end.
Proof.
  intros Hwf1 Hwf2 Hwf3 Hl1 Hl2 Hl3 Hn Hc2 Hc3.
  unfold DLExperiment.init_train, DLExperiment.geometry, DLExperiment.train.
  unfold EEGDataset.make_crops.
  unfold EEGDataset.n_samples, EEGDataset.shape in *. cbn [snd] in *.
  rewrite !(crop_X_y_same_width zero) by (done || lia).
  cbn [mbind result_bind].
  replace (EEGDataset.Dataset (EEGDataset.X_train ds) (EEGDataset.y_train ds)
             (EEGDataset.X_valid ds) (EEGDataset.y_valid ds)
             (EEGDataset.X_test ds) (EEGDataset.y_test ds)) with ds by (by destruct ds).
  destruct (EEGDataset.to_categorical ds None) as [ds'|e]; [|done].
  cbn [mbind result_bind]. by destruct metrics_tracker as [[]|].
Qed.

Lemma init_train_without_crop_size_witness :
  DLExperiment.init_train 0 Sample.dataset01 None (Some 4) 3 None = Raise TypeError
  ∧ DLExperiment.init_train 0 Sample.dataset01 None (Some 4) 3 (Some ())
    = Ok (DLExperiment.Fit_args
            (add_newaxis (t_items Sample.trials2)) [[0; 1]; [1; 0]]
            (add_newaxis (t_items Sample.trials2), [[1; 0]; [1; 0]])).
Proof.
  split.
  - apply (init_train_without_crop_size 0 Sample.dataset01 (Some 4) 3 None);
      try (repeat constructor); try reflexivity; simpl; lia.
  - apply (init_train_without_crop_size 0 Sample.dataset01 (Some 4) 3 (Some ()));
      try (repeat constructor); try reflexivity; simpl; lia.
Defined.

(** The call as [train] writes it, and the call the constructor expects. *)
Example metrics_tracker_keywords :
  MetricsTracker.init ["dataset"; "epochs"; "n_classes"; "batch_size";
                       "h5_model_path"; "fold_stats_path"] 3 = Raise TypeError
  ∧ MetricsTracker.init ["dataset"; "epochs"; "n_classes"; "batch_size";
                         "plot_paths_dict"] 3 = Ok ().
Proof. split; reflexivity. Qed.

(** * Freezing layers *)

Section FreezeFacts.
Import DLExperiment.
Implicit Types (layers pre suf : list layer) (l : layer).

Lemma index_past {T} (ls : list T) (i : nat) :
  (length ls ≤ i)%nat → Py.index ls (Z.of_nat i) = Raise IndexError.
Proof.
  intros Hi. unfold Py.index.
  destruct (Z.ltb_spec (Z.of_nat i) 0); [lia|].
  destruct (Z.ltb_spec (Z.of_nat i) 0); [lia|].
  by rewrite Nat2Z.id, lookup_ge_None_2.
Qed.

Lemma n_freezable_cons l layers :
  n_freezable (l :: layers)
  = ((if freezable l then 1 else 0) + n_freezable layers)%nat.
Proof.
  unfold n_freezable. destruct (freezable l) eqn:Hl.
  - by rewrite filter_cons_True.
  - rewrite filter_cons_False; [done|]. by rewrite Hl.
Qed.

Lemma freeze_first_nil (n : nat) : freeze_first n [] = [].
Proof. by destruct n. Qed.

Lemma freeze_first_length (n : nat) layers :
  length (freeze_first n layers) = length layers.
Proof.
  revert n. induction layers as [|l layers IH]; intros n.
  - by rewrite freeze_first_nil.
  - destruct n as [|n]; [done|]. simpl. destruct (freezable l); simpl; by rewrite IH.
Qed.

Lemma freeze_first_lookup layers :
  ∀ (n i : nat) l,
    layers !! i = Some l →
    freeze_first n layers !! i
    = Some (if freezable l && (n_freezable (take i layers) <? n)%nat
            then freeze l else l).
Proof.
  induction layers as [|l0 layers IH]; intros n i l Hl; [done|].
  destruct n as [|n].
  { cbn [freeze_first]. rewrite Hl.
    destruct (Nat.ltb_spec (n_freezable (take i (l0 :: layers))) 0); [lia|].
    by rewrite andb_false_r. }
  destruct i as [|i].
  - injection Hl as ->. cbn [freeze_first take]. unfold n_freezable at 1.
    cbn [filter list_filter length]. rewrite andb_true_r.
    by destruct (freezable l).
  - change ((l0 :: layers) !! S i) with (layers !! i) in Hl.
    cbn [freeze_first take]. rewrite n_freezable_cons. destruct (freezable l0).
    + change ((freeze l0 :: freeze_first n layers) !! S i)
        with (freeze_first n layers !! i).
      rewrite (IH n i l Hl). do 2 f_equal.
    + change ((l0 :: freeze_first (S n) layers) !! S i)
        with (freeze_first (S n) layers !! i).
      rewrite (IH (S n) i l Hl). do 2 f_equal.
Qed.

(** The loop walking forward, [pre] being the layers behind it. *)
Lemma freeze_loop_forward suf :
  ∀ pre (fuel : nat) (N frozen : Z),
    (length suf < fuel)%nat → frozen ≤ N →
    freeze_loop fuel (pre ++ suf) N frozen (Z.of_nat (length pre)) 1
    = Some (pre ++ freeze_first (Z.to_nat (N - frozen)) suf,
            if decide (N - frozen ≤ Z.of_nat (n_freezable suf))
            then Ok () else Raise IndexError).
Proof.
  induction suf as [|l suf IH]; intros pre fuel N frozen Hfuel Hfrozen.
  - destruct fuel as [|fuel]; [simpl in Hfuel; lia|]. cbn [freeze_loop].
    rewrite freeze_first_nil. unfold n_freezable. cbn [filter list_filter length].
    destruct (Z.ltb_spec frozen N).
    + rewrite index_past by (rewrite app_nil_r; lia).
      by rewrite decide_False by lia.
    + by rewrite decide_True by lia.
  - destruct fuel as [|fuel]; [simpl in Hfuel; lia|]. cbn [freeze_loop].
    simpl in Hfuel. rewrite n_freezable_cons.
    destruct (Z.ltb_spec frozen N) as [Hlt|Hge].
    2:{ replace (Z.to_nat (N - frozen)) with 0%nat by lia.
        by rewrite decide_True by lia. }
    rewrite index_middle.
    replace (Z.to_nat (N - frozen)) with (S (Z.to_nat (N - (frozen + 1)))) by lia.
    cbn [freeze_first]. destruct (freezable l) eqn:Hl.
    + unfold position. destruct (Z.ltb_spec (Z.of_nat (length pre)) 0); [lia|].
      rewrite Nat2Z.id. rewrite <- (Nat.add_0_r (length pre)), insert_app_r.
      cbn [insert list_insert]. rewrite Nat.add_0_r.
      rewrite (cons_middle (freeze l)), app_assoc.
      replace (Z.of_nat (length pre) + 1) with (Z.of_nat (length (pre ++ [freeze l])))
        by (rewrite length_app; simpl; lia).
      rewrite IH by lia. rewrite <- app_assoc. cbn [app]. f_equal. f_equal.
      destruct (decide (N - (frozen + 1) ≤ _)), (decide (N - frozen ≤ _));
        (done || lia).
    + rewrite (cons_middle l), app_assoc.
      replace (Z.of_nat (length pre) + 1) with (Z.of_nat (length (pre ++ [l])))
        by (rewrite length_app; simpl; lia).
      rewrite IH by lia. rewrite <- app_assoc. cbn [app].
      replace (Z.to_nat (N - frozen)) with (S (Z.to_nat (N - (frozen + 1)))) by lia.
      done.
Qed.

Lemma index_mirror {T} (ls : list T) (k : nat) :
  Py.index ls (- Z.of_nat k - 1) = Py.index (reverse ls) (Z.of_nat k).
Proof.
  unfold Py.index. rewrite length_reverse.
  destruct (Z.ltb_spec (- Z.of_nat k - 1) 0); [|lia].
  destruct (Z.ltb_spec (Z.of_nat k) 0); [lia|].
  destruct (Z.ltb_spec (Z.of_nat k) 0); [lia|].
  destruct (Z.ltb_spec (- Z.of_nat k - 1 + Z.of_nat (length ls)) 0).
  - rewrite Nat2Z.id, lookup_ge_None_2; [done|]. rewrite length_reverse. lia.
  - rewrite Nat2Z.id, reverse_lookup by lia.
    by replace (Z.to_nat (- Z.of_nat k - 1 + Z.of_nat (length ls)))
      with (length ls - S k)%nat by lia.
Qed.

Lemma reverse_insert {T} (ls : list T) (k : nat) (x : T) :
  (k < length ls)%nat →
  reverse (<[(length ls - S k)%nat := x]> ls) = <[k := x]> (reverse ls).
Proof.
  intros Hk.
  rewrite !insert_take_drop by (rewrite ?length_reverse; lia).
  rewrite reverse_app, reverse_cons, reverse_drop, reverse_take, <- app_assoc.
  cbn [app]. repeat f_equal; lia.
Qed.

(** The loop walking backward is the loop walking forward on the reversed
    list. *)
Lemma freeze_loop_mirror (fuel : nat) :
  ∀ layers (N frozen : Z) (k : nat),
    freeze_loop fuel layers N frozen (- Z.of_nat k - 1) (-1)
    = (λ r, (reverse r.1, r.2))
        <$> freeze_loop fuel (reverse layers) N frozen (Z.of_nat k) 1.
Proof.
  induction fuel as [|fuel IH]; intros layers N frozen k.
  - cbn [freeze_loop]. destruct (frozen <? N); [done|].
    cbn [fmap option_fmap option_map fst snd]. by rewrite reverse_involutive.
  - cbn [freeze_loop]. destruct (frozen <? N).
    2:{ cbn [fmap option_fmap option_map fst snd]. by rewrite reverse_involutive. }
    rewrite index_mirror.
    destruct (Py.index (reverse layers) (Z.of_nat k)) as [l|e] eqn:Hl.
    2:{ cbn [fmap option_fmap option_map fst snd]. by rewrite reverse_involutive. }
    assert (k < length layers)%nat as Hk.
    { destruct (decide (k < length layers)%nat); [done|].
      rewrite index_past in Hl by (rewrite length_reverse; lia). done. }
    replace (- Z.of_nat k - 1 + -1) with (- Z.of_nat (S k) - 1) by lia.
    replace (Z.of_nat k + 1) with (Z.of_nat (S k)) by lia.
    destruct (freezable l); [|apply IH].
    rewrite IH. do 2 f_equal. unfold position. rewrite length_reverse.
    destruct (Z.ltb_spec (- Z.of_nat k - 1) 0); [|lia].
    destruct (Z.ltb_spec (Z.of_nat k) 0); [lia|].
    rewrite Nat2Z.id.
    replace (Z.to_nat (- Z.of_nat k - 1 + Z.of_nat (length layers)))
      with (length layers - S k)%nat by lia.
    by apply reverse_insert.
Qed.
End FreezeFacts.

(** X12. [freeze_layers] with a positive count [N] freezes the first [N] conv
    and dense layers of the model and nothing else: a layer becomes
    untrainable exactly when its name starts with conv or dense and fewer
    than [N] such layers come before it; every other layer is left as it
    was.  The loop always ends.  It ends with IndexError, past the last
    layer, exactly when the model has fewer than [N] conv and dense layers,
    and the layers frozen on the way stay frozen. *)
Theorem freeze_layers_forward (layers : list DLExperiment.layer) (N : Z) :
  0 < N →
  ∃ layers',
    DLExperiment.freeze_layers layers N
    = Some (layers',
            if decide (N ≤ Z.of_nat (DLExperiment.n_freezable layers))
            then Ok () else Raise IndexError)
    ∧ length layers' = length layers
    ∧ ∀ (i : nat) l, layers !! i = Some l →
        layers' !! i
        = Some (if DLExperiment.freezable l
                   && (Z.of_nat (DLExperiment.n_freezable (take i layers)) <? N)
                then DLExperiment.freeze l else l).
Proof.
  intros HN. exists (DLExperiment.freeze_first (Z.to_nat N) layers).
  split; [|split].
  - unfold DLExperiment.freeze_layers. rewrite decide_False by lia.
    destruct (Z.ltb_spec 0 N); [|lia].
    pose proof (freeze_loop_forward layers [] (S (length layers)) N 0
                  ltac:(lia) ltac:(lia)) as Hloop.
    cbn [app length] in Hloop. change (Z.of_nat 0) with 0 in Hloop.
    rewrite Hloop, Z.sub_0_r. done.
  - apply freeze_first_length.
  - intros i l Hl. rewrite (freeze_first_lookup layers _ i l Hl). do 2 f_equal.
    destruct (Nat.ltb_spec (DLExperiment.n_freezable (take i layers)) (Z.to_nat N)),
      (Z.ltb_spec (Z.of_nat (DLExperiment.n_freezable (take i layers))) N);
      (done || lia).
Qed.

Lemma freeze_layers_forward_witness :
  ∃ layers',
    DLExperiment.freeze_layers DLExperiment.sample_layers 2
    = Some (layers',
            if decide (2 ≤ Z.of_nat (DLExperiment.n_freezable DLExperiment.sample_layers))
            then Ok () else Raise IndexError)
    ∧ length layers' = length DLExperiment.sample_layers
    ∧ ∀ (i : nat) l, DLExperiment.sample_layers !! i = Some l →
        layers' !! i
        = Some (if DLExperiment.freezable l
                   && (Z.of_nat (DLExperiment.n_freezable
                                   (take i DLExperiment.sample_layers)) <? 2)
                then DLExperiment.freeze l else l).
Proof. apply (freeze_layers_forward DLExperiment.sample_layers 2). lia. Defined.

(** X13. A negative count freezes from the end: [freeze_layers] with [-N]
    does to the model what [freeze_layers] with [N] does to the model with
    its layers in reverse order, exception included. *)
Theorem freeze_layers_mirror (layers : list DLExperiment.layer) (N : Z) :
  0 < N →
  DLExperiment.freeze_layers layers (- N)
  = (λ r, (reverse r.1, r.2)) <$> DLExperiment.freeze_layers (reverse layers) N.
Proof.
  intros HN. unfold DLExperiment.freeze_layers. rewrite !decide_False by lia.
  destruct (Z.ltb_spec 0 (- N)); [lia|]. destruct (Z.ltb_spec 0 N); [|lia].
  rewrite Z.opp_involutive, length_reverse.
  exact (freeze_loop_mirror (S (length layers)) layers N 0 0).
Qed.

Lemma freeze_layers_mirror_witness :
  DLExperiment.freeze_layers DLExperiment.sample_layers (- 2)
  = (λ r, (reverse r.1, r.2))
      <$> DLExperiment.freeze_layers (reverse DLExperiment.sample_layers) 2.
Proof. apply (freeze_layers_mirror DLExperiment.sample_layers 2). lia. Defined.

Section FreezeBackward.
Import DLExperiment.

Lemma n_freezable_reverse (layers : list layer) :
  n_freezable (reverse layers) = n_freezable layers.
Proof. unfold n_freezable. by rewrite filter_reverse, length_reverse. Qed.

(** The layers a negative count leaves. *)
Lemma freeze_layers_negative (layers : list layer) (N : Z) :
  0 < N →
  freeze_layers layers (- N)
  = Some (reverse (freeze_first (Z.to_nat N) (reverse layers)),
          if decide (N ≤ Z.of_nat (n_freezable layers))
          then Ok () else Raise IndexError).
Proof.
  intros HN. unfold freeze_layers. rewrite !decide_False by lia.
  destruct (Z.ltb_spec 0 (- N)); [lia|].
  rewrite Z.opp_involutive.
  pose proof (freeze_loop_mirror (S (length layers)) layers N 0 0) as Hmirror.
  change (- Z.of_nat 0 - 1) with (-1) in Hmirror.
  change (Z.of_nat 0) with 0 in Hmirror. rewrite Hmirror. clear Hmirror.
  pose proof (freeze_loop_forward (reverse layers) [] (S (length layers)) N 0
                ltac:(rewrite length_reverse; lia) ltac:(lia)) as Hloop.
  cbn [app length] in Hloop. change (Z.of_nat 0) with 0 in Hloop.
  rewrite Hloop, Z.sub_0_r, n_freezable_reverse. done.
Qed.
End FreezeBackward.

(** X14. With a negative count [-N] the last [N] conv and dense layers are
    frozen and nothing else: a layer becomes untrainable exactly when its
    name starts with conv or dense and fewer than [N] such layers come after
    it.  IndexError is raised exactly when the model has fewer than [N] conv
    and dense layers. *)
Theorem freeze_layers_backward (layers : list DLExperiment.layer) (N : Z) :
  0 < N →
  ∃ layers',
    DLExperiment.freeze_layers layers (- N)
    = Some (layers',
            if decide (N ≤ Z.of_nat (DLExperiment.n_freezable layers))
            then Ok () else Raise IndexError)
    ∧ length layers' = length layers
    ∧ ∀ (i : nat) l, layers !! i = Some l →
        layers' !! i
        = Some (if DLExperiment.freezable l
                   && (Z.of_nat (DLExperiment.n_freezable (drop (S i) layers)) <? N)
                then DLExperiment.freeze l else l).
Proof.
  intros HN. eexists. split; [by apply freeze_layers_negative|].
  split; [by rewrite length_reverse, freeze_first_length, length_reverse|].
  intros i l Hl. pose proof (lookup_lt_Some _ _ _ Hl) as Hi.
  rewrite reverse_lookup by (rewrite freeze_first_length, length_reverse; lia).
  rewrite freeze_first_length, length_reverse.
  assert (reverse layers !! (length layers - S i)%nat = Some l) as Hrev.
  { rewrite reverse_lookup by lia.
    by replace (length layers - S (length layers - S i))%nat with i by lia. }
  rewrite (freeze_first_lookup _ _ _ l Hrev). do 2 f_equal.
  rewrite take_reverse, n_freezable_reverse.
  replace (length layers - (length layers - S i))%nat with (S i) by lia.
  destruct (Nat.ltb_spec (DLExperiment.n_freezable (drop (S i) layers)) (Z.to_nat N)),
    (Z.ltb_spec (Z.of_nat (DLExperiment.n_freezable (drop (S i) layers))) N);
    (done || lia).
Qed.

Lemma freeze_layers_backward_witness :
  ∃ layers',
    DLExperiment.freeze_layers DLExperiment.sample_layers (- 4)
    = Some (layers',
            if decide (4 ≤ Z.of_nat (DLExperiment.n_freezable DLExperiment.sample_layers))
            then Ok () else Raise IndexError)
    ∧ length layers' = length DLExperiment.sample_layers
    ∧ ∀ (i : nat) l, DLExperiment.sample_layers !! i = Some l →
        layers' !! i
        = Some (if DLExperiment.freezable l
                   && (Z.of_nat (DLExperiment.n_freezable
                                   (drop (S i) DLExperiment.sample_layers)) <? 4)
                then DLExperiment.freeze l else l).
Proof. apply (freeze_layers_backward DLExperiment.sample_layers 4). lia. Defined.

(** The sample model: two layers asked for from the end, and four asked for
    where there are three. *)
Example freeze_layers_sample :
  DLExperiment.freeze_layers DLExperiment.sample_layers (- 2)
  = Some ([DLExperiment.Layer "input_1" true; DLExperiment.Layer "conv2d_1" true;
           DLExperiment.Layer "batch_norm" true; DLExperiment.Layer "conv2d_2" false;
           DLExperiment.Layer "dense_1" false], Ok ())
  ∧ DLExperiment.freeze_layers DLExperiment.sample_layers 4
    = Some ([DLExperiment.Layer "input_1" true; DLExperiment.Layer "conv2d_1" false;
             DLExperiment.Layer "batch_norm" true; DLExperiment.Layer "conv2d_2" false;
             DLExperiment.Layer "dense_1" false], Raise IndexError).
Proof. split; reflexivity. Qed.

(** * Folds *)

Section FoldFacts.

Lemma arange_app (a b c : Z) :
  a ≤ b → b ≤ c → Py.arange a c = Py.arange a b ++ Py.arange b c.
Proof.
  intros Hab Hbc. unfold Py.arange.
  replace (Z.to_nat (c - a)) with (Z.to_nat (b - a) + Z.to_nat (c - b))%nat by lia.
  rewrite seq_app, fmap_app. f_equal. cbn [Nat.add].
  replace (seq (Z.to_nat (b - a)) (Z.to_nat (c - b)))
    with (Nat.add (Z.to_nat (b - a)) <$> seq 0 (Z.to_nat (c - b)))
    by (rewrite fmap_add_seq; f_equal; lia).
  rewrite <- list_fmap_compose.
  apply list_fmap_ext. intros _ k _. simpl. lia.
Qed.

Lemma elem_of_arange (a b x : Z) : x ∈ Py.arange a b ↔ a ≤ x < b.
Proof.
  unfold Py.arange. rewrite list_elem_of_fmap. split.
  - intros (k & -> & Hk%elem_of_seq). lia.
  - intros Hx. exists (Z.to_nat (x - a)). split; [lia|]. apply elem_of_seq. lia.
Qed.

Lemma arange_sorted (a b : Z) : StronglySorted Z.lt (Py.arange a b).
Proof.
  destruct (decide (a ≤ b)) as [Hab|Hab].
  2:{ unfold Py.arange. replace (Z.to_nat (b - a)) with 0%nat by lia. constructor. }
  remember (Z.to_nat (b - a)) as n eqn:Hn. revert a Hab Hn.
  induction n as [|n IH]; intros a Hab Hn.
  - unfold Py.arange. rewrite <- Hn. constructor.
  - rewrite arange_cons by lia. constructor; [apply IH; lia|].
    apply Forall_forall. intros x Hx%elem_of_arange. lia.
Qed.

Lemma sorted_lt_le (l : list Z) : StronglySorted Z.lt l → StronglySorted Z.le l.
Proof.
  induction 1 as [|x l _ IH Hx]; constructor; [done|].
  eapply Forall_impl; [exact Hx|]. intros y Hy. simpl in *. lia.
Qed.

Lemma sorted_le_lt (l : list Z) : StronglySorted Z.le l → NoDup l → StronglySorted Z.lt l.
Proof.
  induction 1 as [|x l _ IH Hx]; intros Hnd; [constructor|].
  apply NoDup_cons in Hnd as [Hnot Hnd]. constructor; [by apply IH|].
  rewrite Forall_forall in Hx. apply Forall_forall. intros y Hy.
  pose proof (Hx y Hy). assert (x ≠ y) by (intros ->; done). lia.
Qed.

Lemma sorted_filter (P : Z → Prop) `{!∀ x, Decision (P x)} (l : list Z) :
  StronglySorted Z.lt l → StronglySorted Z.lt (filter P l).
Proof.
  induction 1 as [|x l _ IH Hx]; [constructor|].
  destruct (decide (P x)).
  - rewrite filter_cons_True by done. constructor; [done|].
    apply Forall_forall. intros y [_ Hy]%list_elem_of_filter.
    rewrite Forall_forall in Hx. by apply Hx.
  - by rewrite filter_cons_False.
Qed.

Lemma unique_sorted (l : list Z) : StronglySorted Z.lt (Py.unique l).
Proof.
  unfold Py.unique. apply sorted_le_lt.
  - apply (StronglySorted_merge_sort Z.le).
  - rewrite merge_sort_Permutation. apply NoDup_remove_dups.
Qed.

Lemma elem_of_unique (l : list Z) (x : Z) : x ∈ Py.unique l ↔ x ∈ l.
Proof. unfold Py.unique. by rewrite merge_sort_Permutation, elem_of_remove_dups. Qed.

(** A range is already what [unique] makes of it. *)
Lemma unique_arange (a b : Z) : Py.unique (Py.arange a b) = Py.arange a b.
Proof.
  apply (StronglySorted_unique Z.le).
  - apply sorted_lt_le, unique_sorted.
  - apply sorted_lt_le, arange_sorted.
  - apply NoDup_Permutation.
    + unfold Py.unique. rewrite merge_sort_Permutation. apply NoDup_remove_dups.
    + apply arange_NoDup.
    + intros x. apply elem_of_unique.
Qed.

Lemma filter_all {T} (P : T → Prop) `{!∀ x, Decision (P x)} (l : list T) :
  Forall P l → filter P l = l.
Proof.
  induction 1 as [|x l Hx _ IH]; [done|]. by rewrite filter_cons_True, IH.
Qed.

Lemma filter_none {T} (P : T → Prop) `{!∀ x, Decision (P x)} (l : list T) :
  Forall (λ x, ¬ P x) l → filter P l = [].
Proof.
  induction 1 as [|x l Hx _ IH]; [done|]. by rewrite filter_cons_False.
Qed.

(** Taking a range out of a range around it. *)
Lemma setdiff1d_arange (n a b : Z) :
  0 ≤ a → a ≤ b → b ≤ n →
  Numpy.setdiff1d (Py.arange 0 n) (Py.arange a b) = Py.arange 0 a ++ Py.arange b n.
Proof.
  intros Ha Hab Hbn. unfold Numpy.setdiff1d. rewrite unique_arange.
  rewrite (arange_app 0 a n), (arange_app a b n) by lia.
  rewrite !filter_app.
  rewrite (filter_all _ (Py.arange 0 a)), (filter_none _ (Py.arange a b)),
    (filter_all _ (Py.arange b n)); [done| | |];
    apply Forall_forall; intros x Hx%elem_of_arange; rewrite elem_of_arange; lia.
Qed.
End FoldFacts.

(** X15. Folds of a cross-subject experiment.  When every subject's range
    [[first, last)] lies inside the trials, there is one fold per subject:
    its test set is the subject's range and its train set is every trial
    before the range followed by every trial after it. *)
Theorem create_folds_cross_subject (subject_indexes : list (Z * Z))
    (fold_file : option (list FBCSPrLDAExperiment.fold)) (n_folds : Z)
    (clean_trial_mask : list bool) (get_balanced_batches : Z → Z → list (list Z)) :
  Forall (λ r : Z * Z, 0 ≤ r.1 ∧ r.1 ≤ r.2 ∧ r.2 ≤ Numpy.count_true clean_trial_mask)
         subject_indexes →
  FBCSPrLDAExperiment.create_folds (Some subject_indexes) fold_file n_folds
    clean_trial_mask get_balanced_batches
  = Ok (Z.of_nat (length subject_indexes),
        (λ r : Z * Z,
           FBCSPrLDAExperiment.Fold
             (Py.arange 0 r.1 ++ Py.arange r.2 (Numpy.count_true clean_trial_mask))
             (Py.arange r.1 r.2)) <$> subject_indexes).
Proof.
  intros Hin. unfold FBCSPrLDAExperiment.create_folds.
  rewrite length_fmap. do 2 f_equal.
  unfold FBCSPrLDAExperiment.train_test_folds. rewrite <- list_fmap_compose.
  apply Forall_fmap_ext. eapply Forall_impl; [exact Hin|].
  intros [a b] (Ha & Hab & Hb). simpl in *. by rewrite setdiff1d_arange.
Qed.

Lemma create_folds_cross_subject_witness :
  FBCSPrLDAExperiment.create_folds (Some [(0, 2); (2, 3)]) None 5
    [true; true; false; true] (λ _ _, [])
  = Ok (Z.of_nat (length [(0, 2); (2, 3)]),
        (λ r : Z * Z,
           FBCSPrLDAExperiment.Fold
             (Py.arange 0 r.1
              ++ Py.arange r.2 (Numpy.count_true [true; true; false; true]))
             (Py.arange r.1 r.2)) <$> [(0, 2); (2, 3)]).
Proof.
  apply (create_folds_cross_subject [(0, 2); (2, 3)] None 5 [true; true; false; true]).
  constructor; [repeat split; by vm_compute|].
  constructor; [repeat split; by vm_compute|]. constructor.
Defined.

(** X16. No fold trains on what it tests.  Unless the folds are read from a
    file or the single fold of [n_folds = 0] is asked for, the train set of
    every fold holds, in increasing order and once each, exactly the trials
    among [0 .. n_trials - 1] that are not in its test set. *)
Theorem create_folds_train_excludes_test (cross_subject_object : option (list (Z * Z)))
    (n_folds : Z) (clean_trial_mask : list bool)
    (get_balanced_batches : Z → Z → list (list Z))
    (n : Z) (folds : list FBCSPrLDAExperiment.fold) (f : FBCSPrLDAExperiment.fold) :
  (cross_subject_object = None → n_folds ≠ 0) →
  FBCSPrLDAExperiment.create_folds cross_subject_object None n_folds
    clean_trial_mask get_balanced_batches = Ok (n, folds) →
  f ∈ folds →
  StronglySorted Z.lt (FBCSPrLDAExperiment.train f)
  ∧ ∀ x, x ∈ FBCSPrLDAExperiment.train f
         ↔ 0 ≤ x < Numpy.count_true clean_trial_mask ∧ x ∉ FBCSPrLDAExperiment.test f.
Proof.
  intros Hn Hfolds Hf.
  assert (∃ batches,
            folds = FBCSPrLDAExperiment.train_test_folds
                      (Numpy.count_true clean_trial_mask) batches) as [batches ->].
  { unfold FBCSPrLDAExperiment.create_folds in Hfolds.
    destruct cross_subject_object as [subject_indexes|].
    - injection Hfolds as _ <-. by eexists.
    - rewrite decide_False in Hfolds by auto. injection Hfolds as _ <-. by eexists. }
  unfold FBCSPrLDAExperiment.train_test_folds in Hf.
  apply list_elem_of_fmap in Hf as (batch & -> & _). simpl.
  unfold Numpy.setdiff1d. split.
  - apply sorted_filter, unique_sorted.
  - intros x. rewrite list_elem_of_filter, elem_of_unique, elem_of_arange. tauto.
Qed.

Lemma create_folds_train_excludes_test_witness :
  StronglySorted Z.lt [0; 2]
  ∧ ∀ x, x ∈ [0; 2] ↔ 0 ≤ x < Numpy.count_true [true; true; false; true] ∧ x ∉ [1; 7].
Proof.
  apply (create_folds_train_excludes_test None 2 [true; true; false; true]
           (λ _ _, [[1; 7]; [0; 2]]) 2
           [FBCSPrLDAExperiment.Fold [0; 2] [1; 7];
            FBCSPrLDAExperiment.Fold [1] [0; 2]]
           (FBCSPrLDAExperiment.Fold [0; 2] [1; 7])).
  - done.
  - reflexivity.
  - apply list_elem_of_here.
Defined.

Section MaskFacts.
Context {T : Type}.
Implicit Types (l : list T) (mask : list bool).

(** The two slices of the [n_folds = 0] branch. *)
Lemma slice_but_last_160 l : Py.slice 0 (-160) l = take (length l - 160) l.
Proof.
  unfold Py.slice. rewrite (slice_bound_in _ 0) by lia.
  rewrite (slice_bound_neg _ (-160)) by lia. rewrite drop_0. f_equal. simpl. lia.
Qed.

Lemma slice_last_160 l : Py.slice_from (-160) l = drop (length l - 160) l.
Proof. unfold Py.slice_from. by rewrite slice_bound_neg by lia. Qed.

Lemma select_app l1 l2 mask1 mask2 :
  length mask1 = length l1 →
  Numpy.select (l1 ++ l2) (mask1 ++ mask2)
  = Numpy.select l1 mask1 ++ Numpy.select l2 mask2.
Proof.
  revert mask1. induction l1 as [|v l1 IH]; intros [|b mask1] Hlen; try done.
  simpl in *. rewrite IH by lia. by destruct b.
Qed.

Lemma select_Forall (P : T → Prop) l mask : Forall P l → Forall P (Numpy.select l mask).
Proof.
  intros Hl. revert mask. induction Hl as [|v l Hv _ IH]; intros [|b mask]; simpl;
    try constructor.
  destruct b; [constructor; [done|]|]; apply IH.
Qed.

Lemma select_length l mask :
  length mask = length l → Z.of_nat (length (Numpy.select l mask)) = Numpy.count_true mask.
Proof.
  revert mask. induction l as [|v l IH]; intros [|b mask] Hlen; try done.
  simpl in Hlen. unfold Numpy.count_true. cbn [fmap list_fmap foldr Numpy.select].
  fold (Numpy.count_true mask). rewrite <- IH by lia. destruct b; simpl; lia.
Qed.
End MaskFacts.

(** X17. The single fold of [n_folds = 0].  The call never fails.  The
    train set followed by the test set is the list of the clean trials in
    increasing order; the test set holds those among the last 160 trials and
    the train set those before, so that a recording of at most 160 trials
    leaves nothing to train on.  Together they hold as many trials as
    [n_trials] counts. *)
Theorem schirrmeister_fold_split (clean_trial_mask : list bool) :
  ∃ f,
    FBCSPrLDAExperiment.schirrmeister_fold clean_trial_mask = Ok f
    ∧ FBCSPrLDAExperiment.train f ++ FBCSPrLDAExperiment.test f
      = Numpy.select (Py.arange 0 (Z.of_nat (length clean_trial_mask))) clean_trial_mask
    ∧ Forall (λ i, 0 ≤ i < Z.of_nat (length clean_trial_mask) - 160)
             (FBCSPrLDAExperiment.train f)
    ∧ Forall (λ i, 0 ≤ i ∧ Z.of_nat (length clean_trial_mask) - 160 ≤ i
                   ∧ i < Z.of_nat (length clean_trial_mask))
             (FBCSPrLDAExperiment.test f)
    ∧ Z.of_nat (length (FBCSPrLDAExperiment.train f)
                + length (FBCSPrLDAExperiment.test f))
      = Numpy.count_true clean_trial_mask.
Proof.
  set (n := length clean_trial_mask).
  set (idx := Py.arange 0 (Z.of_nat n)).
  assert (length idx = n) as Hidx by (unfold idx; rewrite arange_length; lia).
  assert (idx = Py.arange 0 (Z.of_nat (n - 160)) ++ Py.arange (Z.of_nat (n - 160)) (Z.of_nat n))
    as Hsplit by (apply arange_app; lia).
  assert (take (n - 160) idx = Py.arange 0 (Z.of_nat (n - 160))) as Htake.
  { rewrite Hsplit, take_app_length'; [done|]. rewrite arange_length. lia. }
  assert (drop (n - 160) idx = Py.arange (Z.of_nat (n - 160)) (Z.of_nat n)) as Hdrop.
  { rewrite Hsplit, drop_app_length'; [done|]. rewrite arange_length. lia. }
  unfold FBCSPrLDAExperiment.schirrmeister_fold. fold n idx.
  rewrite !slice_but_last_160, !slice_last_160, Hidx. fold n.
  unfold Numpy.mask_select.
  rewrite !decide_True by (rewrite ?length_take, ?length_drop; lia).
  cbn [mbind result_bind]. eexists. split; [reflexivity|].
  cbn [FBCSPrLDAExperiment.train FBCSPrLDAExperiment.test].
  split; [|split; [|split]].
  - rewrite <- select_app by (rewrite !length_take; lia). by rewrite !take_drop.
  - apply select_Forall. rewrite Htake. apply Forall_forall.
    intros x Hx%elem_of_arange. lia.
  - apply select_Forall. rewrite Hdrop. apply Forall_forall.
    intros x Hx%elem_of_arange. lia.
  - rewrite <- length_app, <- select_app by (rewrite !length_take; lia).
    rewrite !take_drop. apply select_length. lia.
Qed.

(** Four trials, one of them marked as not clean: all of the clean ones are
    test trials. *)
Example schirrmeister_fold_short :
  FBCSPrLDAExperiment.schirrmeister_fold [true; true; false; true]
  = Ok (FBCSPrLDAExperiment.Fold [] [0; 1; 3]).
Proof. reflexivity. Qed.

(** * The generator at its edges *)

Section GeneratorEdges.
Context {A : Type} (zero : A).
Import EEGDataGenerator.
Implicit Types (g h : generator A).

(** Refilling when the epoch owes no batch any more: the trials run out. *)
Lemma refill_exhausted (fuel : nat) g (k : nat) emitted :
  0 < batch_size g → config_wf g → epoch_inv g k → content_inv zero g k emitted →
  (next_to_unpack g ≠ 0 → stack_wf g) →
  n_crops g < batch_size g * (Z.of_nat k + 1) →
  (Z.to_nat (Z.of_nat (n_trials g) - next_to_unpack g) < fuel)%nat →
  refill zero fuel g = Some (Raise IndexError).
Proof.
  revert g. induction fuel as [|fuel IH]; intros g HB Hcfg Hinv Hcont Hstack Hout Hfuel;
    [lia|].
  pose proof Hinv as ([sy Hsy] & Hlen & Hn & Hc & Hidx & Hcrops).
  simpl. rewrite Hsy. unfold stack_len in Hlen. rewrite Hsy in Hlen.
  destruct (Z.ltb_spec (Z.of_nat (length sy)) (batch_size g)) as [Hshort|Hfull]; [|nia].
  destruct (decide (next_to_unpack g < Z.of_nat (n_trials g))) as [Hlt|Hend].
  - destruct Hcont as (Hal & HE & Hcont & Hperm).
    destruct (unpack_trial_total zero g Hcfg ltac:(lia) Hperm) as (g' & Hg' & Hstack').
    { intros Hc0. split; [by apply Hstack|by eexists]. }
    assert (content_inv zero g k emitted) as Hcont_g by done.
    rewrite Hg'.
    pose proof (unpack_trial_inv zero _ _ k HB Hg' Hinv) as Hinv'.
    pose proof (unpack_trial_content zero _ _ k emitted HB Hg' Hinv Hcont_g) as Hcont'.
    pose proof (unpack_trial_Ok _ _ _ Hg')
      as (? & ? & ? & ? & _ & _ & _ & _ & _ & _ & Hc' & _ & Hcfg' & _).
    pose proof Hcfg' as (_ & _ & HB' & HN' & _ & _ & _ & _ & Hcrops' & _).
    apply (IH g'); [lia|by eapply config_wf_same|done|done|done|by rewrite HB', Hcrops'|].
    rewrite HN', Hc'. lia.
  - unfold unpack_trial.
    replace (next_to_unpack g) with (Z.of_nat (n_trials g)) by lia.
    by rewrite index_past by lia.
Qed.

(** The index of the request is only stored. *)
Lemma unpack_trial_index g (index : Z) :
  unpack_trial zero (set_current_batch g index)
  = g' ← unpack_trial zero g; Ok (set_current_batch g' index).
Proof.
  unfold unpack_trial. cbn [set_current_batch indexes next_to_unpack X y
    n_crops_for_trial crop_sample_size crop_step crop_stack_X crop_stack_y].
  destruct (Py.index (indexes g) (next_to_unpack g)) as [i|]; [|done].
  cbn [mbind result_bind]. destruct (trial_at (X g) i) as [Xi|]; [|done].
  cbn [mbind result_bind]. destruct (EEGDataset.crop_X _ _ _ _ _) as [cX|]; [|done].
  cbn [mbind result_bind]. destruct (decide (next_to_unpack g = 0)).
  - destruct (Py.index (y g) i) as [yi|]; [|done]. cbn [mbind result_bind].
    by destruct (EEGDataset.crop_y _ _).
  - destruct (crop_stack_X g) as [sX|]; [|done]. cbn [mbind result_bind].
    destruct (append_axis0 sX cX); [|done]. cbn [mbind result_bind].
    destruct (Py.index (y g) i) as [yi|]; [|done]. cbn [mbind result_bind].
    destruct (EEGDataset.crop_y _ _); [|done]. cbn [mbind result_bind].
    by destruct (crop_stack_y g).
Qed.

Lemma refill_index (fuel : nat) g (index : Z) :
  refill zero fuel (set_current_batch g index)
  = match refill zero fuel g with
    | Some (Ok g') => Some (Ok (set_current_batch g' index))
    | Some (Raise e) => Some (Raise e)
    | None => None
    end.
Proof.
  revert g. induction fuel as [|fuel IH]; intros g.
  - simpl. destruct (crop_stack_y g); [|done]. by destruct (_ <? _).
  - cbn [refill]. rewrite unpack_trial_index.
    cbn [set_current_batch crop_stack_y batch_size].
    destruct (crop_stack_y g); [|done]. destruct (_ <? _); [|done].
    destruct (unpack_trial zero g) as [g'|]; [|done]. cbn [mbind result_bind].
    apply IH.
Qed.

Lemma pop_batch_index g (index : Z) :
  pop_batch (set_current_batch g index)
  = r ← pop_batch g; Ok (r.1, set_current_batch r.2 index).
Proof.
  unfold pop_batch. cbn [set_current_batch crop_stack_X crop_stack_y batch_size
    n_classes next_to_unpack].
  destruct (crop_stack_X g) as [sX|]; [|done]. destruct (crop_stack_y g) as [sy|]; [|done].
  repeat (match goal with
          | |- context [mbind _ ?m] =>
              lazymatch m with
              | Py.take_idx _ _ => destruct m
              | Keras.to_categorical _ _ => destruct m
              end
          end; cbn [mbind result_bind]; try done).
Qed.
End GeneratorEdges.

(** X18. [__getitem__] does not use its index.  Whatever index is asked
    for, the request returns the same batch, or raises the same exception;
    the index only ends up in [current_batch]. *)
Theorem getitem_ignores_index {A : Type} (zero : A) (g : EEGDataGenerator.generator A)
    (index index' : Z) :
  EEGDataGenerator.getitem zero g index'
  = match EEGDataGenerator.getitem zero g index with
    | Some (Ok (b, g')) => Some (Ok (b, EEGDataGenerator.set_current_batch g' index'))
    | Some (Raise e) => Some (Raise e)
    | None => None
    end.
Proof.
  unfold EEGDataGenerator.getitem, EEGDataGenerator.data_generation,
    EEGDataGenerator.data_generation_fuel.
  change (EEGDataGenerator.fuel_of (EEGDataGenerator.set_current_batch g index'))
    with (EEGDataGenerator.fuel_of g).
  change (EEGDataGenerator.fuel_of (EEGDataGenerator.set_current_batch g index))
    with (EEGDataGenerator.fuel_of g).
  rewrite !refill_index.
  destruct (EEGDataGenerator.refill zero (EEGDataGenerator.fuel_of g) g) as [[g1|e]|];
    [|done|done].
  rewrite !pop_batch_index.
  destruct (EEGDataGenerator.pop_batch g1) as [[b g2]|e]; [|done].
  done.
Qed.

(** X19. A request after the last batch of the epoch fails.  Once the
    [__len__] batches of an epoch are out, a further request made without
    [on_epoch_end] unpacks the trials that are left, finds fewer crops than
    a batch, and raises IndexError past the end of [indexes]. *)
Theorem getitem_past_epoch_end {A : Type} (zero : A) (g : EEGDataGenerator.generator A)
    (k : nat) (emitted : list (list (list A))) (index : Z) :
  EEGDataGenerator.observed zero g k emitted →
  0 < EEGDataGenerator.batch_size g → EEGDataGenerator.config_wf g →
  EEGDataGenerator.len g = Ok (Z.of_nat k) →
  EEGDataGenerator.getitem zero g index = Some (Raise IndexError).
Proof.
  intros Hobs HB Hcfg Hlen.
  pose proof (observed_inv zero g k emitted Hobs HB) as Hinv.
  pose proof (observed_content zero g k emitted Hobs HB) as Hcont.
  pose proof (observed_stack_wf zero g k emitted Hobs HB Hcfg) as Hstack.
  assert (EEGDataGenerator.n_crops g
          < EEGDataGenerator.batch_size g * (Z.of_nat k + 1)) as Hout.
  { unfold EEGDataGenerator.len, Py.true_div in Hlen.
    rewrite decide_False in Hlen by lia.
    cbn [mbind result_bind] in Hlen. rewrite <- Zdiv_Qdiv in Hlen.
    injection Hlen as Hlen.
    pose proof (Z.div_mod (EEGDataGenerator.n_crops g) (EEGDataGenerator.batch_size g)
                  ltac:(lia)).
    pose proof (Z.mod_pos_bound (EEGDataGenerator.n_crops g)
                  (EEGDataGenerator.batch_size g) HB). nia. }
  unfold EEGDataGenerator.getitem, EEGDataGenerator.data_generation,
    EEGDataGenerator.data_generation_fuel.
  rewrite (refill_exhausted zero _ (EEGDataGenerator.set_current_batch g index) k emitted);
    try done.
  pose proof Hinv as (_ & _ & _ & _ & Hidx & _).
  unfold EEGDataGenerator.fuel_of. simpl. rewrite Hidx. lia.
Qed.

Lemma getitem_past_epoch_end_witness :
  EEGDataGenerator.getitem 0 Sample.gen1 0 = Some (Raise IndexError).
Proof.
  apply (getitem_past_epoch_end 0 Sample.gen1 1 ([] ++ concat Sample.batch1.1) 0).
  - apply (EEGDataGenerator.observed_getitem 0 Sample.gen0 0 [] 0 Sample.batch1 Sample.gen1).
    + apply (EEGDataGenerator.observed_init 0 id (Tensor 1 5 [m_rows Sample.trial5]) [1]
               2 (Some 2) 3 1 false Sample.gen0); [by intros l|reflexivity].
    + reflexivity.
  - simpl. lia.
  - unfold EEGDataGenerator.config_wf. simpl.
    repeat split; try lia; repeat constructor; lia.
  - reflexivity.
Defined.

(** * Reading the labels back *)

Section ArgmaxFacts.

Lemma argmax_from_le (row : list Z) :
  ∀ (best : Z) (best_at i : nat),
    Forall (λ v, v ≤ best) row → Numpy.argmax_from best best_at i row = best_at.
Proof.
  induction row as [|v row IH]; intros best best_at i Hrow; [done|].
  apply Forall_cons in Hrow as [Hv Hrow]. cbn [Numpy.argmax_from].
  destruct (Z.ltb_spec best v); [lia|]. by apply IH.
Qed.

Lemma argmax_from_app (pre rest : list Z) :
  ∀ (best : Z) (best_at i : nat),
    Forall (λ v, v ≤ best) pre →
    Numpy.argmax_from best best_at i (pre ++ rest)
    = Numpy.argmax_from best best_at (i + length pre) rest.
Proof.
  induction pre as [|v pre IH]; intros best best_at i Hpre.
  - simpl. by rewrite Nat.add_0_r.
  - apply Forall_cons in Hpre as [Hv Hpre]. cbn [app Numpy.argmax_from length].
    destruct (Z.ltb_spec best v); [lia|]. rewrite IH by done. f_equal. lia.
Qed.

Lemma one_hot_row_argmax (k c : Z) (row : list Z) :
  0 ≤ c → Keras.one_hot_row k c = Ok row → Numpy.argmax row = Ok c.
Proof.
  intros Hc. unfold Keras.one_hot_row.
  destruct (Z.ltb_spec c 0); [lia|]. destruct (Z.ltb_spec c 0); [lia|].
  destruct (Z.leb_spec k c); [done|]. simpl. intros [= <-].
  rewrite insert_replicate_lt by lia.
  destruct (Z.to_nat c) as [|n] eqn:Hn.
  - simpl. rewrite argmax_from_le; [f_equal; lia|].
    apply Forall_replicate. lia.
  - cbn [replicate app Numpy.argmax]. rewrite argmax_from_app by (apply Forall_replicate; lia).
    cbn [Numpy.argmax_from]. destruct (Z.ltb_spec 0 1); [|lia].
    rewrite argmax_from_le by (apply Forall_replicate; lia).
    rewrite length_replicate. f_equal. lia.
Qed.

Lemma one_hot_rows_argmax (k : Z) (y : list Z) (rows : list (list Z)) :
  Forall (λ c, 0 ≤ c) y → Keras.one_hot_rows k y = Ok rows →
  Numpy.argmax_axis1 rows = Ok y.
Proof.
  intros Hy. revert rows. induction Hy as [|c y Hc _ IH]; intros rows; simpl.
  - by intros [= <-].
  - intros (r & Hr & (rs & Hrs & [= <-])%bind_Ok)%bind_Ok.
    cbn [Numpy.argmax_axis1]. rewrite (one_hot_row_argmax k c r Hc Hr).
    cbn [mbind result_bind]. by rewrite (IH rs Hrs).
Qed.

Lemma to_categorical_argmax (k : Z) (y : list Z) (rows : list (list Z)) :
  Forall (λ c, 0 ≤ c) y → Keras.to_categorical y k = Ok rows →
  Numpy.argmax_axis1 rows = Ok y.
Proof.
  intros Hy. unfold Keras.to_categorical. intros (k' & _ & Hrows)%bind_Ok.
  destruct (k' <? 0); [done|]. by apply (one_hot_rows_argmax k').
Qed.
End ArgmaxFacts.

(** X20. The labels survive the encoding.  Whenever [to_categorical]
    returns on a dataset whose labels are not negative, with or without a
    class count, [argmax(axis=1)] of the rows of each partition, which is
    how the metrics tracker reads the true classes, gives back the labels
    the partition had. *)
Theorem dataset_to_categorical_argmax {A : Type}
    (ds : EEGDataset.dataset (A := A) (list Z)) (n_classes : option Z)
    (ds' : EEGDataset.dataset (A := A) (list (list Z))) :
  Forall (λ c, 0 ≤ c)
         (EEGDataset.y_train ds ++ EEGDataset.y_valid ds ++ EEGDataset.y_test ds) →
  EEGDataset.to_categorical ds n_classes = Ok ds' →
  Numpy.argmax_axis1 (EEGDataset.y_train ds') = Ok (EEGDataset.y_train ds)
  ∧ Numpy.argmax_axis1 (EEGDataset.y_valid ds') = Ok (EEGDataset.y_valid ds)
  ∧ Numpy.argmax_axis1 (EEGDataset.y_test ds') = Ok (EEGDataset.y_test ds).
Proof.
  intros [H1 [H2 H3]%Forall_app]%Forall_app.
  unfold EEGDataset.to_categorical.
  intros (ytr & Htr & (yva & Hva & (yte & Hte & [= <-])%bind_Ok)%bind_Ok)%bind_Ok.
  cbn [EEGDataset.y_train EEGDataset.y_valid EEGDataset.y_test].
  split; [|split]; eapply to_categorical_argmax; eassumption.
Qed.

Lemma dataset_to_categorical_argmax_witness :
  ∃ ds',
    EEGDataset.to_categorical Sample.dataset01 None = Ok ds'
    ∧ Numpy.argmax_axis1 (EEGDataset.y_train ds') = Ok (EEGDataset.y_train Sample.dataset01)
    ∧ Numpy.argmax_axis1 (EEGDataset.y_valid ds') = Ok (EEGDataset.y_valid Sample.dataset01)
    ∧ Numpy.argmax_axis1 (EEGDataset.y_test ds') = Ok (EEGDataset.y_test Sample.dataset01).
Proof.
  eexists. split; [reflexivity|].
  apply (dataset_to_categorical_argmax Sample.dataset01 None).
  - simpl. repeat constructor; lia.
  - reflexivity.
Defined.
